(** * Prime-editing tools: identifier parsing, metric aggregation and heatmap index

    A shallow embedding of

    - [workflow_tools/quantification_analysis.py]: [extract_batch_info],
      [process_data], [get_or_create_drug];
    - [visualisation_tools/heatmap.py]: [get_experiment_data], the matrix
      construction of [create_heatmaps], and [select_runs];

    followed by the properties of the specification stated over it.

    Conventions of the embedding.
    - A Python [str] is a [string] of ASCII text.  The character classes
      [\w] and [\d], the white space of [int] and [str.strip], the digits
      of [int] and [str.lower] are the ASCII parts of Python's: on text
      that holds other characters Python's classes are larger, so a
      statement that depends on what is read from a name or from a typed
      line assumes [Str.is_ascii] of it.
    - A Python [int] is a [Z]; [int] of a string refuses more than
      [Str.max_str_digits] digits, as the interpreter does.  A pandas/numpy
      [int64] is a [Z] with the wrap-around of 64-bit addition written out
      ([wrap64]).
    - A Python [float] (and a numpy [float64]) is a primitive binary64
      [float]; division by zero follows IEEE 754 as numpy's does, and
      [np.mean] adds in numpy's pairwise order.
    - A Python [dict] is an association list in insertion order ([dict]).
    - Exceptions are the [Raise] results of [result]; [print] and [input] act
      on an explicit [world], which also holds the file system that
      [create_heatmaps] writes to. *)

From Stdlib Require Import ZArith List String Ascii Bool Lia PeanoNat Sorted.
From Stdlib Require Import PrimFloat Uint63.
Import ListNotations.

Open Scope string_scope.
Open Scope Z_scope.

(* ================================================================== *)
(** ** Python runtime: exceptions, strings, integers *)
(* ================================================================== *)

Inductive exn : Type :=
| ValueError
| EOFError
| NameError
| IndexError
| TypeError
| OSError.

Inductive result (A : Type) : Type :=
| Ok (a : A)
| Raise (e : exn).

Arguments Ok {A} a.
Arguments Raise {A} e.

Definition rbind {A B : Type} (r : result A) (f : A -> result B) : result B :=
  match r with
  | Ok a => f a
  | Raise e => Raise e
  end.

Module Str.

Definition between (lo hi c : ascii) : bool :=
  ((nat_of_ascii lo <=? nat_of_ascii c) && (nat_of_ascii c <=? nat_of_ascii hi))%nat.

Definition is_upper (c : ascii) : bool := between "A" "Z" c.
Definition is_lower (c : ascii) : bool := between "a" "z" c.
Definition is_alpha (c : ascii) : bool := is_upper c || is_lower c.
Definition is_digit (c : ascii) : bool := between "0" "9" c.
Definition is_underscore (c : ascii) : bool := Ascii.eqb c "_".
(** [\w] on ASCII text: letters, digits and the underscore.  (On other
    text Python's [\w] also takes the letters and digits of other
    scripts.) *)
Definition is_word (c : ascii) : bool := is_alpha c || is_digit c || is_underscore c.

Definition newline : ascii := "010".

(** The white space [int] skips around a number of ASCII text: tab to
    carriage return, and the blank. *)
Definition is_space (c : ascii) : bool :=
  let n := nat_of_ascii c in
  ((9 <=? n) && (n <=? 13) || (n =? 32))%nat.

Fixpoint forallb (p : ascii -> bool) (s : string) : bool :=
  match s with
  | EmptyString => true
  | String c s' => p c && forallb p s'
  end.

Fixpoint existsb (p : ascii -> bool) (s : string) : bool :=
  match s with
  | EmptyString => false
  | String c s' => p c || existsb p s'
  end.

Definition is_ascii (s : string) : bool :=
  forallb (fun c => (nat_of_ascii c <? 128)%nat) s.

Definition lower_char (c : ascii) : ascii :=
  if is_upper c then ascii_of_nat (nat_of_ascii c + 32) else c.

(** [str.lower()], on ASCII text. *)
Fixpoint lower (s : string) : string :=
  match s with
  | EmptyString => EmptyString
  | String c s' => String (lower_char c) (lower s')
  end.

Fixpoint rev_onto (s acc : string) : string :=
  match s with
  | EmptyString => acc
  | String c s' => rev_onto s' (String c acc)
  end.

Definition rev (s : string) : string := rev_onto s EmptyString.

Fixpoint lstrip (s : string) : string :=
  match s with
  | String c s' => if is_space c then lstrip s' else s
  | EmptyString => EmptyString
  end.

(** The string without the white space at its two ends. *)
Definition strip (s : string) : string := rev (lstrip (rev (lstrip s))).

(** [s.startswith(p)], returning what follows the prefix. *)
Fixpoint strip_prefix (p s : string) : option string :=
  match p with
  | EmptyString => Some s
  | String a p' =>
      match s with
      | String b s' => if Ascii.eqb a b then strip_prefix p' s' else None
      | EmptyString => None
      end
  end.

(** [s.replace(a, b)] for single characters. *)
Fixpoint replace_char (a b : ascii) (s : string) : string :=
  match s with
  | EmptyString => EmptyString
  | String c s' => String (if Ascii.eqb c a then b else c) (replace_char a b s')
  end.

Definition digit_value (c : ascii) : Z := Z.of_nat (nat_of_ascii c) - 48.

(** The value of a run of decimal digits, with the single underscores that
    Python's integer literals allow between digits.  [prev_digit] tells
    whether the previous character was a digit. *)
Fixpoint digits_value (s : string) (acc : Z) (prev_digit : bool) : option Z :=
  match s with
  | EmptyString => if prev_digit then Some acc else None
  | String c s' =>
      if is_digit c then digits_value s' (10 * acc + digit_value c) true
      else if is_underscore c && prev_digit then
        match s' with
        | String d _ => if is_digit d then digits_value s' acc false else None
        | EmptyString => None
        end
      else None
  end.

(** The number of decimal digits in [s]. *)
Fixpoint count_digits (s : string) : nat :=
  match s with
  | EmptyString => O
  | String c s' => ((if is_digit c then 1 else 0) + count_digits s')%nat
  end.

(** [sys.get_int_max_str_digits()], as the interpreter starts. *)
Definition max_str_digits : nat := 4300.

(** [int(s)] on a string, base 10: surrounding white space, an optional
    sign, digits.  Anything else raises [ValueError], and so does a number
    written with more than [max_str_digits] digits (leading zeros count,
    the sign and the underscores do not). *)
Definition int (s : string) : result Z :=
  let body := strip s in
  let parsed :=
    match body with
    | String "-" r => option_map Z.opp (digits_value r 0 false)
    | String "+" r => digits_value r 0 false
    | _ => digits_value body 0 false
    end in
  match parsed with
  | Some z => if (max_str_digits <? count_digits body)%nat then Raise ValueError else Ok z
  | None => Raise ValueError
  end.

Fixpoint of_pos_digits (fuel : nat) (n : Z) (acc : string) : string :=
  match fuel with
  | O => acc
  | S fuel' =>
      let d := ascii_of_nat (Z.to_nat (n mod 10) + 48) in
      if n <? 10 then String d acc
      else of_pos_digits fuel' (n / 10) (String d acc)
  end.

(** [str.isprintable] on one character, read as Latin-1. *)
Definition is_printable (c : ascii) : bool :=
  let n := nat_of_ascii c in
  ((32 <=? n) && (n <? 127) || (161 <=? n) && negb (n =? 173))%nat.

Definition hex_digit (n : nat) : ascii :=
  ascii_of_nat (if (n <? 10)%nat then 48 + n else 87 + n).

Definition double_quote : ascii := "034".

Definition backslash : ascii := "092".

(** One character inside [repr(s)], between quotes [quote]. *)
Definition escaped (quote c : ascii) : string :=
  if Ascii.eqb c quote || Ascii.eqb c backslash then String backslash (String c "")
  else if Ascii.eqb c "009" then String backslash "t"
  else if Ascii.eqb c "010" then String backslash "n"
  else if Ascii.eqb c "013" then String backslash "r"
  else if is_printable c then String c ""
  else String backslash
         (String "x" (String (hex_digit (nat_of_ascii c / 16))
                        (String (hex_digit (nat_of_ascii c mod 16)) ""))).

Fixpoint escaped_all (quote : ascii) (s : string) : string :=
  match s with
  | EmptyString => EmptyString
  | String c s' => escaped quote c ++ escaped_all quote s'
  end.

(** [repr(s)]: single quotes, unless [s] holds a single quote and no double
    quote. *)
Definition repr (s : string) : string :=
  let quote :=
    if existsb (Ascii.eqb "'") s && negb (existsb (Ascii.eqb double_quote) s)
    then double_quote else "'"%char in
  String quote (escaped_all quote s ++ String quote "").

(** [str(n)] for an integer. *)
Definition of_int (n : Z) : string :=
  if n <? 0 then String "-" (of_pos_digits (S (Z.to_nat (Z.log2 (- n)))) (- n) "")
  else of_pos_digits (S (Z.to_nat (Z.log2 n))) n "".

End Str.

(* ================================================================== *)
(** ** The fragment of [re] the patterns use *)
(* ================================================================== *)

Module Re.

(** One-character matchers: a literal, or a set given by its ranges
    ([[a-zA-Z_]] is [Cls] of the ranges a-z, A-Z and _). *)
Inductive atom : Type :=
| Chr (c : ascii)
| Cls (ranges : list (ascii * ascii)).

Definition atom_matches (a : atom) (c : ascii) : bool :=
  match a with
  | Chr x => Ascii.eqb x c
  | Cls ranges => List.existsb (fun r => Str.between (fst r) (snd r) c) ranges
  end.

(** The pieces of a pattern, left to right. *)
Inductive node : Type :=
| Lit (s : string)      (* literal text *)
| One (a : atom)        (* one character of a set *)
| Many1 (a : atom)      (* [a+], greedy *)
| Open                  (* [(] *)
| Close                 (* [)] *)
| Eol.                  (* [$] *)

Definition pattern : Type := list node.

(** [[a-zA-Z]], [[a-zA-Z_]], [[R/r]], [\w], [\d].  The first three are
    the sets as written; [word] and [digit] are [\w] and [\d] on ASCII
    text, where [\d] is [0-9] and [\w] is [[a-zA-Z0-9_]]. *)
Definition letters : atom := Cls [("a", "z"); ("A", "Z")]%char.
Definition letters_us : atom := Cls [("a", "z"); ("A", "Z"); ("_", "_")]%char.
Definition rep_initial : atom := Cls [("R", "R"); ("/", "/"); ("r", "r")]%char.
Definition word : atom := Cls [("a", "z"); ("A", "Z"); ("0", "9"); ("_", "_")]%char.
Definition digit : atom := Cls [("0", "9")]%char.

(** [a+]: take one character, then prefer taking more; give back one
    character at a time when what follows fails. *)
Fixpoint many1 {A : Type} (a : atom) (s : string) (k : string -> option A) : option A :=
  match s with
  | String c s' =>
      if atom_matches a c then
        match many1 a s' k with
        | Some r => Some r
        | None => k s'
        end
      else None
  | EmptyString => None
  end.

(** [$] without [re.MULTILINE]: at the end, or before a final newline. *)
Definition at_eol (s : string) : bool :=
  match s with
  | EmptyString => true
  | String c EmptyString => Ascii.eqb c Str.newline
  | _ => false
  end.

Definition consumed (start rest : string) : string :=
  substring 0 (String.length start - String.length rest) start.

(** Backtracking match of [p] at the start of [s].  [opened] holds the
    input positions of the groups not yet closed, [caps] the text of the
    closed ones, last first. *)
Fixpoint run (p : pattern) (s : string) (opened : list string) (caps : list string)
  : option (list string) :=
  match p with
  | [] => Some (List.rev caps)
  | Lit t :: p' =>
      match Str.strip_prefix t s with
      | Some s' => run p' s' opened caps
      | None => None
      end
  | One a :: p' =>
      match s with
      | String c s' => if atom_matches a c then run p' s' opened caps else None
      | EmptyString => None
      end
  | Many1 a :: p' => many1 a s (fun s' => run p' s' opened caps)
  | Open :: p' => run p' s (s :: opened) caps
  | Close :: p' =>
      match opened with
      | start :: opened' => run p' s opened' (consumed start s :: caps)
      | [] => None
      end
  | Eol :: p' => if at_eol s then run p' s opened caps else None
  end.

(** [re.match(p, s)]: [None], or the groups 1, 2, ... of the match. *)
Definition re_match (p : pattern) (s : string) : option (list string) :=
  run p s [] [].

(** [m.group(i)] for [i >= 1]. *)
Definition group (m : list string) (i : nat) : result string :=
  match nth_error m (i - 1) with
  | Some g => Ok g
  | None => Raise IndexError
  end.

End Re.

(* ================================================================== *)
(** ** The world [print] and [input] act on *)
(* ================================================================== *)

(** What lies outside the program when it writes figures: whether a path
    exists, what [os.makedirs] answers for a directory, and what drawing a
    figure and saving it answers, given the files saved before, the key,
    the axes and the matrix of the figure, and its file name. *)
Record file_system : Type := mkFiles {
  path_exists : string -> bool;
  makedirs : string -> result unit;
  savefig : list string -> string * string * string -> list Z -> list Z
            -> list (list float) -> string -> result unit;
  saved : list string                         (* the files written, oldest first *)
}.

(** The rows of the [drugs] table are [(id, name, description)]. *)
Record world : Type := mkWorld {
  stdin : list string;                        (* the lines the operator will type *)
  stdout : list string;                       (* what was printed, oldest first *)
  drugs_table : list (string * string * string);
  drug_cache : list (string * string);        (* [get_or_create_drug.drug_cache] *)
  uuid_source : nat -> string;                (* the values [uuid.uuid4()] draws *)
  uuid_drawn : nat;
  files : file_system
}.

(** A computation may print, read, and raise; the world survives a raise. *)
Definition M (A : Type) : Type := world -> result A * world.

Definition ret {A : Type} (a : A) : M A := fun w => (Ok a, w).

Definition raise {A : Type} (e : exn) : M A := fun w => (Raise e, w).

Definition bind {A B : Type} (m : M A) (f : A -> M B) : M B :=
  fun w =>
    match m w with
    | (Ok a, w') => f a w'
    | (Raise e, w') => (Raise e, w')
    end.

Definition lift {A : Type} (r : result A) : M A := fun w => (r, w).

Declare Scope py_scope.
Delimit Scope py_scope with py.
Notation "x <- m ;; k" := (bind m (fun x => k))
  (at level 61, m at next level, right associativity) : py_scope.
Notation "m ;;; k" := (bind m (fun _ => k))
  (at level 61, right associativity) : py_scope.
Open Scope py_scope.

Definition with_stdout (w : world) (out : list string) : world :=
  mkWorld (stdin w) out (drugs_table w) (drug_cache w) (uuid_source w) (uuid_drawn w)
    (files w).

Definition with_stdin (w : world) (inp : list string) : world :=
  mkWorld inp (stdout w) (drugs_table w) (drug_cache w) (uuid_source w) (uuid_drawn w)
    (files w).

(** [print(line)] *)
Definition print (line : string) : M unit :=
  fun w => (Ok tt, with_stdout w (stdout w ++ [line])).

(** [input(prompt)]: show the prompt, read one line; [EOFError] when the
    operator has nothing more to say. *)
Definition input (prompt : string) : M string :=
  fun w =>
    let w' := with_stdout w (stdout w ++ [prompt]) in
    match stdin w' with
    | line :: rest => (Ok line, with_stdin w' rest)
    | [] => (Raise EOFError, w')
    end.

(* ================================================================== *)
(** ** [quantification_analysis.extract_batch_info] *)
(* ================================================================== *)

Import Re.

(** [[a-zA-Z]+(PE\w+)_P(\d+)_R(\d+)_[R/r]ep(\d+)] *)
Definition pattern1 : pattern :=
  [Many1 letters; Open; Lit "PE"; Many1 word; Close;
   Lit "_P"; Open; Many1 digit; Close;
   Lit "_R"; Open; Many1 digit; Close;
   Lit "_"; One rep_initial; Lit "ep"; Open; Many1 digit; Close].

(** [[a-zA-Z]+(PE\w+)_R(\d+)_P(\d+)_[R/r]ep(\d+)] *)
Definition pattern2 : pattern :=
  [Many1 letters; Open; Lit "PE"; Many1 word; Close;
   Lit "_R"; Open; Many1 digit; Close;
   Lit "_P"; Open; Many1 digit; Close;
   Lit "_"; One rep_initial; Lit "ep"; Open; Many1 digit; Close].

(** [[a-zA-Z]+_P(\d+)_R(\d+)_[R/r]ep(\d+)] *)
Definition pattern3 : pattern :=
  [Many1 letters;
   Lit "_P"; Open; Many1 digit; Close;
   Lit "_R"; Open; Many1 digit; Close;
   Lit "_"; One rep_initial; Lit "ep"; Open; Many1 digit; Close].

(** [[a-zA-Z]+_R(\d+)_P(\d+)_[R/r]ep(\d+)] *)
Definition pattern4 : pattern :=
  [Many1 letters;
   Lit "_R"; Open; Many1 digit; Close;
   Lit "_P"; Open; Many1 digit; Close;
   Lit "_"; One rep_initial; Lit "ep"; Open; Many1 digit; Close].

(** [[a-zA-Z_]+(PE\w+)_P(\d+)R(\d+)_([a-zA-Z]+)$] *)
Definition pattern_drug : pattern :=
  [Many1 letters_us; Open; Lit "PE"; Many1 word; Close;
   Lit "_P"; Open; Many1 digit; Close;
   Lit "R"; Open; Many1 digit; Close;
   Lit "_"; Open; Many1 letters; Close; Eol].

(** [[a-zA-Z_]+(PE\w+)_P(\d+)R(\d+)_([a-zA-Z]+)_[R/r]ep(\d+)] *)
Definition pattern_drug_rep : pattern :=
  [Many1 letters_us; Open; Lit "PE"; Many1 word; Close;
   Lit "_P"; Open; Many1 digit; Close;
   Lit "R"; Open; Many1 digit; Close;
   Lit "_"; Open; Many1 letters; Close;
   Lit "_"; One rep_initial; Lit "ep"; Open; Many1 digit; Close].

(** [int(m.group(i))] *)
Definition int_group (m : list string) (i : nat) : M Z :=
  lift (rbind (group m i) Str.int).

Definition str_group (m : list string) (i : nat) : M string :=
  lift (group m i).

(** The tuple [(prime_editor, pbs, rtt, replicate, drug_code)]; each
    component may be [None]. *)
Definition batch_info : Type :=
  (option string * option Z * option Z * option Z * option string)%type.

Definition no_info : batch_info := (None, None, None, None, None).

Definition extract_batch_info (batch_name : string) : M batch_info :=
  let match1 := re_match pattern1 batch_name in
  let match2 := re_match pattern2 batch_name in
  let match3 := re_match pattern3 batch_name in
  let match4 := re_match pattern4 batch_name in
  let match_drug_rep := re_match pattern_drug_rep batch_name in
  let match_drug := re_match pattern_drug batch_name in
  match match1, match2, match3, match4, match_drug_rep, match_drug with
  | Some m, _, _, _, _, _ =>
      prime_editor <- str_group m 1 ;;
      pbs <- int_group m 2 ;;
      rtt <- int_group m 3 ;;
      replicate <- int_group m 4 ;;
      ret (Some prime_editor, Some pbs, Some rtt, Some replicate, None)
  | None, Some m, _, _, _, _ =>
      prime_editor <- str_group m 1 ;;
      rtt <- int_group m 2 ;;
      pbs <- int_group m 3 ;;
      replicate <- int_group m 4 ;;
      ret (Some prime_editor, Some pbs, Some rtt, Some replicate, None)
  | None, None, Some m, _, _, _ =>
      pbs <- int_group m 1 ;;
      rtt <- int_group m 2 ;;
      replicate <- int_group m 3 ;;
      ret (None, Some pbs, Some rtt, Some replicate, None)
  | None, None, None, Some m, _, _ =>
      rtt <- int_group m 1 ;;
      pbs <- int_group m 2 ;;
      replicate <- int_group m 3 ;;
      ret (None, Some pbs, Some rtt, Some replicate, None)
  | None, None, None, None, Some m, _ =>
      prime_editor <- str_group m 1 ;;
      pbs <- int_group m 2 ;;
      rtt <- int_group m 3 ;;
      replicate <- int_group m 4 ;;
      drug_code <- str_group m 5 ;;
      ret (Some prime_editor, Some pbs, Some rtt, Some replicate, Some drug_code)
  | None, None, None, None, None, Some m =>
      prime_editor <- str_group m 1 ;;
      pbs <- int_group m 2 ;;
      rtt <- int_group m 3 ;;
      drug_code <- str_group m 4 ;;
      let replicate := 1 in
      ret (Some prime_editor, Some pbs, Some rtt, Some replicate, Some drug_code)
  | None, None, None, None, None, None =>
      print ("Warning: Could not parse batch name: " ++ batch_name) ;;;
      ret no_info
  end.


(* ================================================================== *)
(** ** Python dictionaries, sets and lists *)
(* ================================================================== *)

(** Keys are compared with [==]. *)
Class EqKey (K : Type) : Type := { keqb : K -> K -> bool }.

#[export] Instance string_EqKey : EqKey string := { keqb := String.eqb }.
#[export] Instance Z_EqKey : EqKey Z := { keqb := Z.eqb }.
#[export] Instance pair_EqKey {A B : Type} `{EqKey A} `{EqKey B} : EqKey (A * B) :=
  { keqb := fun x y => keqb (fst x) (fst y) && keqb (snd x) (snd y) }.

(** A [dict]: the items in insertion order, one per key. *)
Definition dict (K V : Type) : Type := list (K * V).

Section Dict.
Context {K V : Type} `{EqKey K}.

(** [d.get(k)] *)
Fixpoint dict_get (k : K) (d : dict K V) : option V :=
  match d with
  | [] => None
  | (k', v) :: d' => if keqb k' k then Some v else dict_get k d'
  end.

(** [d[k] = v]: an existing key keeps its place, a new one goes last. *)
Fixpoint dict_set (k : K) (v : V) (d : dict K V) : dict K V :=
  match d with
  | [] => [(k, v)]
  | (k', v') :: d' => if keqb k' k then (k', v) :: d' else (k', v') :: dict_set k v d'
  end.

(** [k in d] *)
Definition dict_mem (k : K) (d : dict K V) : bool :=
  match dict_get k d with
  | Some _ => true
  | None => false
  end.

Definition dict_keys (d : dict K V) : list K := map fst d.
Definition dict_values (d : dict K V) : list V := map snd d.

(** [{k: v for (k, v) in rows}] *)
Definition dict_of_rows (rows : list (K * V)) : dict K V :=
  fold_left (fun d kv => dict_set (fst kv) (snd kv) d) rows [].

End Dict.

Section PySet.
Context {A : Type} `{EqKey A}.

(** [x in xs] *)
Definition contains (x : A) (xs : list A) : bool := List.existsb (keqb x) xs.

(** [s.add(x)] on a set kept as a list without repetition. *)
Definition set_add (x : A) (s : list A) : list A :=
  if contains x s then s else s ++ [x].

(** [set(xs)] *)
Definition set_of (xs : list A) : list A := fold_left (fun s x => set_add x s) xs [].

(** [s == t] on sets. *)
Definition set_eqb (s t : list A) : bool :=
  List.forallb (fun x => contains x t) s && List.forallb (fun x => contains x s) t.

End PySet.

(** [for x in xs: body], the loop state threaded through. *)
Fixpoint for_each {A S : Type} (xs : list A) (body : A -> S -> M S) (s : S) : M S :=
  match xs with
  | [] => ret s
  | x :: rest => s' <- body x s ;; for_each rest body s'
  end.

(** [enumerate(xs, start)] *)
Fixpoint enumerate {A : Type} (start : nat) (xs : list A) : list (nat * A) :=
  match xs with
  | [] => []
  | x :: rest => (start, x) :: enumerate (S start) rest
  end.

(* ================================================================== *)
(** ** Numbers: [int64] counts and [float64] percentages *)
(* ================================================================== *)

(** The value a 64-bit signed register holds after an exact result [z]. *)
Definition wrap64 (z : Z) : Z := (z + 2 ^ 63) mod 2 ^ 64 - 2 ^ 63.

(** numpy's conversion of an [int64] to [float64] (round to nearest even). *)
Definition float_of_int64 (z : Z) : float :=
  if z =? - 2 ^ 63 then PrimFloat.opp (PrimFloat.mul (PrimFloat.of_uint63 (Uint63.of_Z (2 ^ 62))) 2%float)
  else if z <? 0 then PrimFloat.opp (PrimFloat.of_uint63 (Uint63.of_Z (- z)))
  else PrimFloat.of_uint63 (Uint63.of_Z z).

(** [a / b] on two [int64] scalars: true division in [float64]; a zero
    divisor gives an infinity or NaN (numpy warns, it does not raise). *)
Definition true_divide (a b : Z) : float :=
  PrimFloat.div (float_of_int64 a) (float_of_int64 b).

(** [len(xs)] as a float. *)
Definition float_of_len {A : Type} (xs : list A) : float :=
  float_of_int64 (Z.of_nat (List.length xs)).

(** [r[j] += a[j]] for the eight accumulators of numpy's unrolled loop. *)
Fixpoint add_each (r a : list float) : list float :=
  match r, a with
  | x :: r', y :: a' => PrimFloat.add x y :: add_each r' a'
  | _, _ => r
  end.

(** The unrolled loop over [blocks] further groups of eight values: the
    accumulators after it, and the values it has not read. *)
Fixpoint add_blocks (blocks : nat) (r vals : list float) : list float * list float :=
  match blocks with
  | O => (r, vals)
  | S blocks' => add_blocks blocks' (add_each r (firstn 8 vals)) (skipn 8 vals)
  end.

(** [((r0 + r1) + (r2 + r3)) + ((r4 + r5) + (r6 + r7))] *)
Definition add_accumulators (r : list float) : float :=
  match r with
  | [r0; r1; r2; r3; r4; r5; r6; r7] =>
      PrimFloat.add (PrimFloat.add (PrimFloat.add r0 r1) (PrimFloat.add r2 r3))
                    (PrimFloat.add (PrimFloat.add r4 r5) (PrimFloat.add r6 r7))
  | _ => fold_left PrimFloat.add r PrimFloat.neg_zero
  end.

(** numpy's sum of 8 to 128 values: eight running sums over the groups of
    eight, added in pairs, then the values left over, one after the other. *)
Definition block_sum (vals : list float) : float :=
  let '(r, rest) := add_blocks (List.length vals / 8 - 1) (firstn 8 vals) (skipn 8 vals) in
  fold_left PrimFloat.add rest (add_accumulators r).

(** numpy's [pairwise_sum] of a contiguous [float64] array: fewer than
    eight values are added left to right, starting from [-0.0]; up to 128
    values go through [block_sum]; a longer array is cut in two near its
    middle, at a multiple of eight, and the sums of the halves are added.
    Every cut shortens the array, so [fuel] at its length is never used up.
    (Earlier versions of numpy start from [0.0], here and in [np_sum]; the
    result differs only in the sign of a zero sum of negative zeros.) *)
Fixpoint pairwise_sum (fuel : nat) (vals : list float) : float :=
  let n := List.length vals in
  if (n <? 8)%nat then fold_left PrimFloat.add vals PrimFloat.neg_zero
  else if (n <=? 128)%nat then block_sum vals
  else
    match fuel with
    | O => block_sum vals
    | S fuel' =>
        let n2 := (n / 2 - (n / 2) mod 8)%nat in
        PrimFloat.add (pairwise_sum fuel' (firstn n2 vals)) (pairwise_sum fuel' (skipn n2 vals))
    end.

(** [np.sum(vals)]: the pairwise sum, added to the identity [-0.0] of the
    reduction. *)
Definition np_sum (vals : list float) : float :=
  PrimFloat.add PrimFloat.neg_zero (pairwise_sum (List.length vals) vals).

(** [np.mean(vals)]: the sum divided by the count; NaN on an empty list. *)
Definition np_mean (vals : list float) : float := PrimFloat.div (np_sum vals) (float_of_len vals).

(* ================================================================== *)
(** ** [quantification_analysis.process_data] *)
(* ================================================================== *)

(** One line of the TSV table, as [pd.read_csv] delivers it. *)
Record row : Type := mkRow {
  Batch : string;
  Amplicon : string;
  Unmodified : Z;
  Modified : Z;
  Discarded : Z
}.

Definition dataframe : Type := list row.

(** [df['Batch'].unique()]: the names in order of first appearance. *)
Definition unique (names : list string) : list string :=
  fold_left (fun seen n => if contains n seen then seen else (seen ++ [n])%list) names [].

(** [df[df['Batch'] == batch_name]] *)
Definition rows_of_batch (df : dataframe) (batch_name : string) : dataframe :=
  filter (fun r => String.eqb (Batch r) batch_name) df.

(** [batch_data[batch_data['Amplicon'] == label]] *)
Definition rows_of_amplicon (batch_data : dataframe) (label : string) : dataframe :=
  filter (fun r => String.eqb (Amplicon r) label) batch_data.

(** [batch_data[col].sum()] on an [int64] column. *)
Definition column_sum (col : row -> Z) (batch_data : dataframe) : Z :=
  fold_left (fun acc r => wrap64 (acc + col r)) batch_data 0.

(** [(count / total_reads) * 100] *)
Definition percent (count total_reads : Z) : float :=
  PrimFloat.mul (true_divide count total_reads) (float_of_int64 100).

(** The value stored per batch; [prime_editor = None] is the key missing,
    as in [missing_pe_batches] before the operator answers. *)
Record batch_record : Type := mkBatch {
  prime_editor : option string;
  pbs : Z;
  rtt : Z;
  replicate : Z;
  correct_edits : float;
  incorrect_edits : float;
  scaffold_incorporated : float;
  drug_code : option string
}.

Definition set_prime_editor (data : batch_record) (pe : string) : batch_record :=
  mkBatch (Some pe) (pbs data) (rtt data) (replicate data) (correct_edits data)
    (incorrect_edits data) (scaffold_incorporated data) (drug_code data).

(** [batches] and [missing_pe_batches] *)
Record batch_state : Type := mkState {
  batches : dict string batch_record;
  missing_pe_batches : dict string batch_record
}.

(** [drug_code and drug_code.lower() == 'ctrl'] sends the code to [None]. *)
Definition control_to_none (code : option string) : option string :=
  match code with
  | Some c =>
      if negb (String.eqb c "") && String.eqb (Str.lower c) "ctrl" then None else Some c
  | None => None
  end.

(** The body of the loop over [unique_batches]; each [continue] returns the
    state as it was. *)
Definition process_batch (df : dataframe) (batch_name : string) (st : batch_state)
  : M batch_state :=
  let batch_data := rows_of_batch df batch_name in
  if negb (List.length batch_data =? 3)%nat then
    print ("Warning: Batch " ++ batch_name ++ " does not have exactly 3 rows. Skipping.") ;;;
    ret st
  else
    let total_unmodified := column_sum Unmodified batch_data in
    let total_modified := column_sum Modified batch_data in
    let total_discarded := column_sum Discarded batch_data in
    let total_reads := wrap64 (wrap64 (total_unmodified + total_modified) + total_discarded) in
    match rows_of_amplicon batch_data "Prime-edited" with
    | [prime_edited_row] =>
        match rows_of_amplicon batch_data "Scaffold-incorporated" with
        | [scaffold_row] =>
            let correct := percent (Unmodified prime_edited_row) total_reads in
            let incorrect := percent (Modified prime_edited_row) total_reads in
            let scaffold := percent (Modified scaffold_row) total_reads in
            info <- extract_batch_info batch_name ;;
            match info with
            | (pe, Some pbs_, Some rtt_, Some replicate_, code) =>
                let code' := control_to_none code in
                let data := mkBatch pe pbs_ rtt_ replicate_ correct incorrect scaffold code' in
                match pe with
                | None =>
                    ret (mkState (batches st) (dict_set batch_name data (missing_pe_batches st)))
                | Some _ =>
                    ret (mkState (dict_set batch_name data (batches st)) (missing_pe_batches st))
                end
            | _ =>
                print ("Warning: Could not extract PBS, RTT, or replicate from batch "
                       ++ batch_name ++ ". Skipping.") ;;;
                ret st
            end
        | _ =>
            print ("Warning: Batch " ++ batch_name
                   ++ " does not have exactly one 'Scaffold-incorporated' row. Skipping.") ;;;
            ret st
        end
    | _ =>
        print ("Warning: Batch " ++ batch_name
               ++ " does not have exactly one 'Prime-edited' row. Skipping.") ;;;
        ret st
    end.

Definition nl : string := String Str.newline "".

(** The operator names the prime editor of the batches that lack one: one
    answer for all, or, after the answer [different], one answer per batch. *)
Definition resolve_missing (st : batch_state) : M (dict string batch_record) :=
  match missing_pe_batches st with
  | [] => ret (batches st)
  | missing =>
      print (nl ++ "Found " ++ Str.of_int (Z.of_nat (List.length missing))
             ++ " batches with missing prime editor information.") ;;;
      response <- input "Enter prime editor name for these batches (e.g., PE2, PEMax), or enter different for individual prompts: " ;;
      if String.eqb (Str.lower response) "different" then
        for_each missing
          (fun item acc =>
             pe <- input ("Enter prime editor name for batch '" ++ fst item ++ "': ") ;;
             ret (dict_set (fst item) (set_prime_editor (snd item) pe) acc))
          (batches st)
      else
        for_each missing
          (fun item acc =>
             ret (dict_set (fst item) (set_prime_editor (snd item) response) acc))
          (batches st)
  end.

Definition process_data (df : dataframe) : M (dict string batch_record) :=
  let unique_batches := unique (map Batch df) in
  st <- for_each unique_batches (process_batch df) (mkState [] []) ;;
  resolve_missing st.

(* ================================================================== *)
(** ** [quantification_analysis.get_or_create_drug] *)
(* ================================================================== *)

(** The id of the reserved drug named [None], inserted by [setup_database]. *)
Definition no_drug_id : string := "00000000-0000-0000-0000-000000000000".

Definition with_drugs (w : world) (table : list (string * string * string))
  (cache : list (string * string)) (drawn : nat) : world :=
  mkWorld (stdin w) (stdout w) table cache (uuid_source w) drawn (files w).

(** [SELECT id, name FROM drugs] *)
Definition select_drugs : M (list (string * string)) :=
  fun w => (Ok (map fst (drugs_table w)), w).

(** [INSERT INTO drugs (id, name, description) VALUES (?, ?, ?)] *)
Definition insert_drug (id name description : string) : M unit :=
  fun w => (Ok tt, with_drugs w (drugs_table w ++ [(id, name, description)])
                     (drug_cache w) (uuid_drawn w)).

(** [str(uuid.uuid4())] *)
Definition uuid4 : M string :=
  fun w => (Ok (uuid_source w (uuid_drawn w)),
            with_drugs w (drugs_table w) (drug_cache w) (S (uuid_drawn w))).

Definition read_cache : M (dict string string) := fun w => (Ok (drug_cache w), w).

Definition write_cache (code id : string) : M unit :=
  fun w => (Ok tt, with_drugs w (drugs_table w) (dict_set code id (drug_cache w)) (uuid_drawn w)).

(** The [while True] loop asking for a number in [0..n].  Every round reads
    a line, so [fuel] above the number of lines left is never used up. *)
Fixpoint select_loop (fuel : nat) (n : Z) : M Z :=
  match fuel with
  | O => raise EOFError
  | S fuel' =>
      line <- input (nl ++ "Select a drug or create new (0-" ++ Str.of_int n ++ "): ") ;;
      match Str.int line with
      | Ok selection =>
          if (0 <=? selection) && (selection <=? n) then ret selection
          else print "Invalid selection. Please try again." ;;; select_loop fuel' n
      | Raise _ => print "Please enter a number." ;;; select_loop fuel' n
      end
  end.

Definition select_number (n : Z) : M Z :=
  fun w => select_loop (S (List.length (stdin w))) n w.

Definition get_or_create_drug (drug_code : option string) : M string :=
  match drug_code with
  | None => ret no_drug_id
  | Some code =>
      cache <- read_cache ;;
      match dict_get code cache with
      | Some id => ret id
      | None =>
          drugs <- select_drugs ;;
          print (nl ++ "Found drug code '" ++ code ++ "' in batch name.") ;;;
          print "Available drugs:" ;;;
          print "0. Create new drug" ;;;
          for_each (enumerate 1 drugs)
            (fun item _ => print (Str.of_int (Z.of_nat (fst item)) ++ ". " ++ snd (snd item)))
            tt ;;;
          selection <- select_number (Z.of_nat (List.length drugs)) ;;
          drug_id <-
            (if selection =? 0 then
               drug_name <- input ("Enter name for drug '" ++ code ++ "': ") ;;
               drug_description <- input "Enter description (optional): " ;;
               id <- uuid4 ;;
               insert_drug id drug_name drug_description ;;;
               ret id
             else
               match nth_error drugs (Z.to_nat (selection - 1)) with
               | Some d => ret (fst d)
               | None => raise IndexError
               end) ;;
          write_cache code drug_id ;;;
          ret drug_id
      end
  end.

(* ================================================================== *)
(** ** [heatmap.get_experiment_data] *)
(* ================================================================== *)

(** A row of the [data_points] query: eight columns. *)
Record data_point : Type := mkPoint {
  dp_entry_id : string;
  dp_correct : float;
  dp_incorrect : float;
  dp_scaffold : float;
  dp_editor : string;
  dp_replicate : Z;
  dp_run_id : string;
  dp_drug_id : string
}.

(** The number of items in the tuple [cursor.fetchall()] returns per row. *)
Definition tuple_len (_ : data_point) : nat := 8.

(** [for t1, ..., tn in rows]: unpacking a tuple into [targets] names
    raises [ValueError] unless the tuple has exactly that many items. *)
Definition unpack (targets : nat) (r : data_point) : M data_point :=
  if (targets =? tuple_len r)%nat then ret r else raise ValueError.

(** What the queries of [get_experiment_data] return for the experiment and
    the selected runs. *)
Record query_results : Type := mkQuery {
  q_prime_editors : list string;                 (* DISTINCT d.prime_editor *)
  q_drugs : list (string * string);              (* DISTINCT dr.id, dr.name *)
  q_runs : list (string * string);               (* id, run_name *)
  q_entries : list (string * (Z * Z));           (* id, pbs, rtt *)
  q_data_points : list data_point;
  q_exp_details : option (string * option string) (* name, variant *)
}.

(** [(editor, drug_name, metric)] *)
Definition agg_key : Type := (string * string * string)%type.
(** [(pbs, rtt)] *)
Definition position : Type := (Z * Z)%type.

(** [heatmap_data[key][pos].append(v)] on a [defaultdict] of [defaultdict]s
    of lists. *)
Definition append_value (key : agg_key) (pos : position) (v : float)
  (heatmap_data : dict agg_key (dict position (list float)))
  : dict agg_key (dict position (list float)) :=
  let inner := match dict_get key heatmap_data with Some d => d | None => [] end in
  let vals := match dict_get pos inner with Some l => l | None => [] end in
  dict_set key (dict_set pos (vals ++ [v])%list inner) heatmap_data.

(** [pbs_rtt_in_runs[(pbs, rtt)].add(run_id)] on a [defaultdict(set)]. *)
Definition add_run (pos : position) (run_id : string)
  (pbs_rtt_in_runs : dict position (list string)) : dict position (list string) :=
  let s := match dict_get pos pbs_rtt_in_runs with Some s => s | None => [] end in
  dict_set pos (set_add run_id s) pbs_rtt_in_runs.

(** The first [if normalize:] block: the reference point it chooses, or
    [None] when it sets [normalize = False]. *)
Definition find_reference (entries : dict string position) (runs : dict string string)
  (data_points : list data_point) : M (option position) :=
  pbs_rtt_in_runs <-
    for_each data_points
      (fun r acc =>
         t <- unpack 7 r ;;
         match dict_get (dp_entry_id t) entries with
         | Some pos => ret (add_run pos (dp_run_id t) acc)
         | None => ret acc
         end)
      [] ;;
  let all_runs := set_of (dict_keys runs) in
  let common_pbs_rtt :=
    map fst (filter (fun item => set_eqb (snd item) all_runs) pbs_rtt_in_runs) in
  match common_pbs_rtt with
  | [] =>
      print "Warning: No common PBS/RTT combination found across all runs. Normalization disabled." ;;;
      ret None
  | (norm_pbs, norm_rtt) :: _ =>
      print ("Normalizing data using PBS=" ++ Str.of_int norm_pbs ++ ", RTT="
             ++ Str.of_int norm_rtt ++ " as reference point.") ;;;
      ret (Some (norm_pbs, norm_rtt))
  end.

(** [run_normalization_factors]: per run, the mean of [correct_edits] at
    the reference point. *)
Definition reference_means (entries : dict string position) (runs : dict string string)
  (data_points : list data_point) (ref : position) : M (dict string float) :=
  for_each (dict_keys runs)
    (fun run_id factors =>
       ref_values <-
         for_each data_points
           (fun r acc =>
              t <- unpack 7 r ;;
              if String.eqb (dp_run_id t) run_id then
                match dict_get (dp_entry_id t) entries with
                | Some (p, q) =>
                    if (p =? fst ref) && (q =? snd ref) then ret (acc ++ [dp_correct t])%list
                    else ret acc
                | None => ret acc
                end
              else ret acc)
           [] ;;
       match ref_values with
       | [] => ret factors
       | _ => ret (dict_set run_id (np_mean ref_values) factors)
       end)
    [].

(** [norm_factor] for one data point. *)
Definition norm_factor_of (normalize : bool) (factors : dict string float)
  (global_factor : option float) (run_id : string) : M float :=
  match dict_get run_id factors with
  | Some f =>
      if normalize && PrimFloat.ltb 0%float f then
        match global_factor with
        | Some g => ret (PrimFloat.div g f)
        | None => raise NameError
        end
      else ret 1%float
  | None => ret 1%float
  end.

Definition averaged : Type := dict agg_key (dict position float).

Definition get_experiment_data (q : query_results) (selected_runs : option (list string))
  (normalize : bool)
  : M (averaged * list string * dict string string * string * string * dict string string) :=
  let prime_editors := q_prime_editors q in
  let drugs :=
    match dict_of_rows (q_drugs q) with
    | [] => [(no_drug_id, "None")]
    | d => d
    end in
  let all_runs := dict_of_rows (q_runs q) in
  let runs :=
    match selected_runs with
    | Some ((_ :: _) as sel) => filter (fun item => contains (fst item) sel) all_runs
    | _ => all_runs
    end in
  let entries := dict_of_rows (q_entries q) in
  let data_points := q_data_points q in
  ref <- (if normalize then find_reference entries runs data_points else ret None) ;;
  let normalize := match ref with Some _ => true | None => false end in
  factors <-
    match ref with
    | Some r => reference_means entries runs data_points r
    | None => ret []
    end ;;
  let global_factor :=
    match factors with
    | [] => None
    | _ => if normalize then Some (np_mean (dict_values factors)) else None
    end in
  heatmap_data <-
    for_each data_points
      (fun r acc =>
         t <- unpack 8 r ;;
         match dict_get (dp_entry_id t) entries with
         | Some pos =>
             norm_factor <- norm_factor_of normalize factors global_factor (dp_run_id t) ;;
             let drug_name :=
               match dict_get (dp_drug_id t) drugs with
               | Some n => n
               | None => "Unknown"
               end in
             let acc1 := append_value (dp_editor t, drug_name, "correct_edits") pos
                           (PrimFloat.mul (dp_correct t) norm_factor) acc in
             let acc2 := append_value (dp_editor t, drug_name, "incorrect_edits") pos
                           (PrimFloat.mul (dp_incorrect t) norm_factor) acc1 in
             let acc3 := append_value (dp_editor t, drug_name, "scaffold_incorporated") pos
                           (PrimFloat.mul (dp_scaffold t) norm_factor) acc2 in
             ret acc3
         | None => ret acc
         end)
      [] ;;
  let averaged_data :=
    map (fun kv => (fst kv, map (fun pv => (fst pv, np_mean (snd pv))) (snd kv))) heatmap_data in
  match q_exp_details q with
  | Some (exp_name, variant) =>
      let exp_variant := match variant with Some v => v | None => "" end in
      ret (averaged_data, prime_editors, drugs, exp_name, exp_variant, runs)
  | None => raise TypeError
  end.

(* ================================================================== *)
(** ** [heatmap.create_heatmaps]: the matrix behind each figure *)
(* ================================================================== *)

(** [sorted(xs)] on integers, by insertion. *)
Fixpoint insert_sorted (x : Z) (l : list Z) : list Z :=
  match l with
  | [] => [x]
  | y :: rest => if x <=? y then x :: l else y :: insert_sorted x rest
  end.

Definition sorted (xs : list Z) : list Z := fold_right insert_sorted [] xs.

(** [np.full((rows, cols), v)] *)
Definition np_full (rows cols : nat) (v : float) : list (list float) :=
  repeat (repeat v cols) rows.

(** [l[i] = v] for [i] in range. *)
Fixpoint list_set {A : Type} (l : list A) (i : nat) (v : A) : list A :=
  match l, i with
  | [], _ => []
  | _ :: rest, O => v :: rest
  | x :: rest, S i' => x :: list_set rest i' v
  end.

(** [matrix[i, j] = v] *)
Definition matrix_set (matrix : list (list float)) (i j : nat) (v : float)
  : list (list float) :=
  match nth_error matrix i with
  | Some line => list_set matrix i (list_set line j v)
  | None => matrix
  end.

(** Lines 250-262: the axes and the matrix of one key. *)
Definition build_matrix (cells : dict position float)
  : list Z * list Z * list (list float) :=
  let positions := dict_keys cells in
  let pbs_values := sorted (set_of (map fst positions)) in
  let rtt_values := sorted (set_of (map snd positions)) in
  let matrix := np_full (List.length pbs_values) (List.length rtt_values) PrimFloat.nan in
  let matrix :=
    fold_left
      (fun m ip =>
         fold_left
           (fun m jr =>
              match dict_get (snd ip, snd jr) cells with
              | Some v => matrix_set m (fst ip) (fst jr) v
              | None => m
              end)
           (enumerate 0 rtt_values) m)
      (enumerate 0 pbs_values) matrix in
  (pbs_values, rtt_values, matrix).

(** One saved figure: its key, axes, matrix and file name. *)
Record heatmap : Type := mkHeatmap {
  hm_key : agg_key;
  hm_pbs_values : list Z;
  hm_rtt_values : list Z;
  hm_matrix : list (list float);
  hm_filename : string
}.

Definition metrics : list string :=
  ["correct_edits"; "incorrect_edits"; "scaffold_incorporated"].

Definition with_files (w : world) (fs : file_system) : world :=
  mkWorld (stdin w) (stdout w) (drugs_table w) (drug_cache w) (uuid_source w) (uuid_drawn w) fs.

(** [if not os.path.exists(path): os.makedirs(path)] *)
Definition ensure_directory (path : string) : M unit :=
  fun w => if path_exists (files w) path then (Ok tt, w) else (makedirs (files w) path, w).

(** The figure drawn by seaborn and written by [plt.savefig(filename)]. *)
Definition save_figure (key : agg_key) (pbs_values rtt_values : list Z)
  (matrix : list (list float)) (filename : string) : M unit :=
  fun w =>
    let fs := files w in
    match savefig fs (saved fs) key pbs_values rtt_values matrix filename with
    | Ok _ =>
        (Ok tt, with_files w (mkFiles (path_exists fs) (makedirs fs) (savefig fs)
                                (saved fs ++ [filename])))
    | Raise e => (Raise e, w)
    end.

(** [str(key)] for the tuple [(editor, drug_name, metric)]. *)
Definition str_of_key (key : agg_key) : string :=
  "(" ++ Str.repr (fst (fst key)) ++ ", " ++ Str.repr (snd (fst key)) ++ ", "
  ++ Str.repr (snd key) ++ ")".

(** The figures [create_heatmaps] saves, in order; the directory and each
    file are made through the [file_system], whose failures end the call. *)
Definition create_heatmaps (data : averaged) (prime_editors : list string)
  (drugs : dict string string) (exp_name exp_variant : string) (normalize : bool)
  (run_info : string) : M (list heatmap) :=
  let output_dir := "heatmaps_" ++ Str.replace_char " " "_" exp_name in
  let output_dir :=
    if String.eqb exp_variant "" then output_dir
    else output_dir ++ "_" ++ Str.replace_char " " "_" exp_variant in
  let output_dir :=
    if String.eqb run_info "" then output_dir else output_dir ++ "_" ++ run_info in
  ensure_directory output_dir ;;;
  let norm_text := if normalize then "_normalized" else "" in
  for_each prime_editors
    (fun editor acc =>
       for_each (dict_values drugs)
         (fun drug_name acc =>
            for_each metrics
              (fun metric acc =>
                 let key := (editor, drug_name, metric) in
                 match dict_get key data with
                 | Some ((_ :: _) as cells) =>
                     let '(pbs_values, rtt_values, matrix) := build_matrix cells in
                     let filename :=
                       output_dir ++ "/" ++ editor ++ "_" ++ metric ++ "_" ++ drug_name
                       ++ norm_text ++ ".svg" in
                     save_figure key pbs_values rtt_values matrix filename ;;;
                     print ("Saved heatmap to " ++ filename) ;;;
                     ret (acc ++ [mkHeatmap key pbs_values rtt_values matrix filename])%list
                 | _ =>
                     print (str_of_key key ++ " key not found in data, continuing") ;;;
                     ret acc
                 end)
              acc)
         acc)
    [].

(* ================================================================== *)
(** ** Vocabulary of the statements *)
(* ================================================================== *)

(** A file system in which every directory can be made and every figure
    saved. *)
Definition empty_directory : file_system :=
  mkFiles (fun _ => false) (fun _ => Ok tt) (fun _ _ _ _ _ _ => Ok tt) [].

(** A world with nothing typed and nothing printed yet. *)
Definition empty_world : world := mkWorld [] [] [] [] (fun _ => "") 0 empty_directory.

(** [w] after the lines [out] were printed. *)
Definition printed (w : world) (out : list string) : world :=
  with_stdout w (stdout w ++ out).

(** The loop body of [process_data] run on its own: the record it files
    for the batch, if any, and what it prints. *)
Definition batch_outcome (df : dataframe) (batch_name : string)
  : result (option batch_record) * list string :=
  match process_batch df batch_name (mkState [] []) empty_world with
  | (Ok st, w) =>
      (Ok (match (batches st ++ missing_pe_batches st)%list with
           | (_, data) :: _ => Some data
           | [] => None
           end),
       stdout w)
  | (Raise e, w) => (Raise e, stdout w)
  end.

(** The rows of a batch that carry neither of the two named categories:
    the catch-all edited category. *)
Definition catch_all_rows (batch_data : dataframe) : dataframe :=
  filter (fun r => negb (String.eqb (Amplicon r) "Prime-edited")
                   && negb (String.eqb (Amplicon r) "Scaffold-incorporated"))
    batch_data.

(** The exact sum of all read counts of a batch. *)
Definition reads_sum (batch_data : dataframe) : Z :=
  fold_right (fun r acc => Unmodified r + Modified r + Discarded r + acc) 0 batch_data.

(** [_[R/r]ep] followed by a digit, at the start of [s] ... *)
Definition starts_with_rep (s : string) : bool :=
  match s with
  | String u (String c (String e (String p (String d _)))) =>
      Ascii.eqb u "_" && atom_matches rep_initial c && Ascii.eqb e "e" && Ascii.eqb p "p"
      && atom_matches digit d
  | _ => false
  end.

(** ... and anywhere in [s]. *)
Fixpoint has_rep_marker (s : string) : bool :=
  match s with
  | EmptyString => false
  | String _ s' => starts_with_rep s || has_rep_marker s'
  end.

(** What follows the last underscore of [s] (all of [s] without one). *)
Fixpoint last_segment (s : string) : string :=
  match s with
  | EmptyString => EmptyString
  | String c s' =>
      if Str.existsb Str.is_underscore s' then last_segment s'
      else if Str.is_underscore c then s' else s
  end.

(** One or more letters, then the end or one final newline: the strings
    [([a-zA-Z]+)$] accepts in full. *)
Fixpoint letters_then_eol (s : string) : bool :=
  match s with
  | EmptyString => false
  | String c s' => atom_matches letters c && (letters_then_eol s' || at_eol s')
  end.

(** The data points that fall on [pos] for the editor and drug name of a
    key, in query order. *)
Definition drug_name_of (drugs : dict string string) (t : data_point) : string :=
  match dict_get (dp_drug_id t) drugs with
  | Some n => n
  | None => "Unknown"
  end.

Definition matching_points (entries : dict string position) (drugs : dict string string)
  (editor drug_name : string) (pos : position) (data_points : list data_point)
  : list data_point :=
  filter (fun t =>
            match dict_get (dp_entry_id t) entries with
            | Some p => keqb p pos && String.eqb (dp_editor t) editor
                        && String.eqb (drug_name_of drugs t) drug_name
            | None => false
            end)
    data_points.

(** [data[key][pos]] when both keys are present. *)
Definition cell_of {V : Type} (data : dict agg_key (dict position V)) (key : agg_key)
  (pos : position) : option V :=
  match dict_get key data with
  | Some cells => dict_get pos cells
  | None => None
  end.

(** The treatment [process_data] files for a parsed code: none for [ctrl]
    in any letter case and for no code, the code itself otherwise. *)
Definition treatment_of (code : option string) : option string :=
  match code with
  | Some c => if String.eqb (Str.lower c) "ctrl" then None else Some c
  | None => None
  end.

(** [matrix[i][j]] *)
Definition matrix_get (matrix : list (list float)) (i j : nat) : option float :=
  match nth_error matrix i with
  | Some line => nth_error line j
  | None => None
  end.

(** The drugs dictionary [get_experiment_data] works with. *)
Definition drugs_of (q : query_results) : dict string string :=
  match dict_of_rows (q_drugs q) with
  | [] => [(no_drug_id, "None")]
  | d => d
  end.

(** Where [process_batch] files a record: under [batches] when the prime
    editor is known, under [missing_pe_batches] otherwise. *)
Definition file_record (batch_name : string) (data : batch_record) (st : batch_state)
  : batch_state :=
  match prime_editor data with
  | None => mkState (batches st) (dict_set batch_name data (missing_pe_batches st))
  | Some _ => mkState (dict_set batch_name data (batches st)) (missing_pe_batches st)
  end.

(** The replicate suffix [_[R/r]ep(\d+)] that closes five of the patterns,
    and the treatment suffix [_([a-zA-Z]+)$] of [pattern_drug]. *)
Definition rep_tail : pattern :=
  [Lit "_"; One rep_initial; Lit "ep"; Open; Many1 digit; Close].

Definition drug_tail : pattern := [Lit "_"; Open; Many1 letters; Close; Eol].

(** [s] is [_[R/r]ep] followed by digits only, and [name] ends that way. *)
Definition is_rep_suffix (s : string) : bool :=
  match s with
  | String u (String c (String e (String p (String d ds)))) =>
      starts_with_rep s && Str.forallb (atom_matches digit) ds
  | _ => false
  end.

Fixpoint ends_with_rep (name : string) : bool :=
  match name with
  | EmptyString => false
  | String _ rest => is_rep_suffix name || ends_with_rep rest
  end.

(** The batch names the tenth property speaks of. *)
Definition treatment_name (pre w d1 d2 seg : string) : string :=
  pre ++ "PE" ++ w ++ "_P" ++ d1 ++ "R" ++ d2 ++ "_" ++ seg.

(** What [batches] and [missing_pe_batches] hold for one name, and what an
    outcome of the loop body makes of it. *)
Definition lookup_state (b : string) (st : batch_state)
  : option batch_record * option batch_record :=
  (dict_get b (batches st), dict_get b (missing_pe_batches st)).

Definition apply_outcome (o : option batch_record)
  (p : option batch_record * option batch_record)
  : option batch_record * option batch_record :=
  match o with
  | None => p
  | Some data =>
      match prime_editor data with
      | Some _ => (Some data, snd p)
      | None => (fst p, Some data)
      end
  end.

(** [keqb] decides equality. *)
Class EqKeyLaws (K : Type) `{EqKey K} : Prop :=
  keqb_eq : forall a b : K, keqb a b = true <-> a = b.

(** The three warnings of the structural validation. *)
Definition warning_rows (b : string) : string :=
  "Warning: Batch " ++ b ++ " does not have exactly 3 rows. Skipping.".
Definition warning_prime (b : string) : string :=
  "Warning: Batch " ++ b ++ " does not have exactly one 'Prime-edited' row. Skipping.".
Definition warning_scaffold (b : string) : string :=
  "Warning: Batch " ++ b ++ " does not have exactly one 'Scaffold-incorporated' row. Skipping.".

(** [total_reads] as [process_batch] computes it. *)
Definition total_reads_of (batch_data : dataframe) : Z :=
  wrap64 (wrap64 (column_sum Unmodified batch_data + column_sum Modified batch_data)
          + column_sum Discarded batch_data).

(** The percentages of two records agree. *)
Definition same_metrics (a b : batch_record) : Prop :=
  correct_edits a = correct_edits b
  /\ incorrect_edits a = incorrect_edits b
  /\ scaffold_incorporated a = scaffold_incorporated b.

Definition warning_fields (b : string) : string :=
  "Warning: Could not extract PBS, RTT, or replicate from batch " ++ b ++ ". Skipping.".

(** ** Example tables *)

(** The batch of the specification's example: counts (80,10,10), (5,3,2)
    and (2,1,7) for the catch-all, prime-edited and scaffold rows. *)
Definition spec_rows : dataframe :=
  [ mkRow "XPE2_P5_R10_Rep2" "Edited" 80 10 10;
    mkRow "XPE2_P5_R10_Rep2" "Prime-edited" 5 3 2;
    mkRow "XPE2_P5_R10_Rep2" "Scaffold-incorporated" 2 1 7 ].

(** A well-formed batch without a single read. *)
Definition zero_rows : dataframe :=
  [ mkRow "XPE2_P7_R12_Rep1" "Edited" 0 0 0;
    mkRow "XPE2_P7_R12_Rep1" "Prime-edited" 0 0 0;
    mkRow "XPE2_P7_R12_Rep1" "Scaffold-incorporated" 0 0 0 ].

(** A batch whose name carries no prime editor. *)
Definition unnamed_rows : dataframe :=
  [ mkRow "X_P5_R10_Rep2" "Edited" 80 10 10;
    mkRow "X_P5_R10_Rep2" "Prime-edited" 5 3 2;
    mkRow "X_P5_R10_Rep2" "Scaffold-incorporated" 2 1 7 ].

(** A treated batch whose code is a spelling of [ctrl]. *)
Definition ctrl_rows : dataframe :=
  [ mkRow "X_PE2_P5R10_CtRl" "Edited" 80 10 10;
    mkRow "X_PE2_P5R10_CtRl" "Prime-edited" 5 3 2;
    mkRow "X_PE2_P5R10_CtRl" "Scaffold-incorporated" 2 1 7 ].

(** A batch of two rows, followed by the specification's example. *)
Definition short_then_spec_rows : dataframe :=
  (mkRow "XPE2_P9_R9_Rep1" "Edited" 1 1 1
   :: mkRow "XPE2_P9_R9_Rep1" "Prime-edited" 1 1 1
   :: spec_rows)%list.

(** The operator typing the given lines. *)
Definition typing (lines : list string) : world := with_stdin empty_world lines.

(** ** Example experiments *)

(** Two runs that share the coordinate (7,7), with correct-edit values 40
    in the first run and 50 in the second. *)
Definition two_run_query : query_results :=
  mkQuery ["PE2"] [(no_drug_id, "None")] [("run-1", "first"); ("run-2", "second")]
    [("entry-7-7", (7, 7)); ("entry-8-9", (8, 9))]
    [ mkPoint "entry-7-7" 40 4 1 "PE2" 1 "run-1" no_drug_id;
      mkPoint "entry-8-9" 20 2 1 "PE2" 1 "run-1" no_drug_id;
      mkPoint "entry-7-7" 50 5 1 "PE2" 1 "run-2" no_drug_id ]
    (Some ("experiment", None)).

(** Two runs without a coordinate in common. *)
Definition disjoint_query : query_results :=
  mkQuery ["PE2"] [(no_drug_id, "None")] [("run-1", "first"); ("run-2", "second")]
    [("entry-7-7", (7, 7)); ("entry-8-9", (8, 9))]
    [ mkPoint "entry-7-7" 40 4 1 "PE2" 1 "run-1" no_drug_id;
      mkPoint "entry-8-9" 20 2 1 "PE2" 1 "run-2" no_drug_id ]
    (Some ("experiment", None)).

(** Three replicates 10, 12 and 14 at (7,7), one value at (8,9). *)
Definition replicate_query : query_results :=
  mkQuery ["PE2"] [(no_drug_id, "None")] [("run-1", "first")]
    [("entry-7-7", (7, 7)); ("entry-8-9", (8, 9))]
    [ mkPoint "entry-7-7" 10 1 0 "PE2" 1 "run-1" no_drug_id;
      mkPoint "entry-7-7" 12 1 0 "PE2" 2 "run-1" no_drug_id;
      mkPoint "entry-8-9" 30 3 0 "PE2" 1 "run-1" no_drug_id;
      mkPoint "entry-7-7" 14 1 0 "PE2" 3 "run-1" no_drug_id ]
    (Some ("experiment", None)).

(** Two replicates at (7,7) whose values are the two infinities. *)
Definition infinite_query : query_results :=
  mkQuery ["PE2"] [(no_drug_id, "None")] [("run-1", "first")]
    [("entry-7-7", (7, 7))]
    [ mkPoint "entry-7-7" PrimFloat.infinity 1 0 "PE2" 1 "run-1" no_drug_id;
      mkPoint "entry-7-7" PrimFloat.neg_infinity 1 0 "PE2" 2 "run-1" no_drug_id ]
    (Some ("experiment", None)).

(** The three values a data point adds to [heatmap_data], with the
    normalization factor 1.0 of a run without normalization. *)
Definition contributions (entries : dict string position) (drugs : dict string string)
  (t : data_point) : list (agg_key * position * float) :=
  match dict_get (dp_entry_id t) entries with
  | Some pos =>
      [ ((dp_editor t, drug_name_of drugs t, "correct_edits"), pos,
         PrimFloat.mul (dp_correct t) 1%float);
        ((dp_editor t, drug_name_of drugs t, "incorrect_edits"), pos,
         PrimFloat.mul (dp_incorrect t) 1%float);
        ((dp_editor t, drug_name_of drugs t, "scaffold_incorporated"), pos,
         PrimFloat.mul (dp_scaffold t) 1%float) ]
  | None => []
  end.

(** The runs [get_experiment_data] keeps. *)
Definition runs_of (q : query_results) (selected_runs : option (list string))
  : dict string string :=
  match selected_runs with
  | Some ((_ :: _) as sel) => filter (fun item => contains (fst item) sel) (dict_of_rows (q_runs q))
  | _ => dict_of_rows (q_runs q)
  end.

(** The value of a matrix cell: the mean, or the no-data marker. *)
Definition cell_value (cells : dict position float) (a b : Z) : float :=
  match dict_get (a, b) cells with
  | Some v => v
  | None => PrimFloat.nan
  end.

(** One contribution added to [heatmap_data], and the test that it falls
    under a key and a coordinate. *)
Definition add_contribution (hd : dict agg_key (dict position (list float)))
  (c : agg_key * position * float) : dict agg_key (dict position (list float)) :=
  append_value (fst (fst c)) (snd (fst c)) (snd c) hd.

Definition selects (key : agg_key) (pos : position) (c : agg_key * position * float) : bool :=
  keqb (fst (fst c)) key && keqb (snd (fst c)) pos.

(* ================================================================== *)
(** ** Further vocabulary: what a match means *)
(* ================================================================== *)

(** [matches p s opened caps r]: some way of matching [p] at the start of
    [s] ends with the groups [r]. *)
Inductive matches : pattern -> string -> list string -> list string -> list string -> Prop :=
| matches_nil s opened caps : matches [] s opened caps (List.rev caps)
| matches_lit t p rest opened caps r :
    matches p rest opened caps r -> matches (Lit t :: p) (t ++ rest) opened caps r
| matches_one a c p rest opened caps r :
    atom_matches a c = true ->
    matches p rest opened caps r -> matches (One a :: p) (String c rest) opened caps r
| matches_many a pre p rest opened caps r :
    pre <> "" -> Str.forallb (atom_matches a) pre = true ->
    matches p rest opened caps r -> matches (Many1 a :: p) (pre ++ rest) opened caps r
| matches_open p s opened caps r :
    matches p s (s :: opened) caps r -> matches (Open :: p) s opened caps r
| matches_close p s start opened caps r :
    matches p s opened (consumed start s :: caps) r ->
    matches (Close :: p) s (start :: opened) caps r
| matches_eol p s opened caps r :
    at_eol s = true -> matches p s opened caps r -> matches (Eol :: p) s opened caps r.

(** A non-empty string of characters of [a]. *)
Definition run_of (a : atom) (s : string) : Prop :=
  s <> "" /\ Str.forallb (atom_matches a) s = true.

(** [sub] occurs in [s]. *)
Definition occurs (sub s : string) : Prop := exists before after, s = before ++ sub ++ after.

(** The number [n] is written in [name] right after [marker]. *)
Definition written_after (marker : string) (n : Z) (name : string) : Prop :=
  exists d, run_of digit d /\ Str.int d = Ok n /\ occurs (marker ++ d) name.

(** A number written with more digits than [int] reads. *)
Definition too_long (d : string) : bool := (Str.max_str_digits <? String.length d)%nat.

(** An editor name as the patterns take it: [PE] and at least one more
    word character. *)
Definition editor_shaped (e : string) : Prop := exists t, e = "PE" ++ t /\ run_of word t.

(** The names the four patterns without treatment are written for: two
    numbers after their markers, then a replicate, then anything. *)
Definition numbers_then_replicate (first second rest : string) : Prop :=
  exists d1 d2 c d3 tail,
    run_of digit d1 /\ run_of digit d2 /\ atom_matches rep_initial c = true
    /\ run_of digit d3
    /\ rest = first ++ d1 ++ second ++ d2 ++ "_" ++ String c ("ep" ++ d3 ++ tail).

Definition replicate_shaped (name : string) : Prop :=
  exists l rest,
    run_of letters l
    /\ (name = l ++ rest \/ exists t, run_of word t /\ name = l ++ "PE" ++ t ++ rest)
    /\ (numbers_then_replicate "_P" "_R" rest \/ numbers_then_replicate "_R" "_P" rest).

(* ================================================================== *)
(** ** Further vocabulary: [process_data] from start to end *)
(* ================================================================== *)

(** A name read by the pattern with treatment and replicate, the one whose
    replicate is taken from the wrong group. *)
Definition misread (name : string) : bool :=
  match re_match pattern1 name, re_match pattern2 name, re_match pattern3 name,
        re_match pattern4 name, re_match pattern_drug_rep name with
  | None, None, None, None, Some _ => true
  | _, _, _, _, _ => false
  end.

(** A table whose batch names are ASCII text. *)
Definition ascii_names (df : dataframe) : Prop :=
  forall b, In b (map Batch df) -> Str.is_ascii b = true.

(** The three checks [process_data] makes on the rows of a batch. *)
Definition well_formed_rows (df : dataframe) (b : string) : bool :=
  (List.length (rows_of_batch df b) =? 3)%nat
  && (List.length (rows_of_amplicon (rows_of_batch df b) "Prime-edited") =? 1)%nat
  && (List.length (rows_of_amplicon (rows_of_batch df b) "Scaffold-incorporated") =? 1)%nat.

(** A name on which [extract_batch_info] raises. *)
Definition unreadable (name : string) : bool :=
  match fst (extract_batch_info name empty_world) with
  | Raise _ => true
  | Ok _ => false
  end.

(** The batches whose name is parsed at all, and raises. *)
Definition aborts (df : dataframe) (b : string) : bool :=
  well_formed_rows df b && unreadable b.

(** The state the loop of [process_data] reaches over [names] when no name
    raises, and what it prints on the way. *)
Definition file_outcome (df : dataframe) (st : batch_state) (b : string) : batch_state :=
  match fst (batch_outcome df b) with
  | Ok (Some data) => file_record b data st
  | _ => st
  end.

Definition loop_output (df : dataframe) (names : list string) : list string :=
  flat_map (fun b => snd (batch_outcome df b)) names.

(** The batches that are left to the operator, in the order of the table. *)
Definition lacks_editor (df : dataframe) (b : string) : bool :=
  match fst (batch_outcome df b) with
  | Ok (Some data) =>
      match prime_editor data with
      | None => true
      | Some _ => false
      end
  | _ => false
  end.

Definition editorless (df : dataframe) : list string :=
  filter (lacks_editor df) (unique (map Batch df)).

Definition missing_items (df : dataframe) (names : list string)
  : dict string batch_record :=
  flat_map (fun b =>
              match fst (batch_outcome df b) with
              | Ok (Some data) =>
                  match prime_editor data with
                  | None => [(b, data)]
                  | Some _ => []
                  end
              | _ => []
              end) names.

(** [batches] after the operator named the editor of each item of
    [missing] in turn. *)
Definition answered (missing : dict string batch_record) (answers : list string)
  (d0 : dict string batch_record) : dict string batch_record :=
  fold_left (fun acc ia => dict_set (fst (fst ia)) (set_prime_editor (snd (fst ia)) (snd ia)) acc)
    (combine missing answers) d0.

Definition editor_prompt (item : string * batch_record) : string :=
  "Enter prime editor name for batch '" ++ fst item ++ "': ".

(** The two lines that open the dialogue about the missing editors. *)
Definition found_line (n : nat) : string :=
  nl ++ "Found " ++ Str.of_int (Z.of_nat n) ++ " batches with missing prime editor information.".

Definition editor_question : string :=
  "Enter prime editor name for these batches (e.g., PE2, PEMax), or enter different for individual prompts: ".


(** A treated batch whose name also carries a replicate. *)
Definition treated_replicate_rows : dataframe :=
  [ mkRow "X_PE2_P5R10_drugA_Rep2" "Edited" 80 10 10;
    mkRow "X_PE2_P5R10_drugA_Rep2" "Prime-edited" 5 3 2;
    mkRow "X_PE2_P5R10_drugA_Rep2" "Scaffold-incorporated" 2 1 7 ].

(** Two batches whose names carry no prime editor. *)
Definition two_unnamed_rows : dataframe :=
  [ mkRow "A_P5_R10_Rep1" "Edited" 80 10 10;
    mkRow "A_P5_R10_Rep1" "Prime-edited" 5 3 2;
    mkRow "A_P5_R10_Rep1" "Scaffold-incorporated" 2 1 7;
    mkRow "B_P6_R11_Rep1" "Edited" 70 20 10;
    mkRow "B_P6_R11_Rep1" "Prime-edited" 6 3 1;
    mkRow "B_P6_R11_Rep1" "Scaffold-incorporated" 3 2 5 ].

(* ================================================================== *)
(** ** Further vocabulary: the dialogue of [get_or_create_drug] *)
(* ================================================================== *)

(** What the loop of [select_number] makes of the lines typed: the first
    line that is a number within [0..n], and the lines left after it. *)
Definition accepts (n : Z) (line : string) : bool :=
  match Str.int line with
  | Ok selection => (0 <=? selection) && (selection <=? n)
  | Raise _ => false
  end.

Fixpoint first_accepted (n : Z) (lines : list string) : option (Z * list string) :=
  match lines with
  | [] => None
  | line :: rest =>
      if accepts n line then
        match Str.int line with
        | Ok selection => Some (selection, rest)
        | Raise _ => None
        end
      else first_accepted n rest
  end.

(** The ids of the rows of the [drugs] table. *)
Definition drug_ids (w : world) : list string := map (fun r => fst (fst r)) (drugs_table w).

(** Every id the cache holds is the id of a row of the table. *)
Definition cache_sound (w : world) : Prop :=
  forall code id, dict_get code (drug_cache w) = Some id -> In id (drug_ids w).

(** A database with the reserved drug and one more, an empty cache, and an
    operator typing the given lines. *)
Definition drug_world (lines : list string) : world :=
  mkWorld lines []
    [(no_drug_id, "None", "No drug used"); ("id-dex", "Dexamethasone", "")]
    [] (fun n => "uuid-" ++ Str.of_int (Z.of_nat n)) 0 empty_directory.

(* ================================================================== *)
(** ** Further vocabulary: the figures of [create_heatmaps] *)
(* ================================================================== *)

(** The keys [create_heatmaps] visits, in the order of its three loops. *)
Definition all_keys (prime_editors : list string) (drugs : dict string string)
  : list agg_key :=
  flat_map (fun editor =>
              flat_map (fun drug_name => map (fun metric => (editor, drug_name, metric)) metrics)
                (dict_values drugs))
    prime_editors.

(** [output_dir] and the name of the file written for a key. *)
Definition output_dir_of (exp_name exp_variant run_info : string) : string :=
  let output_dir := "heatmaps_" ++ Str.replace_char " " "_" exp_name in
  let output_dir :=
    if String.eqb exp_variant "" then output_dir
    else output_dir ++ "_" ++ Str.replace_char " " "_" exp_variant in
  if String.eqb run_info "" then output_dir else output_dir ++ "_" ++ run_info.

Definition heatmap_file (exp_name exp_variant run_info : string) (normalize : bool)
  (key : agg_key) : string :=
  output_dir_of exp_name exp_variant run_info ++ "/" ++ fst (fst key) ++ "_" ++ snd key
  ++ "_" ++ snd (fst key) ++ (if normalize then "_normalized" else "") ++ ".svg".

(** The figure saved for a key, if any, and the line printed for it. *)
Definition figure_of (data : averaged) (exp_name exp_variant run_info : string)
  (normalize : bool) (key : agg_key) : list heatmap :=
  match dict_get key data with
  | Some ((_ :: _) as cells) =>
      let '(pbs_values, rtt_values, matrix) := build_matrix cells in
      [mkHeatmap key pbs_values rtt_values matrix
         (heatmap_file exp_name exp_variant run_info normalize key)]
  | _ => []
  end.

Definition line_of (data : averaged) (exp_name exp_variant run_info : string)
  (normalize : bool) (key : agg_key) : string :=
  match dict_get key data with
  | Some (_ :: _) =>
      "Saved heatmap to " ++ heatmap_file exp_name exp_variant run_info normalize key
  | _ => str_of_key key ++ " key not found in data, continuing"
  end.

(** The coordinates filed under a key, in the order of their arrival. *)
Definition coordinates {V : Type} (data : dict agg_key (dict position V)) (key : agg_key)
  : option (list position) :=
  option_map dict_keys (dict_get key data).

(** [keys] after an assignment at [pos]. *)
Definition add_position (pos : position) (keys : list position) : list position :=
  if contains pos keys then keys else (keys ++ [pos])%list.

(** The table [get_experiment_data] returns for a query without
    normalization. *)
Definition averaged_of (q : query_results) : averaged :=
  match get_experiment_data q None false empty_world with
  | (Ok (data, _, _, _, _, _), _) => data
  | _ => []
  end.

(* ================================================================== *)
(** ** [heatmap.select_runs] *)
(* ================================================================== *)

(** The white space [str.strip()] removes from ASCII text: tab to carriage
    return, the four separators 28 to 31, and the blank. *)
Definition str_is_space (c : ascii) : bool :=
  let n := nat_of_ascii c in
  ((9 <=? n) && (n <=? 13) || (28 <=? n) && (n <=? 32))%nat.

Fixpoint str_lstrip (s : string) : string :=
  match s with
  | String c s' => if str_is_space c then str_lstrip s' else s
  | EmptyString => EmptyString
  end.

(** [s.strip()] *)
Definition str_strip (s : string) : string :=
  Str.rev (str_lstrip (Str.rev (str_lstrip s))).

(** [s.split(sep)] for a separator of one character: the pieces between
    the separators, empty ones included. *)
Fixpoint split (sep : ascii) (s : string) : list string :=
  match s with
  | EmptyString => [EmptyString]
  | String c s' =>
      if Ascii.eqb c sep then EmptyString :: split sep s'
      else
        match split sep s' with
        | piece :: pieces => String c piece :: pieces
        | [] => [String c EmptyString]
        end
  end.

(** [[f(x) for x in xs]] for an [f] that may raise: the first exception
    ends the comprehension. *)
Fixpoint map_result {A B : Type} (f : A -> result B) (xs : list A) : result (list B) :=
  match xs with
  | [] => Ok []
  | x :: rest =>
      match f x with
      | Ok y =>
          match map_result f rest with
          | Ok ys => Ok (y :: ys)
          | Raise e => Raise e
          end
      | Raise e => Raise e
      end
  end.

(** [[runs[idx-1][0] for idx in selected_indices if 1 <= idx <= len(runs)]] *)
Definition runs_at (runs : list (string * string)) (selected_indices : list Z)
  : result (list string) :=
  map_result
    (fun idx =>
       match nth_error runs (Z.to_nat (idx - 1)) with
       | Some r => Ok (fst r)
       | None => Raise IndexError
       end)
    (filter (fun idx => (1 <=? idx) && (idx <=? Z.of_nat (List.length runs))) selected_indices).

Definition select_runs (all_runs : dict string string) : M (list string) :=
  let runs := all_runs in
  match runs with
  | [] => print "No runs found for this experiment." ;;; ret []
  | _ :: _ =>
      print (nl ++ "Available Runs:") ;;;
      for_each (enumerate 1 runs)
        (fun item _ => print (Str.of_int (Z.of_nat (fst item)) ++ ". " ++ snd (snd item)))
        tt ;;;
      print (nl ++ "Enter run numbers to include (comma-separated, or 'all' for all runs):") ;;;
      line <- input "> " ;;
      let selection := str_strip line in
      if String.eqb (Str.lower selection) "all" then ret (map fst runs)
      else
        match map_result (fun idx => Str.int (str_strip idx)) (split "," selection) with
        | Ok selected_indices =>
            selected_runs <- lift (runs_at runs selected_indices) ;;
            match selected_runs with
            | [] =>
                print "No valid runs selected. Using all runs." ;;;
                ret (map fst runs)
            | _ :: _ => ret selected_runs
            end
        | Raise ValueError =>
            print "Invalid selection. Using all runs." ;;;
            ret (map fst runs)
        | Raise e => raise e
        end
  end.

(** The runs picked by the numbers typed, in the order typed. *)
Definition picked (runs : list (string * string)) (selected_indices : list Z) : list string :=
  flat_map (fun idx => match nth_error runs (Z.to_nat (idx - 1)) with
                       | Some r => [fst r]
                       | None => []
                       end)
    (filter (fun idx => (1 <=? idx) && (idx <=? Z.of_nat (List.length runs))) selected_indices).

(** The numbers typed on a line, when every piece between commas is one. *)
Definition numbers_typed (line : string) : result (list Z) :=
  map_result (fun idx => Str.int (str_strip idx)) (split "," (str_strip line)).

(** Three runs of an experiment. *)
Definition three_runs : dict string string :=
  [("run-a", "first"); ("run-b", "second"); ("run-c", "third")].

(* ================================================================== *)
(** ** Further vocabulary: where a repetition stops *)
(* ================================================================== *)

(** [s] starts with a character of the set [a]. *)
Definition starts_in (a : atom) (s : string) : bool :=
  match s with
  | String c _ => atom_matches a c
  | EmptyString => false
  end.

(** After no run of characters of [a] at the start of [s] does [lit]
    follow: the positions at which [a+] could also stop. *)
Fixpoint no_later (a : atom) (lit : string) (s : string) : bool :=
  match s with
  | EmptyString => true
  | String c s' =>
      if atom_matches a c then
        match Str.strip_prefix lit s' with
        | Some _ => false
        | None => no_later a lit s'
        end
      else true
  end.

(* ================================================================== *)
(** ** Strings *)
(* ================================================================== *)

Lemma strip_prefix_app (p s s' : string) :
  Str.strip_prefix p s = Some s' -> s = p ++ s'.
Proof.
  revert s. induction p as [|a p IH]; intros s H; simpl in H.
  - now inversion H.
  - destruct s as [|b s]; [discriminate|].
    destruct (Ascii.eqb a b) eqn:E; [|discriminate].
    apply Ascii.eqb_eq in E. subst b. simpl. f_equal. now apply IH.
Qed.

Lemma string_app_assoc (a b c : string) : (a ++ b) ++ c = a ++ (b ++ c).
Proof. induction a as [|x a IH]; simpl; [reflexivity|now rewrite IH]. Qed.

Lemma existsb_app (p : ascii -> bool) (a b : string) :
  Str.existsb p (a ++ b) = Str.existsb p a || Str.existsb p b.
Proof.
  induction a as [|x a IH]; simpl; [reflexivity|].
  now rewrite IH, orb_assoc.
Qed.

(* ================================================================== *)
(** ** The matcher: what a successful match says about the input *)
(* ================================================================== *)

(** [a+] hands its continuation a proper suffix, after characters of [a]. *)
Lemma many1_inv {A : Type} (a : atom) (s : string) (k : string -> option A) (r : A) :
  many1 a s k = Some r ->
  exists pre s', s = pre ++ s' /\ pre <> "" /\
                 Str.forallb (atom_matches a) pre = true /\ k s' = Some r.
Proof.
  induction s as [|c s IH]; simpl; [discriminate|].
  destruct (atom_matches a c) eqn:Hc; [|discriminate].
  destruct (many1 a s k) as [r'|] eqn:Hm.
  - intros H; inversion H; subst r'.
    destruct (IH eq_refl) as (pre & s' & -> & _ & Hall & Hk).
    exists (String c pre), s'. simpl. rewrite Hc, Hall. repeat split; auto. discriminate.
  - intros Hk. exists (String c ""), s. simpl. rewrite Hc. repeat split; auto. discriminate.
Qed.

(** A match of [p1 ++ p2] runs [p2] on some suffix of the input. *)
Lemma run_app_suffix (p1 p2 : pattern) :
  forall s opened caps r,
    run (p1 ++ p2)%list s opened caps = Some r ->
    exists pre s' opened' caps', s = pre ++ s' /\ run p2 s' opened' caps' = Some r.
Proof.
  induction p1 as [|n p1 IH]; intros s opened caps r H.
  - exists "", s, opened, caps. split; [reflexivity|exact H].
  - destruct n; simpl in H.
    + destruct (Str.strip_prefix s0 s) as [s1|] eqn:Hp; [|discriminate].
      apply strip_prefix_app in Hp. subst s.
      destruct (IH _ _ _ _ H) as (pre & s' & o' & c' & -> & Hr).
      exists (s0 ++ pre), s', o', c'. split; [now rewrite string_app_assoc|exact Hr].
    + destruct s as [|c s]; [discriminate|].
      destruct (atom_matches a c); [|discriminate].
      destruct (IH _ _ _ _ H) as (pre & s' & o' & c' & -> & Hr).
      exists (String c pre), s', o', c'. split; [reflexivity|exact Hr].
    + apply many1_inv in H. destruct H as (pre0 & s0 & -> & _ & _ & H).
      destruct (IH _ _ _ _ H) as (pre & s' & o' & c' & -> & Hr).
      exists (pre0 ++ pre), s', o', c'. split; [now rewrite string_app_assoc|exact Hr].
    + destruct (IH _ _ _ _ H) as (pre & s' & o' & c' & -> & Hr).
      exists pre, s', o', c'. split; [reflexivity|exact Hr].
    + destruct opened as [|st opened]; [discriminate|].
      destruct (IH _ _ _ _ H) as (pre & s' & o' & c' & -> & Hr).
      exists pre, s', o', c'. split; [reflexivity|exact Hr].
    + destruct (at_eol s); [|discriminate].
      destruct (IH _ _ _ _ H) as (pre & s' & o' & c' & -> & Hr).
      exists pre, s', o', c'. split; [reflexivity|exact Hr].
Qed.

Lemma rep_tail_starts (s : string) opened caps r :
  run rep_tail s opened caps = Some r -> starts_with_rep s = true.
Proof.
  unfold rep_tail. cbn [run Str.strip_prefix].
  destruct s as [|u s]; [discriminate|].
  destruct (Ascii.eqb "_" u) eqn:Eu; [|discriminate].
  destruct s as [|c s]; [discriminate|].
  destruct (atom_matches rep_initial c) eqn:Ec; [|discriminate].
  destruct s as [|e s]; [discriminate|].
  destruct (Ascii.eqb "e" e) eqn:Ee; [|discriminate].
  destruct s as [|p s]; [discriminate|].
  destruct (Ascii.eqb "p" p) eqn:Ep; [|discriminate].
  destruct s as [|d s]; [discriminate|].
  cbn [many1]. destruct (atom_matches digit d) eqn:Ed; [|discriminate].
  intros _. unfold starts_with_rep.
  rewrite Ascii.eqb_sym in Eu. rewrite Ascii.eqb_sym in Ee. rewrite Ascii.eqb_sym in Ep.
  now rewrite Eu, Ec, Ee, Ep, Ed.
Qed.

Lemma has_rep_marker_suffix (pre s : string) :
  starts_with_rep s = true -> has_rep_marker (pre ++ s) = true.
Proof.
  intros Hs. induction pre as [|c pre IH].
  - simpl. destruct s as [|c s]; [discriminate|]. cbn [has_rep_marker]. now rewrite Hs.
  - cbn [append has_rep_marker]. rewrite IH. apply orb_true_r.
Qed.

(** Without a replicate marker no pattern ending in one matches. *)
Lemma no_marker_no_match (p1 : pattern) (name : string) :
  has_rep_marker name = false -> re_match (p1 ++ rep_tail)%list name = None.
Proof.
  intros Hno. unfold re_match.
  destruct (run (p1 ++ rep_tail)%list name [] []) as [r|] eqn:H; [|reflexivity].
  apply run_app_suffix in H. destruct H as (pre & s' & o' & c' & -> & Hr).
  apply rep_tail_starts in Hr.
  rewrite (has_rep_marker_suffix pre s' Hr) in Hno. discriminate.
Qed.

Lemma letters_then_eol_app (l e : string) :
  l <> "" -> Str.forallb (atom_matches letters) l = true -> at_eol e = true ->
  letters_then_eol (l ++ e) = true.
Proof.
  induction l as [|c l IH]; intros Hne Hall He; [congruence|].
  cbn [Str.forallb] in Hall. apply andb_true_iff in Hall. destruct Hall as [Hc Hl].
  cbn [append letters_then_eol]. rewrite Hc. cbn [andb].
  destruct l as [|c' l].
  - cbn [append]. rewrite He. apply orb_true_r.
  - rewrite IH; auto. discriminate.
Qed.

Lemma letters_not_underscore (c : ascii) :
  atom_matches letters c = true -> Str.is_underscore c = false.
Proof.
  unfold Str.is_underscore. destruct (Ascii.eqb c "_") eqn:E; [|reflexivity].
  apply Ascii.eqb_eq in E. subst c. vm_compute. discriminate.
Qed.

Lemma letters_no_underscore (l : string) :
  Str.forallb (atom_matches letters) l = true -> Str.existsb Str.is_underscore l = false.
Proof.
  induction l as [|c l IH]; cbn [Str.forallb Str.existsb]; [reflexivity|].
  intros H. apply andb_true_iff in H. destruct H as [Hc Hl].
  now rewrite (letters_not_underscore c Hc), IH.
Qed.

Lemma at_eol_no_underscore (e : string) :
  at_eol e = true -> Str.existsb Str.is_underscore e = false.
Proof.
  destruct e as [|c [|c' e]]; simpl; try discriminate; [reflexivity|].
  intros H. apply Ascii.eqb_eq in H. subst c. reflexivity.
Qed.

Lemma drug_tail_shape (s : string) opened caps r :
  run drug_tail s opened caps = Some r ->
  exists rest, s = "_" ++ rest /\ letters_then_eol rest = true
               /\ Str.existsb Str.is_underscore rest = false.
Proof.
  unfold drug_tail. cbn [run].
  destruct (Str.strip_prefix "_" s) as [s1|] eqn:Hp; [|discriminate].
  apply strip_prefix_app in Hp. subst s.
  intros H. apply many1_inv in H.
  destruct H as (l & e & -> & Hne & Hall & Hk).
  destruct (at_eol e) eqn:He; [|discriminate].
  exists (l ++ e). split; [reflexivity|]. split.
  - now apply letters_then_eol_app.
  - rewrite existsb_app, (letters_no_underscore l Hall), (at_eol_no_underscore e He).
    reflexivity.
Qed.

Lemma last_segment_app (pre rest : string) :
  Str.existsb Str.is_underscore rest = false ->
  last_segment (pre ++ "_" ++ rest) = rest.
Proof.
  intros Hr. induction pre as [|c pre IH].
  - cbn. now rewrite Hr.
  - cbn [append last_segment]. rewrite existsb_app. cbn [append Str.existsb].
    replace (Str.is_underscore "_") with true by reflexivity.
    cbn [orb]. rewrite orb_true_r. exact IH.
Qed.

(** [pattern_drug] matches only names whose last segment is a purely
    alphabetic code (a final newline apart). *)
Lemma no_code_no_match (p1 : pattern) (name : string) :
  letters_then_eol (last_segment name) = false -> re_match (p1 ++ drug_tail)%list name = None.
Proof.
  intros Hno. unfold re_match.
  destruct (run (p1 ++ drug_tail)%list name [] []) as [r|] eqn:H; [|reflexivity].
  apply run_app_suffix in H. destruct H as (pre & s' & o' & c' & -> & Hr).
  apply drug_tail_shape in Hr. destruct Hr as (rest & -> & Hl & Hu).
  rewrite (last_segment_app pre rest Hu) in Hno. congruence.
Qed.

(** A name without a replicate marker and without a final alphabetic code
    matches none of the six patterns. *)
Lemma extract_batch_info_unparsed (name : string) (w : world) :
  has_rep_marker name = false ->
  letters_then_eol (last_segment name) = false ->
  extract_batch_info name w
  = (Ok no_info, printed w ["Warning: Could not parse batch name: " ++ name]).
Proof.
  intros Hrep Hcode. unfold extract_batch_info.
  change pattern1 with
    ([Many1 letters; Open; Lit "PE"; Many1 word; Close; Lit "_P"; Open; Many1 digit; Close;
      Lit "_R"; Open; Many1 digit; Close] ++ rep_tail)%list.
  change pattern2 with
    ([Many1 letters; Open; Lit "PE"; Many1 word; Close; Lit "_R"; Open; Many1 digit; Close;
      Lit "_P"; Open; Many1 digit; Close] ++ rep_tail)%list.
  change pattern3 with
    ([Many1 letters; Lit "_P"; Open; Many1 digit; Close;
      Lit "_R"; Open; Many1 digit; Close] ++ rep_tail)%list.
  change pattern4 with
    ([Many1 letters; Lit "_R"; Open; Many1 digit; Close;
      Lit "_P"; Open; Many1 digit; Close] ++ rep_tail)%list.
  change pattern_drug_rep with
    ([Many1 letters_us; Open; Lit "PE"; Many1 word; Close; Lit "_P"; Open; Many1 digit; Close;
      Lit "R"; Open; Many1 digit; Close; Lit "_"; Open; Many1 letters; Close] ++ rep_tail)%list.
  change pattern_drug with
    ([Many1 letters_us; Open; Lit "PE"; Many1 word; Close; Lit "_P"; Open; Many1 digit; Close;
      Lit "R"; Open; Many1 digit; Close] ++ drug_tail)%list.
  rewrite !(no_marker_no_match _ name Hrep).
  rewrite (no_code_no_match _ name Hcode).
  reflexivity.
Qed.

(* ================================================================== *)
(** ** Printing *)
(* ================================================================== *)

Lemma printed_nil (w : world) : printed w [] = w.
Proof. destruct w. unfold printed, with_stdout. simpl. now rewrite app_nil_r. Qed.

Lemma printed_printed (w : world) (a b : list string) :
  printed (printed w a) b = printed w (a ++ b).
Proof. unfold printed, with_stdout. simpl. now rewrite app_assoc. Qed.

Lemma print_printed (line : string) (w : world) : print line w = (Ok tt, printed w [line]).
Proof. reflexivity. Qed.

Lemma stdin_printed (w : world) (out : list string) : stdin (printed w out) = stdin w.
Proof. reflexivity. Qed.

Lemma stdout_printed (w : world) (out : list string) :
  stdout (printed w out) = (stdout w ++ out)%list.
Proof. reflexivity. Qed.

(** [extract_batch_info] only prints: its result is a function of the
    name, and so is what it prints. *)
Lemma extract_frame (name : string) (w : world) :
  extract_batch_info name w
  = (fst (extract_batch_info name empty_world),
     printed w (stdout (snd (extract_batch_info name empty_world)))).
Proof.
  unfold extract_batch_info, int_group, str_group, bind, lift, ret.
  repeat match goal with
         | |- context [match ?x with _ => _ end] =>
             match x with
             | re_match _ _ => destruct x
             | group _ _ => destruct x
             | rbind _ _ => destruct x
             end
         end; cbn; rewrite ?printed_nil; reflexivity.
Qed.

(* ================================================================== *)
(** ** The loop body of [process_data], batch by batch *)
(* ================================================================== *)

(** What the body does to any state and world is what it does on its own. *)
Lemma process_batch_frame (df : dataframe) (b : string) (st : batch_state) (w : world) :
  process_batch df b st w =
  match batch_outcome df b with
  | (Ok None, out) => (Ok st, printed w out)
  | (Ok (Some data), out) => (Ok (file_record b data st), printed w out)
  | (Raise e, out) => (Raise e, printed w out)
  end.
Proof.
  unfold batch_outcome, process_batch.
  destruct (negb (List.length (rows_of_batch df b) =? 3)%nat); [reflexivity|].
  destruct (rows_of_amplicon (rows_of_batch df b) "Prime-edited") as [|p [|p' ps]];
    try reflexivity.
  destruct (rows_of_amplicon (rows_of_batch df b) "Scaffold-incorporated") as [|s [|s' ss]];
    try reflexivity.
  unfold bind. rewrite (extract_frame b w).
  destruct (extract_batch_info b empty_world) as [r w1]. cbn [fst snd].
  destruct r as [info|e]; [|reflexivity].
  destruct info as [[[[pe [p_|]] [r_|]] [rep|]] code];
    try (rewrite !print_printed; cbn; now rewrite printed_printed).
  destruct pe as [pe|]; cbn; reflexivity.
Qed.

(* ================================================================== *)
(** ** Dictionaries *)
(* ================================================================== *)

#[export] Instance string_EqKeyLaws : EqKeyLaws string.
Proof. intros a b. apply String.eqb_eq. Qed.

#[export] Instance Z_EqKeyLaws : EqKeyLaws Z.
Proof. intros a b. apply Z.eqb_eq. Qed.

#[export] Instance pair_EqKeyLaws {A B : Type} `{EqKeyLaws A} `{EqKeyLaws B} :
  EqKeyLaws (A * B).
Proof.
  intros [a b] [a' b']. cbn. rewrite andb_true_iff, !keqb_eq.
  split; [intros [-> ->]; reflexivity|intros E; inversion E; auto].
Qed.

Section DictFacts.
Context {K V : Type} `{EqKeyLaws K}.

Lemma keqb_refl (k : K) : keqb k k = true.
Proof. now apply keqb_eq. Qed.

Lemma keqb_neq (a b : K) : a <> b -> keqb a b = false.
Proof.
  intros Hne. destruct (keqb a b) eqn:E; [|reflexivity].
  apply keqb_eq in E. contradiction.
Qed.

Lemma dict_get_set_same (k : K) (v : V) (d : dict K V) :
  dict_get k (dict_set k v d) = Some v.
Proof.
  induction d as [|[k' v'] d IH]; cbn.
  - now rewrite keqb_refl.
  - destruct (keqb k' k) eqn:E; cbn; rewrite E; auto.
Qed.

Lemma dict_get_set_other (k k' : K) (v : V) (d : dict K V) :
  k <> k' -> dict_get k' (dict_set k v d) = dict_get k' d.
Proof.
  intros Hne. induction d as [|[k0 v0] d IH]; cbn.
  - now rewrite keqb_neq.
  - destruct (keqb k0 k) eqn:E; cbn.
    + apply keqb_eq in E. subst k0. now rewrite keqb_neq.
    + now rewrite IH.
Qed.

Lemma dict_get_not_key (k : K) (d : dict K V) :
  ~ In k (dict_keys d) -> dict_get k d = None.
Proof.
  induction d as [|[k' v'] d IH]; cbn; [reflexivity|].
  intros Hn. rewrite keqb_neq; [apply IH|]; intuition.
Qed.

Lemma dict_get_key (k : K) (v : V) (d : dict K V) :
  dict_get k d = Some v -> In k (dict_keys d).
Proof.
  induction d as [|[k' v'] d IH]; cbn; [discriminate|].
  destruct (keqb k' k) eqn:E.
  - apply keqb_eq in E. auto.
  - auto.
Qed.

Lemma dict_set_keys (k k' : K) (v : V) (d : dict K V) :
  In k' (dict_keys (dict_set k v d)) <-> k' = k \/ In k' (dict_keys d).
Proof.
  induction d as [|[k0 v0] d IH]; cbn.
  - intuition.
  - destruct (keqb k0 k) eqn:E; cbn.
    + apply keqb_eq in E. subst k0. intuition.
    + rewrite IH. intuition.
Qed.

Lemma dict_set_NoDup (k : K) (v : V) (d : dict K V) :
  NoDup (dict_keys d) -> NoDup (dict_keys (dict_set k v d)).
Proof.
  induction d as [|[k0 v0] d IH]; cbn; intros Hnd.
  - constructor; [intros []|constructor].
  - inversion Hnd as [|? ? Hnotin Hnd']; subst.
    destruct (keqb k0 k) eqn:E; cbn.
    + constructor; assumption.
    + constructor; [|now apply IH].
      intros Hin. apply (proj1 (dict_set_keys k k0 v d)) in Hin.
      destruct Hin as [->|Hin]; [|contradiction].
      rewrite keqb_refl in E. discriminate.
Qed.

Lemma contains_In (x : K) (xs : list K) : contains x xs = true <-> In x xs.
Proof.
  unfold contains. rewrite existsb_exists. split.
  - intros (y & Hy & E). apply keqb_eq in E. now subst.
  - intros Hin. exists x. split; [assumption|apply keqb_refl].
Qed.

End DictFacts.

Lemma unique_In (b : string) (names : list string) :
  In b (unique names) <-> In b names.
Proof.
  unfold unique.
  assert (G : forall seen, In b (fold_left
             (fun seen n => if contains n seen then seen else (seen ++ [n])%list) names seen)
             <-> In b seen \/ In b names).
  { induction names as [|n names IH]; intros seen; cbn [fold_left].
    - cbn. intuition.
    - rewrite IH. destruct (contains n seen) eqn:E.
      + apply contains_In in E. cbn. intuition; subst; auto.
      + rewrite in_app_iff. cbn. intuition. }
  rewrite G. cbn. intuition.
Qed.

(* ================================================================== *)
(** ** The loop over the batches *)
(* ================================================================== *)

Lemma apply_outcome_idem (o : option batch_record) p :
  apply_outcome o (apply_outcome o p) = apply_outcome o p.
Proof.
  destruct o as [data|]; cbn; [|reflexivity].
  destruct (prime_editor data); reflexivity.
Qed.

Lemma lookup_file_same (b : string) (data : batch_record) (st : batch_state) :
  lookup_state b (file_record b data st) = apply_outcome (Some data) (lookup_state b st).
Proof.
  unfold lookup_state, file_record, apply_outcome.
  destruct (prime_editor data); cbn; now rewrite dict_get_set_same.
Qed.

Lemma lookup_file_other (x b : string) (data : batch_record) (st : batch_state) :
  x <> b -> lookup_state b (file_record x data st) = lookup_state b st.
Proof.
  intros Hne. unfold lookup_state, file_record.
  destruct (prime_editor data); cbn; now rewrite dict_get_set_other.
Qed.

Lemma file_record_NoDup (x : string) (data : batch_record) (st : batch_state) :
  NoDup (dict_keys (missing_pe_batches st)) ->
  NoDup (dict_keys (missing_pe_batches (file_record x data st))).
Proof.
  unfold file_record. destruct (prime_editor data); cbn [missing_pe_batches]; auto.
  apply dict_set_NoDup.
Qed.

(** After the loop, every name it visited holds what its own outcome says,
    every other name what it held before; warnings stay printed. *)
Lemma batch_loop (df : dataframe) (names : list string) :
  forall st w st' w',
    for_each names (process_batch df) st w = (Ok st', w') ->
    (forall b, In b names ->
       exists o out, batch_outcome df b = (Ok o, out)
                     /\ lookup_state b st' = apply_outcome o (lookup_state b st)
                     /\ (forall line, In line out -> In line (stdout w')))
    /\ (forall b, ~ In b names -> lookup_state b st' = lookup_state b st)
    /\ stdin w' = stdin w
    /\ (forall line, In line (stdout w) -> In line (stdout w'))
    /\ (NoDup (dict_keys (missing_pe_batches st)) ->
        NoDup (dict_keys (missing_pe_batches st'))).
Proof.
  induction names as [|x names IH]; intros st w st' w' Hrun.
  - cbn in Hrun. inversion Hrun; subst. repeat split; auto. intros b [].
  - cbn [for_each] in Hrun. unfold bind in Hrun.
    rewrite process_batch_frame in Hrun.
    destruct (batch_outcome df x) as [rx outx] eqn:Hx.
    assert (Hstep : exists ox st1,
               rx = Ok ox /\ for_each names (process_batch df) st1 (printed w outx) = (Ok st', w')
               /\ (forall b, lookup_state b st1
                             = if String.eqb x b then apply_outcome ox (lookup_state b st)
                               else lookup_state b st)
               /\ (NoDup (dict_keys (missing_pe_batches st)) ->
                   NoDup (dict_keys (missing_pe_batches st1)))).
    { destruct rx as [[data|]|e]; [| |discriminate].
      - exists (Some data), (file_record x data st). repeat split; auto.
        + intros b. destruct (String.eqb x b) eqn:E.
          * apply String.eqb_eq in E. subst b. apply lookup_file_same.
          * apply String.eqb_neq in E. now apply lookup_file_other.
        + apply file_record_NoDup.
      - exists None, st. repeat split; auto.
        intros b. now destruct (String.eqb x b). }
    destruct Hstep as (ox & st1 & -> & Hrest & Hlook & Hnd).
    destruct (IH _ _ _ _ Hrest) as (Hin & Hout & Hstdin & Hmono & Hnd').
    repeat split.
    + intros b Hb.
      destruct (in_dec string_dec b names) as [Hbn|Hbn].
      * destruct (Hin b Hbn) as (o & out & Ho & Hl & Hp).
        exists o, out. repeat split; auto.
        rewrite Hl, Hlook. destruct (String.eqb x b) eqn:E; [|reflexivity].
        apply String.eqb_eq in E. subst b. rewrite Hx in Ho. inversion Ho; subst.
        apply apply_outcome_idem.
      * destruct Hb as [->|Hb]; [|contradiction].
        exists ox, outx. repeat split; auto.
        -- rewrite (Hout b Hbn), Hlook. now rewrite String.eqb_refl.
        -- intros line Hline. apply Hmono. rewrite stdout_printed, in_app_iff. auto.
    + intros b Hb. rewrite (Hout b), Hlook.
      * destruct (String.eqb x b) eqn:E; [|reflexivity].
        apply String.eqb_eq in E. subst b. exfalso. apply Hb. now left.
      * intros Hbn. apply Hb. now right.
    + now rewrite Hstdin, stdin_printed.
    + intros line Hline. apply Hmono. rewrite stdout_printed, in_app_iff. auto.
    + auto.
Qed.

(* ================================================================== *)
(** ** The operator's answers *)
(* ================================================================== *)

Lemma input_cases (prompt : string) (w : world) :
  (exists line rest, stdin w = line :: rest
                     /\ input prompt w = (Ok line, with_stdin (printed w [prompt]) rest))
  \/ (stdin w = [] /\ input prompt w = (Raise EOFError, printed w [prompt])).
Proof.
  unfold input. cbn. destruct (stdin w) as [|line rest] eqn:E.
  - right. split; reflexivity.
  - left. exists line, rest. split; reflexivity.
Qed.

(** One answer for all the batches that lack a prime editor. *)
Lemma assign_all (r : string) (m : dict string batch_record) :
  forall d0 w,
    exists d,
      for_each m
        (fun item acc => ret (dict_set (fst item) (set_prime_editor (snd item) r) acc)) d0 w
      = (Ok d, w)
      /\ (NoDup (dict_keys m) ->
          forall b, dict_get b d = match dict_get b m with
                                   | Some data => Some (set_prime_editor data r)
                                   | None => dict_get b d0
                                   end).
Proof.
  induction m as [|[k v] m IH]; intros d0 w.
  - exists d0. split; [reflexivity|]. intros _ b. reflexivity.
  - cbn [for_each fst snd]. unfold bind, ret at 1.
    destruct (IH (dict_set k (set_prime_editor v r) d0) w) as (d & Hrun & Hget).
    exists d. split; [exact Hrun|].
    intros Hnd b. inversion Hnd as [|? ? Hnotin Hnd']; subst.
    rewrite (Hget Hnd' b). cbn [dict_get]. change (keqb k b) with (String.eqb k b).
    destruct (String.eqb k b) eqn:E.
    + apply String.eqb_eq in E. subst b.
      rewrite (dict_get_not_key k m Hnotin). apply dict_get_set_same.
    + apply String.eqb_neq in E.
      destruct (dict_get b m); [reflexivity|]. now apply dict_get_set_other.
Qed.

(** One answer per batch, in the order of [missing_pe_batches]. *)
Lemma ask_each (m : dict string batch_record) :
  forall d0 w d w',
    for_each m
      (fun item acc =>
         pe <- input ("Enter prime editor name for batch '" ++ fst item ++ "': ") ;;
         ret (dict_set (fst item) (set_prime_editor (snd item) pe) acc)) d0 w
    = (Ok d, w') ->
    (NoDup (dict_keys m) ->
     forall b, match dict_get b m with
               | Some data => exists pe, In pe (stdin w)
                                         /\ dict_get b d = Some (set_prime_editor data pe)
               | None => dict_get b d = dict_get b d0
               end)
    /\ (forall line, In line (stdout w) -> In line (stdout w')).
Proof.
  induction m as [|[k v] m IH]; intros d0 w d w' Hrun.
  - cbn in Hrun. inversion Hrun; subst. split; [intros _ b; reflexivity|auto].
  - cbn [for_each fst snd] in Hrun. unfold bind at 1 2 in Hrun.
    destruct (input_cases ("Enter prime editor name for batch '" ++ k ++ "': ") w)
      as [(line & rest & Hin & Hi)|[_ Hi]]; rewrite Hi in Hrun; [|discriminate].
    unfold ret at 1 in Hrun.
    destruct (IH _ _ _ _ Hrun) as [Hget Hmono].
    split.
    + intros Hnd b. inversion Hnd as [|? ? Hnotin Hnd']; subst.
      specialize (Hget Hnd' b). cbn [dict_get]. change (keqb k b) with (String.eqb k b).
      destruct (String.eqb k b) eqn:E.
      * apply String.eqb_eq in E. subst b.
        rewrite (dict_get_not_key k m Hnotin) in Hget.
        exists line. split; [rewrite Hin; now left|].
        rewrite Hget. apply dict_get_set_same.
      * apply String.eqb_neq in E.
        destruct (dict_get b m) as [data|].
        -- destruct Hget as (pe & Hpe & Hd). exists pe. split; [|exact Hd].
           rewrite Hin. right. exact Hpe.
        -- rewrite Hget. now apply dict_get_set_other.
    + intros l Hl. apply Hmono. cbn. rewrite in_app_iff. auto.
Qed.

(** [resolve_missing]: an unresolved batch is filed with the operator's
    answer, whatever it is; every other name keeps what [batches] held. *)
Lemma resolve_missing_spec (st : batch_state) (w : world) d w' :
  resolve_missing st w = (Ok d, w') ->
  NoDup (dict_keys (missing_pe_batches st)) ->
  (forall b,
     match dict_get b (missing_pe_batches st) with
     | Some data =>
         exists pe, In pe (stdin w)
                    /\ (forall response rest,
                          stdin w = response :: rest ->
                          Str.lower response <> "different" -> pe = response)
                    /\ dict_get b d = Some (set_prime_editor data pe)
     | None => dict_get b d = dict_get b (batches st)
     end)
  /\ (forall line, In line (stdout w) -> In line (stdout w')).
Proof.
  unfold resolve_missing. intros Hrun Hnd.
  destruct (missing_pe_batches st) as [|item m] eqn:Hm.
  - inversion Hrun; subst. split; [intros b; reflexivity|auto].
  - remember (item :: m) as missing eqn:Hmissing.
    unfold bind at 1 2 in Hrun. rewrite print_printed in Hrun.
    match type of Hrun with
    | context [input ?p ?w0] => destruct (input_cases p w0)
        as [(response & rest & Hin & Hi)|[_ Hi]]; rewrite Hi in Hrun; [|discriminate]
    end.
    rewrite stdin_printed in Hin.
    destruct (String.eqb (Str.lower response) "different") eqn:Hdiff.
    + apply ask_each in Hrun. destruct Hrun as [Hget Hmono]. split.
      * intros b. specialize (Hget Hnd b). destruct (dict_get b missing) as [data|]; auto.
        destruct Hget as (pe & Hpe & Hd). exists pe. repeat split; auto.
        -- rewrite Hin. right. exact Hpe.
        -- intros response' rest' E Hne. rewrite Hin in E. inversion E; subst.
           apply String.eqb_eq in Hdiff. contradiction.
      * intros l Hl. apply Hmono. cbn. rewrite !in_app_iff. auto.
    + match type of Hrun with
      | for_each _ _ ?d0 ?w0 = _ => destruct (assign_all response missing d0 w0)
          as (d1 & Hrun1 & Hget)
      end.
      rewrite Hrun1 in Hrun. inversion Hrun; subst d1 w'. split.
      * intros b. rewrite (Hget Hnd b). destruct (dict_get b missing) as [data|]; auto.
        exists response. repeat split; auto.
        -- rewrite Hin. now left.
        -- intros response' rest' E _. rewrite Hin in E. now inversion E.
      * intros l Hl. cbn. rewrite !in_app_iff. auto.
Qed.

(* ================================================================== *)
(** ** [process_data] as a whole *)
(* ================================================================== *)

(** What [process_data] returns for a name of the table follows from the
    outcome of the loop body on that name and from the operator's answers. *)
Lemma process_data_spec (df : dataframe) (w : world) d w' :
  process_data df w = (Ok d, w') ->
  forall b, In b (map Batch df) ->
    exists o out,
      batch_outcome df b = (Ok o, out)
      /\ (forall line, In line out -> In line (stdout w'))
      /\ match o with
         | None => dict_get b d = None
         | Some data =>
             match prime_editor data with
             | Some _ => dict_get b d = Some data
             | None =>
                 exists pe, In pe (stdin w)
                            /\ (forall response rest,
                                  stdin w = response :: rest ->
                                  Str.lower response <> "different" -> pe = response)
                            /\ dict_get b d = Some (set_prime_editor data pe)
             end
         end.
Proof.
  unfold process_data. intros Hrun b Hb. unfold bind in Hrun.
  destruct (for_each (unique (map Batch df)) (process_batch df) (mkState [] []) w)
    as [[st|e] w1] eqn:Hloop; [|discriminate].
  apply batch_loop in Hloop.
  destruct Hloop as (Hin & _ & Hstdin & _ & Hnd).
  specialize (Hnd (NoDup_nil _)).
  destruct (resolve_missing_spec _ _ _ _ Hrun Hnd) as [Hres Hmono].
  destruct (Hin b (proj2 (unique_In b _) Hb)) as (o & out & Ho & Hl & Hp).
  exists o, out. repeat split; auto.
  specialize (Hres b). unfold lookup_state in Hl. cbn in Hl.
  destruct o as [data|]; cbn in Hl.
  - destruct (prime_editor data) eqn:Hpe;
      pose proof (f_equal fst Hl) as Hb1; pose proof (f_equal snd Hl) as Hb2;
      cbn in Hb1, Hb2; rewrite Hb2 in Hres.
    + now rewrite Hres.
    + rewrite Hstdin in Hres. exact Hres.
  - pose proof (f_equal fst Hl) as Hb1. pose proof (f_equal snd Hl) as Hb2.
    cbn in Hb1, Hb2. rewrite Hb2 in Hres. now rewrite Hres.
Qed.

(** A name the table does not hold is not in the result. *)
Lemma process_data_foreign (df : dataframe) (w : world) d w' :
  process_data df w = (Ok d, w') ->
  forall b, ~ In b (map Batch df) -> dict_get b d = None.
Proof.
  unfold process_data. intros Hrun b Hb. unfold bind in Hrun.
  destruct (for_each (unique (map Batch df)) (process_batch df) (mkState [] []) w)
    as [[st|e] w1] eqn:Hloop; [|discriminate].
  apply batch_loop in Hloop.
  destruct Hloop as (_ & Hout & _ & _ & Hnd).
  specialize (Hnd (NoDup_nil _)).
  destruct (resolve_missing_spec _ _ _ _ Hrun Hnd) as [Hres _].
  specialize (Hres b).
  assert (Hl : lookup_state b st = (None, None)).
  { rewrite Hout; [reflexivity|]. intros Hin. apply Hb. now apply unique_In. }
  pose proof (f_equal fst Hl) as Hb1. pose proof (f_equal snd Hl) as Hb2.
  cbn in Hb1, Hb2. rewrite Hb2 in Hres. now rewrite Hres.
Qed.

(* ================================================================== *)
(** ** The outcome of one batch, from its rows and its name *)
(* ================================================================== *)

Lemma length_one {A : Type} (l : list A) : List.length l = 1%nat -> exists x, l = [x].
Proof. destruct l as [|x [|y l]]; try discriminate. intros _. now exists x. Qed.

(** A batch that fails the structural validation is left out, with one of
    the three warnings. *)
Lemma batch_outcome_invalid (df : dataframe) (b : string) :
  let batch_data := rows_of_batch df b in
  List.length batch_data <> 3%nat
  \/ List.length (rows_of_amplicon batch_data "Prime-edited") <> 1%nat
  \/ List.length (rows_of_amplicon batch_data "Scaffold-incorporated") <> 1%nat ->
  exists warning,
    batch_outcome df b = (Ok None, [warning])
    /\ (warning = warning_rows b \/ warning = warning_prime b \/ warning = warning_scaffold b).
Proof.
  intros batch_data Hbad. unfold batch_outcome, process_batch. fold batch_data.
  destruct (List.length batch_data =? 3)%nat eqn:E3; cbn [negb].
  - apply Nat.eqb_eq in E3.
    destruct (rows_of_amplicon batch_data "Prime-edited") as [|p [|p' ps]] eqn:Ep.
    + exists (warning_prime b). split; [reflexivity|auto].
    + destruct (rows_of_amplicon batch_data "Scaffold-incorporated") as [|s [|s' ss]] eqn:Es.
      * exists (warning_scaffold b). split; [reflexivity|auto].
      * exfalso. cbn in Hbad. intuition.
      * exists (warning_scaffold b). split; [reflexivity|auto].
    + exists (warning_prime b). split; [reflexivity|auto].
  - exists (warning_rows b). split; [reflexivity|auto].
Qed.

(** A batch that passes it is decided by its name alone. *)
Lemma batch_outcome_valid (df : dataframe) (b : string) (p s : row) :
  let batch_data := rows_of_batch df b in
  List.length batch_data = 3%nat ->
  rows_of_amplicon batch_data "Prime-edited" = [p] ->
  rows_of_amplicon batch_data "Scaffold-incorporated" = [s] ->
  batch_outcome df b =
  match extract_batch_info b empty_world with
  | (Ok (pe, Some pbs_, Some rtt_, Some replicate_, code), w1) =>
      (Ok (Some (mkBatch pe pbs_ rtt_ replicate_
                   (percent (Unmodified p) (total_reads_of batch_data))
                   (percent (Modified p) (total_reads_of batch_data))
                   (percent (Modified s) (total_reads_of batch_data))
                   (control_to_none code))),
       stdout w1)
  | (Ok _, w1) =>
      (Ok None, stdout w1 ++ [warning_fields b])%list
  | (Raise e, w1) => (Raise e, stdout w1)
  end.
Proof.
  intros batch_data H3 Hp Hs. unfold batch_outcome, process_batch. fold batch_data.
  rewrite H3, Hp, Hs. cbn [Nat.eqb negb]. unfold bind.
  destruct (extract_batch_info b empty_world) as [[info|e] w1]; [|reflexivity].
  destruct info as [[[[pe [p_|]] [r_|]] [rep|]] code]; try reflexivity.
  destruct pe; reflexivity.
Qed.

(** Whatever record the body files carries the fields parsed from the name,
    with [ctrl] turned into no treatment. *)
Lemma batch_outcome_record (df : dataframe) (b : string) (data : batch_record) out :
  batch_outcome df b = (Ok (Some data), out) ->
  exists p s code,
    List.length (rows_of_batch df b) = 3%nat
    /\ rows_of_amplicon (rows_of_batch df b) "Prime-edited" = [p]
    /\ rows_of_amplicon (rows_of_batch df b) "Scaffold-incorporated" = [s]
    /\ fst (extract_batch_info b empty_world)
       = Ok (prime_editor data, Some (pbs data), Some (rtt data), Some (replicate data), code)
    /\ drug_code data = control_to_none code.
Proof.
  intros Ho.
  destruct (Nat.eq_dec (List.length (rows_of_batch df b)) 3) as [H3|H3].
  2:{ destruct (batch_outcome_invalid df b (or_introl H3)) as (wng & Hw & _).
      rewrite Hw in Ho. discriminate. }
  destruct (Nat.eq_dec (List.length (rows_of_amplicon (rows_of_batch df b) "Prime-edited")) 1)
    as [Hp|Hp].
  2:{ destruct (batch_outcome_invalid df b (or_intror (or_introl Hp))) as (wng & Hw & _).
      rewrite Hw in Ho. discriminate. }
  destruct (Nat.eq_dec
              (List.length (rows_of_amplicon (rows_of_batch df b) "Scaffold-incorporated")) 1)
    as [Hs|Hs].
  2:{ destruct (batch_outcome_invalid df b (or_intror (or_intror Hs))) as (wng & Hw & _).
      rewrite Hw in Ho. discriminate. }
  apply length_one in Hp. destruct Hp as [p Hp].
  apply length_one in Hs. destruct Hs as [s Hs].
  rewrite (batch_outcome_valid df b p s H3 Hp Hs) in Ho.
  destruct (extract_batch_info b empty_world) as [[info|e] w1]; [|discriminate].
  destruct info as [[[[pe [p_|]] [r_|]] [rep|]] code]; try discriminate.
  inversion Ho; subst. exists p, s, code. cbn. auto.
Qed.

(* ================================================================== *)
(** ** Read totals *)
(* ================================================================== *)

Lemma wrap64_mod (z : Z) : wrap64 z mod 2 ^ 64 = z mod 2 ^ 64.
Proof.
  unfold wrap64.
  rewrite <- Zminus_mod_idemp_l, Zmod_mod, Zminus_mod_idemp_l.
  f_equal. lia.
Qed.

Lemma wrap64_congr (a b : Z) : a mod 2 ^ 64 = b mod 2 ^ 64 -> wrap64 a = wrap64 b.
Proof.
  intros E. unfold wrap64.
  rewrite <- (Zplus_mod_idemp_l a), <- (Zplus_mod_idemp_l b), E. reflexivity.
Qed.

Lemma wrap64_add_l (a b : Z) : wrap64 (wrap64 a + b) = wrap64 (a + b).
Proof.
  apply wrap64_congr. rewrite <- Zplus_mod_idemp_l, wrap64_mod, Zplus_mod_idemp_l.
  reflexivity.
Qed.

Lemma wrap64_add_r (a b : Z) : wrap64 (a + wrap64 b) = wrap64 (a + b).
Proof. rewrite Z.add_comm, wrap64_add_l. f_equal. lia. Qed.

Lemma wrap64_small (z : Z) : - 2 ^ 63 <= z < 2 ^ 63 -> wrap64 z = z.
Proof. intros Hz. unfold wrap64. rewrite Z.mod_small; lia. Qed.

Lemma column_sum_wrap (col : row -> Z) (rows : dataframe) :
  column_sum col rows = wrap64 (fold_right (fun r acc => col r + acc) 0 rows).
Proof.
  unfold column_sum.
  assert (G : forall acc, fold_left (fun a r => wrap64 (a + col r)) rows (wrap64 acc)
                          = wrap64 (acc + fold_right (fun r a => col r + a) 0 rows)).
  { induction rows as [|r rows IH]; intros acc; cbn [fold_left fold_right].
    - f_equal. lia.
    - rewrite wrap64_add_l, IH. f_equal. lia. }
  change 0 with (wrap64 0) at 1. rewrite G. reflexivity.
Qed.

(** [total_reads] is the sum of all read counts of the batch, as a 64-bit
    integer. *)
Lemma total_reads_sum (rows : dataframe) : total_reads_of rows = wrap64 (reads_sum rows).
Proof.
  unfold total_reads_of. rewrite !column_sum_wrap.
  set (u := fold_right (fun r acc => Unmodified r + acc) 0 rows).
  set (m := fold_right (fun r acc => Modified r + acc) 0 rows).
  set (d := fold_right (fun r acc => Discarded r + acc) 0 rows).
  rewrite wrap64_add_l, wrap64_add_r.
  replace (wrap64 u + wrap64 m + d) with (wrap64 u + (wrap64 m + d)) by lia.
  rewrite wrap64_add_l.
  replace (u + (wrap64 m + d)) with (wrap64 m + (u + d)) by lia.
  rewrite wrap64_add_l.
  f_equal. subst u m d. unfold reads_sum.
  induction rows as [|r rows IH]; cbn [fold_right]; lia.
Qed.

(** The rows of a batch split into the three categories. *)
Lemma categories_partition (rows : dataframe) :
  List.length rows
  = (List.length (rows_of_amplicon rows "Prime-edited")
     + List.length (rows_of_amplicon rows "Scaffold-incorporated")
     + List.length (catch_all_rows rows))%nat.
Proof.
  unfold rows_of_amplicon, catch_all_rows.
  induction rows as [|r rows IH]; cbn [filter List.length]; [reflexivity|].
  destruct (String.eqb (Amplicon r) "Prime-edited") eqn:Ep.
  - apply String.eqb_eq in Ep. rewrite Ep. cbn. lia.
  - destruct (String.eqb (Amplicon r) "Scaffold-incorporated") eqn:Es; cbn; lia.
Qed.

Lemma rows_of_batch_In (df : dataframe) (b : string) :
  rows_of_batch df b <> [] -> In b (map Batch df).
Proof.
  unfold rows_of_batch. induction df as [|r df IH]; cbn [filter map]; [congruence|].
  destruct (String.eqb (Batch r) b) eqn:E.
  - apply String.eqb_eq in E. intros _. now left.
  - intros H. right. now apply IH.
Qed.

Lemma batch_outcome_In (df : dataframe) (b : string) data out :
  batch_outcome df b = (Ok (Some data), out) -> In b (map Batch df).
Proof.
  intros Ho. apply batch_outcome_record in Ho.
  destruct Ho as (p & s & code & H3 & _).
  apply rows_of_batch_In. intros E. rewrite E in H3. discriminate.
Qed.

(** A returned record is the one the loop body filed for that name, with
    the operator's answer as prime editor where the name had none. *)
Lemma process_data_record (df : dataframe) (w : world) d w' (b : string) rec :
  process_data df w = (Ok d, w') ->
  dict_get b d = Some rec ->
  exists data out,
    batch_outcome df b = (Ok (Some data), out)
    /\ (rec = data /\ prime_editor data <> None
        \/ prime_editor data = None
           /\ exists pe, rec = set_prime_editor data pe /\ In pe (stdin w)
                         /\ (forall response rest, stdin w = response :: rest ->
                               Str.lower response <> "different" -> pe = response)).
Proof.
  intros Hrun Hget.
  destruct (in_dec string_dec b (map Batch df)) as [Hin|Hin].
  2:{ rewrite (process_data_foreign df w d w' Hrun b Hin) in Hget. discriminate. }
  destruct (process_data_spec df w d w' Hrun b Hin) as (o & out & Ho & _ & Hcase).
  destruct o as [data|]; [|congruence].
  exists data, out. split; [exact Ho|].
  destruct (prime_editor data) eqn:Hpe.
  - left. split; congruence.
  - right. split; [reflexivity|]. destruct Hcase as (pe & Hpe' & Huni & Hd).
    exists pe. repeat split; auto. congruence.
Qed.

(** A record the loop body files is returned. *)
Lemma process_data_keeps (df : dataframe) (w : world) d w' (b : string) data out :
  process_data df w = (Ok d, w') ->
  batch_outcome df b = (Ok (Some data), out) ->
  (forall line, In line out -> In line (stdout w'))
  /\ (prime_editor data <> None /\ dict_get b d = Some data
      \/ prime_editor data = None
         /\ exists pe, dict_get b d = Some (set_prime_editor data pe) /\ In pe (stdin w)
                       /\ (forall response rest, stdin w = response :: rest ->
                             Str.lower response <> "different" -> pe = response)).
Proof.
  intros Hrun Ho.
  pose proof (batch_outcome_In df b data out Ho) as Hin.
  destruct (process_data_spec df w d w' Hrun b Hin) as (o & out' & Ho' & Hp & Hcase).
  rewrite Ho in Ho'. inversion Ho'; subst o out'. split; [exact Hp|].
  destruct (prime_editor data) eqn:Hpe.
  - left. split; [discriminate|exact Hcase].
  - right. split; [reflexivity|]. destruct Hcase as (pe & Hpe' & Huni & Hd).
    exists pe. auto.
Qed.

(* ================================================================== *)
(** ** Metric Aggregator *)
(* ================================================================== *)

(** C1 (as the code has it).  For a batch that passes the structural
    validation, the record [process_data] returns carries
    [(count / total) * 100] in binary64 -- the quotient is rounded before the
    multiplication -- with the prime-edited row's Unmodified count for the
    correct edits, its Modified count for the incorrect ones and the scaffold
    row's Modified count for the scaffold incorporation; [total] is the sum
    of Unmodified + Modified + Discarded over the rows of the batch, held in
    64 bits. *)
Theorem C1_percentages_of_valid_batch (df : dataframe) (b : string) (p s : row)
  (w : world) d w' (rec : batch_record) :
  List.length (rows_of_batch df b) = 3%nat ->
  rows_of_amplicon (rows_of_batch df b) "Prime-edited" = [p] ->
  rows_of_amplicon (rows_of_batch df b) "Scaffold-incorporated" = [s] ->
  process_data df w = (Ok d, w') ->
  dict_get b d = Some rec ->
  let total := wrap64 (reads_sum (rows_of_batch df b)) in
  correct_edits rec
  = PrimFloat.mul (PrimFloat.div (float_of_int64 (Unmodified p)) (float_of_int64 total))
      (float_of_int64 100)
  /\ incorrect_edits rec
     = PrimFloat.mul (PrimFloat.div (float_of_int64 (Modified p)) (float_of_int64 total))
         (float_of_int64 100)
  /\ scaffold_incorporated rec
     = PrimFloat.mul (PrimFloat.div (float_of_int64 (Modified s)) (float_of_int64 total))
         (float_of_int64 100)
  /\ (- 2 ^ 63 <= reads_sum (rows_of_batch df b) < 2 ^ 63 ->
      total = reads_sum (rows_of_batch df b)).
Proof.
  intros H3 Hp Hs Hrun Hget total.
  destruct (process_data_record df w d w' b rec Hrun Hget) as (data & out & Ho & Hrec).
  rewrite (batch_outcome_valid df b p s H3 Hp Hs) in Ho.
  rewrite total_reads_sum in Ho. fold total in Ho.
  destruct (extract_batch_info b empty_world) as [[info|e] w1]; [|discriminate].
  destruct info as [[[[pe [p_|]] [r_|]] [rep|]] code]; try discriminate.
  inversion Ho; subst data out.
  assert (Hm : same_metrics rec
                 (mkBatch pe p_ r_ rep (percent (Unmodified p) total)
                    (percent (Modified p) total) (percent (Modified s) total)
                    (control_to_none code))).
  { destruct Hrec as [[-> _]|[_ (pe' & -> & _)]]; repeat split. }
  destruct Hm as (Hc & Hi & Hsc). cbn in Hc, Hi, Hsc.
  repeat split; try assumption.
  intros Hrange. apply wrap64_small, Hrange.
Qed.

(** C1, on the specification's example: the total is 120; the correct-edit
    percentage is [(5/120)*100], the other two as the specification has
    them. *)
Lemma C1_percentages_of_valid_batch_witness :
  reads_sum (rows_of_batch spec_rows "XPE2_P5_R10_Rep2") = 120
  /\ exists d w' rec,
       process_data spec_rows empty_world = (Ok d, w')
       /\ dict_get "XPE2_P5_R10_Rep2" d = Some rec
       /\ correct_edits rec
          = PrimFloat.mul (PrimFloat.div (float_of_int64 5) (float_of_int64 120))
              (float_of_int64 100)
       /\ incorrect_edits rec = true_divide (100 * 3) 120
       /\ scaffold_incorporated rec = true_divide (100 * 1) 120.
Proof.
  split; [reflexivity|].
  eexists. eexists. eexists.
  split; [vm_compute; reflexivity|].
  split; [vm_compute; reflexivity|].
  pose proof (C1_percentages_of_valid_batch spec_rows "XPE2_P5_R10_Rep2"
                (mkRow "XPE2_P5_R10_Rep2" "Prime-edited" 5 3 2)
                (mkRow "XPE2_P5_R10_Rep2" "Scaffold-incorporated" 2 1 7)
                empty_world _ _ _ eq_refl eq_refl eq_refl eq_refl eq_refl) as H.
  cbv zeta in H. destruct H as (Hc & Hi & Hs & _).
  split; [exact Hc|].
  split; [etransitivity; [exact Hi|]|etransitivity; [exact Hs|]]; vm_compute; reflexivity.
Defined.

(** C1 as stated fails on the specification's own example: the code rounds
    [5/120] before multiplying by 100, and the result is not the binary64
    value of [100*5/120]. *)
Lemma C1_counterexample :
  exists d w' rec,
    process_data spec_rows empty_world = (Ok d, w')
    /\ dict_get "XPE2_P5_R10_Rep2" d = Some rec
    /\ wrap64 (reads_sum (rows_of_batch spec_rows "XPE2_P5_R10_Rep2")) = 120
    /\ correct_edits rec <> true_divide (100 * 5) 120.
Proof.
  eexists. eexists. eexists.
  split; [vm_compute; reflexivity|].
  split; [vm_compute; reflexivity|].
  split; [reflexivity|].
  vm_compute. intros H. discriminate H.
Qed.

Lemma reads_sum_zero (rows : dataframe) :
  (forall r, In r rows -> 0 <= Unmodified r /\ 0 <= Modified r /\ 0 <= Discarded r) ->
  reads_sum rows = 0 ->
  forall r, In r rows -> Unmodified r = 0 /\ Modified r = 0 /\ Discarded r = 0.
Proof.
  unfold reads_sum. induction rows as [|x rows IH]; intros Hpos Hsum r Hr; [destruct Hr|].
  cbn [fold_right] in Hsum.
  assert (Hrest : 0 <= fold_right
                         (fun r acc => Unmodified r + Modified r + Discarded r + acc) 0 rows).
  { clear -Hpos. induction rows as [|y rows IH]; cbn [fold_right]; [lia|].
    assert (Hy := Hpos y (or_intror (or_introl eq_refl))).
    assert (0 <= fold_right
                   (fun r acc => Unmodified r + Modified r + Discarded r + acc) 0 rows).
    { apply IH. intros r [->|Hr]; apply Hpos; [now left|right; now right]. }
    lia. }
  assert (Hx := Hpos x (or_introl eq_refl)).
  destruct Hr as [->|Hr].
  - lia.
  - apply IH; auto. + intros r' Hr'. apply Hpos. now right. + lia.
Qed.

Lemma rows_of_amplicon_In (rows : dataframe) (label : string) (r : row) :
  In r (rows_of_amplicon rows label) -> In r rows.
Proof. unfold rows_of_amplicon. rewrite filter_In. tauto. Qed.

(** C3 (as the code has it).  A well-formed batch whose read counts sum to
    zero is not skipped: the loop body files its record like any other, the
    three percentages being the NaN of [0/0], and [process_data] returns
    that record. *)
Theorem C3_zero_total_yields_nan (df : dataframe) (b : string) (p s : row)
  (pe : option string) (pbs_ rtt_ replicate_ : Z) (code : option string) :
  List.length (rows_of_batch df b) = 3%nat ->
  rows_of_amplicon (rows_of_batch df b) "Prime-edited" = [p] ->
  rows_of_amplicon (rows_of_batch df b) "Scaffold-incorporated" = [s] ->
  (forall r, In r (rows_of_batch df b) ->
     0 <= Unmodified r /\ 0 <= Modified r /\ 0 <= Discarded r) ->
  reads_sum (rows_of_batch df b) = 0 ->
  fst (extract_batch_info b empty_world)
  = Ok (pe, Some pbs_, Some rtt_, Some replicate_, code) ->
  let data := mkBatch pe pbs_ rtt_ replicate_ PrimFloat.nan PrimFloat.nan PrimFloat.nan
                (control_to_none code) in
  (forall st w, fst (process_batch df b st w) = Ok (file_record b data st))
  /\ (forall w d w',
        process_data df w = (Ok d, w') ->
        exists rec, dict_get b d = Some rec
                    /\ correct_edits rec = PrimFloat.nan
                    /\ incorrect_edits rec = PrimFloat.nan
                    /\ scaffold_incorporated rec = PrimFloat.nan).
Proof.
  intros H3 Hp Hs Hpos Hsum Hparse data.
  assert (Hin_p : In p (rows_of_batch df b)).
  { apply rows_of_amplicon_In with "Prime-edited". rewrite Hp. now left. }
  assert (Hin_s : In s (rows_of_batch df b)).
  { apply rows_of_amplicon_In with "Scaffold-incorporated". rewrite Hs. now left. }
  destruct (reads_sum_zero _ Hpos Hsum p Hin_p) as (Hpu & Hpm & _).
  destruct (reads_sum_zero _ Hpos Hsum s Hin_s) as (_ & Hsm & _).
  assert (Ho : exists out, batch_outcome df b = (Ok (Some data), out)).
  { rewrite (batch_outcome_valid df b p s H3 Hp Hs).
    rewrite total_reads_sum, Hsum, Hpu, Hpm, Hsm.
    destruct (extract_batch_info b empty_world) as [r w1]. cbn [fst] in Hparse. subst r.
    exists (stdout w1). reflexivity. }
  destruct Ho as [out Ho]. split.
  - intros st w. rewrite process_batch_frame, Ho. reflexivity.
  - intros w d w' Hrun.
    destruct (process_data_keeps df w d w' b data out Hrun Ho)
      as [_ [[_ Hd]|[_ (pe' & Hd & _)]]].
    + exists data. repeat split; auto.
    + exists (set_prime_editor data pe'). repeat split; auto.
Qed.

(** C3, on a batch of three rows without a read. *)
Lemma C3_zero_total_yields_nan_witness :
  exists rec,
    dict_get "XPE2_P7_R12_Rep1" [("XPE2_P7_R12_Rep1",
       mkBatch (Some "PE2") 7 12 1 PrimFloat.nan PrimFloat.nan PrimFloat.nan None)] = Some rec
    /\ correct_edits rec = PrimFloat.nan
    /\ incorrect_edits rec = PrimFloat.nan
    /\ scaffold_incorporated rec = PrimFloat.nan.
Proof.
  assert (Hpos : forall r, In r (rows_of_batch zero_rows "XPE2_P7_R12_Rep1") ->
                           0 <= Unmodified r /\ 0 <= Modified r /\ 0 <= Discarded r).
  { intros r Hr. cbn in Hr. destruct Hr as [<-|[<-|[<-|[]]]]; cbn; lia. }
  refine (proj2 (C3_zero_total_yields_nan zero_rows "XPE2_P7_R12_Rep1"
                   (mkRow "XPE2_P7_R12_Rep1" "Prime-edited" 0 0 0)
                   (mkRow "XPE2_P7_R12_Rep1" "Scaffold-incorporated" 0 0 0)
                   (Some "PE2") 7 12 1 None eq_refl eq_refl eq_refl Hpos eq_refl eq_refl)
            empty_world _ empty_world _).
  vm_compute. reflexivity.
Defined.

(** C3 as stated fails: the batch without reads is returned, with NaN
    percentages, and nothing is printed about it. *)
Lemma C3_counterexample :
  reads_sum (rows_of_batch zero_rows "XPE2_P7_R12_Rep1") = 0
  /\ process_data zero_rows empty_world
     = (Ok [("XPE2_P7_R12_Rep1",
             mkBatch (Some "PE2") 7 12 1 PrimFloat.nan PrimFloat.nan PrimFloat.nan None)],
        empty_world).
Proof. split; [reflexivity|]. vm_compute. reflexivity. Qed.

(** C4.  A batch that does not have exactly three rows, or not exactly one
    row of each of the three categories, is skipped with a warning: the
    loop body prints it and leaves the state as it was, the batch is absent
    from the result, and every record filed for another batch is
    returned. *)
Theorem C4_structural_mismatch_skipped (df : dataframe) (b : string) :
  List.length (rows_of_batch df b) <> 3%nat
  \/ List.length (catch_all_rows (rows_of_batch df b)) <> 1%nat
  \/ List.length (rows_of_amplicon (rows_of_batch df b) "Prime-edited") <> 1%nat
  \/ List.length (rows_of_amplicon (rows_of_batch df b) "Scaffold-incorporated") <> 1%nat ->
  exists warning,
    (warning = warning_rows b \/ warning = warning_prime b \/ warning = warning_scaffold b)
    /\ (forall st w, process_batch df b st w = (Ok st, printed w [warning]))
    /\ (forall w d w',
          process_data df w = (Ok d, w') ->
          dict_get b d = None
          /\ (In b (map Batch df) -> In warning (stdout w'))
          /\ (forall b' data out,
                batch_outcome df b' = (Ok (Some data), out) ->
                exists rec, dict_get b' d = Some rec /\ same_metrics rec data
                            /\ pbs rec = pbs data /\ rtt rec = rtt data
                            /\ replicate rec = replicate data)).
Proof.
  intros Hbad.
  assert (Hbad' : List.length (rows_of_batch df b) <> 3%nat
                  \/ List.length (rows_of_amplicon (rows_of_batch df b) "Prime-edited") <> 1%nat
                  \/ List.length (rows_of_amplicon (rows_of_batch df b)
                                    "Scaffold-incorporated") <> 1%nat).
  { pose proof (categories_partition (rows_of_batch df b)). lia. }
  destruct (batch_outcome_invalid df b Hbad') as (warning & Ho & Hw).
  exists warning. split; [exact Hw|]. split.
  - intros st w. now rewrite process_batch_frame, Ho.
  - intros w d w' Hrun. split; [|split].
    + destruct (in_dec string_dec b (map Batch df)) as [Hin|Hin].
      * destruct (process_data_spec df w d w' Hrun b Hin) as (o & out & Ho' & _ & Hcase).
        rewrite Ho in Ho'. inversion Ho'; subst o out. exact Hcase.
      * now apply (process_data_foreign df w d w' Hrun).
    + intros Hin.
      destruct (process_data_spec df w d w' Hrun b Hin) as (o & out & Ho' & Hp & _).
      rewrite Ho in Ho'. inversion Ho'; subst o out. apply Hp. now left.
    + intros b' data out Ho'.
      destruct (process_data_keeps df w d w' b' data out Hrun Ho')
        as [_ [[_ Hd]|[_ (pe' & Hd & _)]]].
      * exists data. repeat split; auto.
      * exists (set_prime_editor data pe'). repeat split; auto.
Qed.

(** C4, on a batch of two rows that precedes a well-formed one. *)
Lemma C4_structural_mismatch_skipped_witness :
  exists warning,
    (warning = warning_rows "XPE2_P9_R9_Rep1" \/ warning = warning_prime "XPE2_P9_R9_Rep1"
     \/ warning = warning_scaffold "XPE2_P9_R9_Rep1")
    /\ (forall st w,
          process_batch short_then_spec_rows "XPE2_P9_R9_Rep1" st w
          = (Ok st, printed w [warning]))
    /\ (forall w d w',
          process_data short_then_spec_rows w = (Ok d, w') ->
          dict_get "XPE2_P9_R9_Rep1" d = None
          /\ (In "XPE2_P9_R9_Rep1" (map Batch short_then_spec_rows) -> In warning (stdout w'))
          /\ (forall b' data out,
                batch_outcome short_then_spec_rows b' = (Ok (Some data), out) ->
                exists rec, dict_get b' d = Some rec /\ same_metrics rec data
                            /\ pbs rec = pbs data /\ rtt rec = rtt data
                            /\ replicate rec = replicate data)).
Proof.
  apply (C4_structural_mismatch_skipped short_then_spec_rows "XPE2_P9_R9_Rep1").
  left. vm_compute. discriminate.
Defined.

(* ================================================================== *)
(** ** Treatment codes and the prime editor *)
(* ================================================================== *)

Lemma lower_ctrl_nonempty (c : string) : Str.lower c = "ctrl" -> c <> "".
Proof. intros H E. subst c. discriminate H. Qed.

Lemma control_to_none_treatment (code : option string) :
  control_to_none code = treatment_of code.
Proof.
  destruct code as [c|]; [|reflexivity]. unfold control_to_none, treatment_of.
  destruct (String.eqb (Str.lower c) "ctrl") eqn:E; [|now rewrite andb_false_r].
  apply String.eqb_eq in E. apply lower_ctrl_nonempty in E.
  apply String.eqb_neq in E. now rewrite E.
Qed.

(** C8.  A batch with well-formed rows and an ASCII name is filed, and
    returned, with the treatment its name gives: none when the name carries
    the code [ctrl] in any letter case or no code at all, the code as
    written for any other spelling.  For a batch without treatment
    [get_or_create_drug] returns the reserved drug named None without
    asking or recording anything.  The treatment of every returned batch
    is the code parsed from its name, treated this way. *)
Theorem C8_ctrl_is_no_treatment (df : dataframe) (b : string) (p s : row)
  (pe : option string) (pbs_ rtt_ replicate_ : Z) (code : option string) :
  Str.is_ascii b = true ->
  List.length (rows_of_batch df b) = 3%nat ->
  rows_of_amplicon (rows_of_batch df b) "Prime-edited" = [p] ->
  rows_of_amplicon (rows_of_batch df b) "Scaffold-incorporated" = [s] ->
  fst (extract_batch_info b empty_world)
  = Ok (pe, Some pbs_, Some rtt_, Some replicate_, code) ->
  (forall st w,
      exists data,
        fst (process_batch df b st w) = Ok (file_record b data st)
        /\ drug_code data = treatment_of code)
  /\ (forall w d w',
        process_data df w = (Ok d, w') ->
        exists rec,
          dict_get b d = Some rec
          /\ drug_code rec = treatment_of code
          /\ (forall c, code = Some c -> Str.lower c = "ctrl" ->
                drug_code rec = None
                /\ forall w1, get_or_create_drug (drug_code rec) w1 = (Ok no_drug_id, w1))
          /\ (code = None ->
                drug_code rec = None
                /\ forall w1, get_or_create_drug (drug_code rec) w1 = (Ok no_drug_id, w1))
          /\ (forall c, code = Some c -> Str.lower c <> "ctrl" -> drug_code rec = Some c))
  /\ (forall w d w' b' rec,
        process_data df w = (Ok d, w') ->
        dict_get b' d = Some rec ->
        exists pe' code',
          fst (extract_batch_info b' empty_world)
          = Ok (pe', Some (pbs rec), Some (rtt rec), Some (replicate rec), code')
          /\ drug_code rec = treatment_of code').
Proof.
  intros _ H3 Hp Hs Hparse.
  set (data := mkBatch pe pbs_ rtt_ replicate_
                 (percent (Unmodified p) (total_reads_of (rows_of_batch df b)))
                 (percent (Modified p) (total_reads_of (rows_of_batch df b)))
                 (percent (Modified s) (total_reads_of (rows_of_batch df b)))
                 (control_to_none code)).
  assert (Ho : exists out, batch_outcome df b = (Ok (Some data), out)).
  { rewrite (batch_outcome_valid df b p s H3 Hp Hs).
    destruct (extract_batch_info b empty_world) as [r w1]. cbn [fst] in Hparse. subst r.
    exists (stdout w1). reflexivity. }
  destruct Ho as [out Ho].
  assert (Hcode : drug_code data = treatment_of code)
    by (unfold data; cbn [drug_code]; apply control_to_none_treatment).
  split; [|split].
  - intros st w. exists data. split; [|exact Hcode].
    rewrite process_batch_frame, Ho. reflexivity.
  - intros w d w' Hrun.
    assert (Hrec : exists rec, dict_get b d = Some rec /\ drug_code rec = treatment_of code).
    { destruct (process_data_keeps df w d w' b data out Hrun Ho)
        as [_ [[_ Hd]|[_ (pe' & Hd & _)]]].
      - exists data. now split.
      - exists (set_prime_editor data pe'). now split. }
    destruct Hrec as (rec & Hget & Hrec). exists rec.
    split; [exact Hget|]. split; [exact Hrec|].
    split; [|split].
    + intros c -> Hc. rewrite Hrec. unfold treatment_of. rewrite Hc.
      split; [reflexivity|]. intros w1. reflexivity.
    + intros ->. rewrite Hrec. split; [reflexivity|]. intros w1. reflexivity.
    + intros c -> Hc. rewrite Hrec. unfold treatment_of.
      apply String.eqb_neq in Hc. now rewrite Hc.
  - intros w d w' b' rec Hrun Hget.
    destruct (process_data_record df w d w' b' rec Hrun Hget) as (data' & out' & Ho' & Hrec).
    apply batch_outcome_record in Ho'.
    destruct Ho' as (p' & s' & code' & _ & _ & _ & Hparse' & Hcode').
    exists (prime_editor data'), code'. rewrite Hparse'.
    rewrite <- control_to_none_treatment.
    destruct Hrec as [[-> Hpe]|[Hpe (pe' & -> & _)]]; split; auto.
Qed.

(** C8, on a table whose batch carries the code [CtRl]. *)
Lemma C8_ctrl_is_no_treatment_witness :
  exists rec,
    dict_get "X_PE2_P5R10_CtRl"
      [("X_PE2_P5R10_CtRl",
        mkBatch (Some "PE2") 5 10 1 (percent 5 120) (percent 3 120) (percent 1 120) None)]
    = Some rec
    /\ drug_code rec = treatment_of (Some "CtRl")
    /\ (forall c, Some "CtRl" = Some c -> Str.lower c = "ctrl" ->
          drug_code rec = None
          /\ forall w1, get_or_create_drug (drug_code rec) w1 = (Ok no_drug_id, w1))
    /\ (Some "CtRl" = None ->
          drug_code rec = None
          /\ forall w1, get_or_create_drug (drug_code rec) w1 = (Ok no_drug_id, w1))
    /\ (forall c, Some "CtRl" = Some c -> Str.lower c <> "ctrl" -> drug_code rec = Some c).
Proof.
  refine (proj1 (proj2 (C8_ctrl_is_no_treatment ctrl_rows "X_PE2_P5R10_CtRl"
                          (mkRow "X_PE2_P5R10_CtRl" "Prime-edited" 5 3 2)
                          (mkRow "X_PE2_P5R10_CtRl" "Scaffold-incorporated" 2 1 7)
                          (Some "PE2") 5 10 1 (Some "CtRl")
                          eq_refl eq_refl eq_refl eq_refl eq_refl))
            empty_world _ empty_world _).
  vm_compute. reflexivity.
Defined.

(** C9 as stated fails: the operator supplies no usable value (an empty
    line), and the batch is returned all the same, with the empty string as
    its prime editor. *)
Lemma C9_counterexample :
  fst (extract_batch_info "X_P5_R10_Rep2" empty_world)
  = Ok (None, Some 5, Some 10, Some 2, None)
  /\ exists w',
       process_data unnamed_rows (typing [""])
       = (Ok [("X_P5_R10_Rep2",
               mkBatch (Some "") 5 10 2 (percent 5 120) (percent 3 120) (percent 1 120) None)],
          w').
Proof.
  split; [vm_compute; reflexivity|]. eexists. vm_compute. reflexivity.
Qed.

(* ================================================================== *)
(** ** Identifier Parser *)
(* ================================================================== *)

(** C6.  The literal names of the specification parse to the stated tuples,
    each decided by the first pattern that matches in the order 1, 2, 3, 4,
    drug with replicate, drug; the replicate 1 of the last two names is the
    default of the last pattern. *)
Theorem C6_literal_names (w : world) :
  (extract_batch_info "XPE2_P5_R10_Rep2" w
   = (Ok (Some "PE2", Some 5, Some 10, Some 2, None), w)
   /\ re_match pattern1 "XPE2_P5_R10_Rep2" = Some ["PE2"; "5"; "10"; "2"])
  /\ (extract_batch_info "X_P5_R10_Rep2" w
      = (Ok (None, Some 5, Some 10, Some 2, None), w)
      /\ re_match pattern1 "X_P5_R10_Rep2" = None
      /\ re_match pattern2 "X_P5_R10_Rep2" = None
      /\ re_match pattern3 "X_P5_R10_Rep2" = Some ["5"; "10"; "2"])
  /\ (extract_batch_info "X_PE2_P5R10_drugA" w
      = (Ok (Some "PE2", Some 5, Some 10, Some 1, Some "drugA"), w)
      /\ re_match pattern1 "X_PE2_P5R10_drugA" = None
      /\ re_match pattern2 "X_PE2_P5R10_drugA" = None
      /\ re_match pattern3 "X_PE2_P5R10_drugA" = None
      /\ re_match pattern4 "X_PE2_P5R10_drugA" = None
      /\ re_match pattern_drug_rep "X_PE2_P5R10_drugA" = None
      /\ re_match pattern_drug "X_PE2_P5R10_drugA" = Some ["PE2"; "5"; "10"; "drugA"])
  /\ (extract_batch_info "X_PE2_P5R10_ctrl" w
      = (Ok (Some "PE2", Some 5, Some 10, Some 1, Some "ctrl"), w)
      /\ re_match pattern_drug_rep "X_PE2_P5R10_ctrl" = None
      /\ re_match pattern_drug "X_PE2_P5R10_ctrl" = Some ["PE2"; "5"; "10"; "ctrl"]).
Proof. repeat split; vm_compute; reflexivity. Qed.

(** C10 (as the code has it).  A name made of letters and underscores, a
    reagent starting with PE, [_P<int>R<int>_] and a last segment without
    underscore that is not purely alphabetic (a final newline does not
    count), in which [_Rep<int>] occurs nowhere, matches none of the six
    patterns: the parser prints its warning and returns the tuple of
    [None]s. *)
Theorem C10_non_alphabetic_treatment_unparsed (pre rgt d1 d2 seg : string) (w : world) :
  pre <> "" -> Str.forallb (atom_matches letters_us) pre = true ->
  rgt <> "" -> Str.forallb (atom_matches word) rgt = true ->
  d1 <> "" -> Str.forallb (atom_matches digit) d1 = true ->
  d2 <> "" -> Str.forallb (atom_matches digit) d2 = true ->
  Str.existsb Str.is_underscore seg = false ->
  letters_then_eol seg = false ->
  has_rep_marker (treatment_name pre rgt d1 d2 seg) = false ->
  let name := treatment_name pre rgt d1 d2 seg in
  extract_batch_info name w
  = (Ok no_info, printed w ["Warning: Could not parse batch name: " ++ name])
  /\ re_match pattern1 name = None /\ re_match pattern2 name = None
  /\ re_match pattern3 name = None /\ re_match pattern4 name = None
  /\ re_match pattern_drug_rep name = None /\ re_match pattern_drug name = None.
Proof.
  intros _ _ _ _ _ _ _ _ Hus Hseg Hrep name.
  assert (Hlast : letters_then_eol (last_segment name) = false).
  { unfold name, treatment_name.
    replace (pre ++ "PE" ++ rgt ++ "_P" ++ d1 ++ "R" ++ d2 ++ "_" ++ seg)
      with ((pre ++ "PE" ++ rgt ++ "_P" ++ d1 ++ "R" ++ d2) ++ "_" ++ seg).
    - now rewrite last_segment_app.
    - now rewrite !string_app_assoc. }
  split; [now apply extract_batch_info_unparsed|].
  repeat split.
  - exact (no_marker_no_match
             [Many1 letters; Open; Lit "PE"; Many1 word; Close; Lit "_P"; Open; Many1 digit;
              Close; Lit "_R"; Open; Many1 digit; Close] name Hrep).
  - exact (no_marker_no_match
             [Many1 letters; Open; Lit "PE"; Many1 word; Close; Lit "_R"; Open; Many1 digit;
              Close; Lit "_P"; Open; Many1 digit; Close] name Hrep).
  - exact (no_marker_no_match
             [Many1 letters; Lit "_P"; Open; Many1 digit; Close;
              Lit "_R"; Open; Many1 digit; Close] name Hrep).
  - exact (no_marker_no_match
             [Many1 letters; Lit "_R"; Open; Many1 digit; Close;
              Lit "_P"; Open; Many1 digit; Close] name Hrep).
  - exact (no_marker_no_match
             [Many1 letters_us; Open; Lit "PE"; Many1 word; Close; Lit "_P"; Open;
              Many1 digit; Close; Lit "R"; Open; Many1 digit; Close;
              Lit "_"; Open; Many1 letters; Close] name Hrep).
  - exact (no_code_no_match
             [Many1 letters_us; Open; Lit "PE"; Many1 word; Close; Lit "_P"; Open;
              Many1 digit; Close; Lit "R"; Open; Many1 digit; Close] name Hlast).
Qed.

(** C10, on the name [X_PE2_P5R10_drug2]. *)
Lemma C10_non_alphabetic_treatment_unparsed_witness :
  extract_batch_info "X_PE2_P5R10_drug2" empty_world
  = (Ok no_info,
     printed empty_world ["Warning: Could not parse batch name: X_PE2_P5R10_drug2"])
  /\ re_match pattern1 "X_PE2_P5R10_drug2" = None
  /\ re_match pattern2 "X_PE2_P5R10_drug2" = None
  /\ re_match pattern3 "X_PE2_P5R10_drug2" = None
  /\ re_match pattern4 "X_PE2_P5R10_drug2" = None
  /\ re_match pattern_drug_rep "X_PE2_P5R10_drug2" = None
  /\ re_match pattern_drug "X_PE2_P5R10_drug2" = None.
Proof.
  apply (C10_non_alphabetic_treatment_unparsed "X_" "2" "5" "10" "drug2" empty_world);
    try discriminate; reflexivity.
Defined.

(** C10 as stated fails: the last segment [drugA] followed by a newline
    holds a character outside the letters and no [_Rep<int>] ends the name,
    yet [$] matches before the final newline and the name parses. *)
Lemma C10_counterexample :
  exists seg,
    seg = "drugA" ++ nl
    /\ Str.existsb (fun c => negb (atom_matches letters c)) seg = true
    /\ ends_with_rep (treatment_name "X_" "2" "5" "10" seg) = false
    /\ extract_batch_info (treatment_name "X_" "2" "5" "10" seg) empty_world
       = (Ok (Some "PE2", Some 5, Some 10, Some 1, Some "drugA"), empty_world).
Proof.
  eexists. split; [reflexivity|]. repeat split; vm_compute; reflexivity.
Qed.

(* ================================================================== *)
(** ** Cross-Run Normalizer *)
(* ================================================================== *)

(** With normalization requested, the first data point already stops the
    function: the loop that looks for the reference point unpacks the
    eight-column rows into seven names. *)
Lemma normalize_raises (q : query_results) (selected_runs : option (list string))
  (w : world) (t : data_point) (rest : list data_point) :
  q_data_points q = t :: rest ->
  get_experiment_data q selected_runs true w = (Raise ValueError, w).
Proof.
  intros Hq. unfold get_experiment_data, find_reference. rewrite Hq. reflexivity.
Qed.

(** C2 (code defect).  On the specification's two-run example -- run
    factors 40 and 50 at the shared coordinate (7,7) -- the normalizing call
    raises [ValueError] before any factor is computed, while the same call
    without normalization returns the unscaled means. *)
Theorem C2_normalization_raises (selected_runs : option (list string)) (w : world) :
  get_experiment_data two_run_query selected_runs true w = (Raise ValueError, w)
  /\ exists data prime_editors drugs name variant runs,
       get_experiment_data two_run_query None false w
       = (Ok (data, prime_editors, drugs, name, variant, runs), w)
       /\ cell_of data ("PE2", "None", "correct_edits") (7, 7) = Some 45%float
       /\ cell_of data ("PE2", "None", "correct_edits") (8, 9) = Some 20%float.
Proof.
  split; [exact (normalize_raises two_run_query selected_runs w _ _ eq_refl)|].
  do 6 eexists. split; [vm_compute; reflexivity|]. split; vm_compute; reflexivity.
Qed.

(** C5 (code defect).  On two runs without a common coordinate the
    normalizing call raises [ValueError] instead of printing the warning and
    passing the values through; without normalization the values come back
    unscaled. *)
Theorem C5_no_reference_raises (selected_runs : option (list string)) (w : world) :
  get_experiment_data disjoint_query selected_runs true w = (Raise ValueError, w)
  /\ exists data prime_editors drugs name variant runs,
       get_experiment_data disjoint_query None false w
       = (Ok (data, prime_editors, drugs, name, variant, runs), w)
       /\ cell_of data ("PE2", "None", "correct_edits") (7, 7) = Some 40%float
       /\ cell_of data ("PE2", "None", "correct_edits") (8, 9) = Some 20%float.
Proof.
  split; [exact (normalize_raises disjoint_query selected_runs w _ _ eq_refl)|].
  do 6 eexists. split; [vm_compute; reflexivity|]. split; vm_compute; reflexivity.
Qed.

(** Only an experiment without data points reaches the warning. *)
Lemma normalize_without_points (q : query_results) (selected_runs : option (list string))
  (w : world) :
  q_data_points q = [] ->
  get_experiment_data q selected_runs true w
  = (fst (get_experiment_data q selected_runs false w),
     printed w ["Warning: No common PBS/RTT combination found across all runs. Normalization disabled."]).
Proof.
  intros Hq. unfold get_experiment_data, find_reference. rewrite Hq.
  cbn. destruct (q_exp_details q) as [[name variant]|]; reflexivity.
Qed.

(* ================================================================== *)
(** ** Aggregation Index: the values collected per key and coordinate *)
(* ================================================================== *)

Lemma unpack_eight (t : data_point) (w : world) : unpack 8 t w = (Ok t, w).
Proof. reflexivity. Qed.

(** Appending under [(key, pos)] touches that list only. *)
Lemma cell_of_append_value (k key : agg_key) (p pos : position) (v : float)
  (hd : dict agg_key (dict position (list float))) :
  cell_of (append_value k p v hd) key pos
  = if keqb k key && keqb p pos
    then Some (match cell_of hd k p with Some l => l | None => [] end ++ [v])%list
    else cell_of hd key pos.
Proof.
  unfold cell_of, append_value.
  destruct (keqb k key) eqn:Ek.
  - apply keqb_eq in Ek. subst key. rewrite dict_get_set_same.
    destruct (keqb p pos) eqn:Ep; cbn [andb].
    + apply keqb_eq in Ep. subst pos. rewrite dict_get_set_same.
      destruct (dict_get k hd); reflexivity.
    + rewrite dict_get_set_other.
      * destruct (dict_get k hd); reflexivity.
      * intros E. subst pos. rewrite keqb_refl in Ep. discriminate.
  - cbn [andb]. rewrite dict_get_set_other; [reflexivity|].
    intros E. subst key. rewrite keqb_refl in Ek. discriminate.
Qed.

(** After a series of contributions, a cell holds what it held, followed
    by the values contributed to it, in order. *)
Lemma cell_of_contributions (cs : list (agg_key * position * float)) :
  forall hd key pos,
    cell_of (fold_left add_contribution cs hd) key pos
    = match cell_of hd key pos, map snd (filter (selects key pos) cs) with
      | None, [] => None
      | None, new => Some new
      | Some l, new => Some (l ++ new)%list
      end.
Proof.
  induction cs as [|[[k p] v] cs IH]; intros hd key pos.
  - cbn. destruct (cell_of hd key pos); [now rewrite app_nil_r|reflexivity].
  - cbn [fold_left filter]. rewrite IH. unfold add_contribution. cbn [fst snd].
    rewrite cell_of_append_value.
    assert (Hsel : selects key pos (k, p, v) = keqb k key && keqb p pos) by reflexivity.
    rewrite Hsel. clear Hsel.
    destruct (keqb k key && keqb p pos) eqn:E.
    + apply andb_true_iff in E. destruct E as [Ek Ep].
      apply keqb_eq in Ek. apply keqb_eq in Ep. subst k p. cbn [map snd].
      destruct (cell_of hd key pos) as [l|].
      * now rewrite <- app_assoc.
      * reflexivity.
    + destruct (cell_of hd key pos); reflexivity.
Qed.

(** The loop over the data points, without normalization, is a fold of
    their contributions. *)
Lemma heatmap_loop_raw (entries : dict string position) (drugs : dict string string)
  (dps : list data_point) :
  forall hd w,
    for_each dps
      (fun r acc =>
         t <- unpack 8 r ;;
         match dict_get (dp_entry_id t) entries with
         | Some pos =>
             norm_factor <- norm_factor_of false [] None (dp_run_id t) ;;
             let drug_name :=
               match dict_get (dp_drug_id t) drugs with
               | Some n => n
               | None => "Unknown"
               end in
             let acc1 := append_value (dp_editor t, drug_name, "correct_edits") pos
                           (PrimFloat.mul (dp_correct t) norm_factor) acc in
             let acc2 := append_value (dp_editor t, drug_name, "incorrect_edits") pos
                           (PrimFloat.mul (dp_incorrect t) norm_factor) acc1 in
             let acc3 := append_value (dp_editor t, drug_name, "scaffold_incorporated") pos
                           (PrimFloat.mul (dp_scaffold t) norm_factor) acc2 in
             ret acc3
         | None => ret acc
         end) hd w
    = (Ok (fold_left add_contribution (flat_map (contributions entries drugs) dps) hd), w).
Proof.
  induction dps as [|t dps IH]; intros hd w; [reflexivity|].
  cbn [for_each flat_map]. rewrite fold_left_app. unfold bind at 1.
  unfold bind at 1. rewrite unpack_eight.
  unfold contributions at 2. unfold drug_name_of.
  destruct (dict_get (dp_entry_id t) entries) as [pos|]; cbn -[for_each]; apply IH.
Qed.

(** The values of one metric that fall on a key and a coordinate are those
    of the matching data points. *)
Lemma contributions_of_metric (entries : dict string position) (drugs : dict string string)
  (editor drug_name : string) (pos : position) (dps : list data_point) :
  let pts := matching_points entries drugs editor drug_name pos dps in
  let cs := flat_map (contributions entries drugs) dps in
  map snd (filter (selects (editor, drug_name, "correct_edits") pos) cs)
  = map (fun t => PrimFloat.mul (dp_correct t) 1%float) pts
  /\ map snd (filter (selects (editor, drug_name, "incorrect_edits") pos) cs)
     = map (fun t => PrimFloat.mul (dp_incorrect t) 1%float) pts
  /\ map snd (filter (selects (editor, drug_name, "scaffold_incorporated") pos) cs)
     = map (fun t => PrimFloat.mul (dp_scaffold t) 1%float) pts.
Proof.
  cbv zeta. unfold matching_points.
  induction dps as [|t dps (IH1 & IH2 & IH3)]; [repeat split|].
  cbn [flat_map filter]. rewrite !filter_app, !map_app, IH1, IH2, IH3.
  unfold contributions. unfold drug_name_of.
  destruct (dict_get (dp_entry_id t) entries) as [p|]; [|repeat split].
  unfold selects. cbn [filter fst snd keqb pair_EqKey string_EqKey Z_EqKey].
  destruct (Z.eqb (fst p) (fst pos) && Z.eqb (snd p) (snd pos)); cbn [andb];
    [|rewrite !andb_false_r; repeat split].
  destruct (String.eqb (dp_editor t) editor); cbn [andb]; [|repeat split].
  destruct (String.eqb match dict_get (dp_drug_id t) drugs with
                       | Some n => n
                       | None => "Unknown"
                       end drug_name); cbn; repeat split.
Qed.

Lemma dict_get_map_values {K A B : Type} `{EqKey K} (f : A -> B) (k : K) (d : dict K A) :
  dict_get k (map (fun kv => (fst kv, f (snd kv))) d) = option_map f (dict_get k d).
Proof.
  induction d as [|[k' v] d IH]; cbn; [reflexivity|].
  destruct (keqb k' k); [reflexivity|exact IH].
Qed.

(** Without normalization [get_experiment_data] returns, per key and
    coordinate, the mean of the collected values. *)
Lemma get_experiment_data_raw (q : query_results) (selected_runs : option (list string))
  (w : world) :
  get_experiment_data q selected_runs false w
  = match q_exp_details q with
    | Some (name, variant) =>
        (Ok (map (fun kv => (fst kv, map (fun pv => (fst pv, np_mean (snd pv))) (snd kv)))
               (fold_left add_contribution
                  (flat_map (contributions (dict_of_rows (q_entries q)) (drugs_of q))
                     (q_data_points q)) []),
             q_prime_editors q, drugs_of q, name,
             match variant with Some v => v | None => "" end,
             runs_of q selected_runs), w)
    | None => (Raise TypeError, w)
    end.
Proof.
  unfold get_experiment_data. unfold bind at 1. unfold ret at 1.
  unfold bind at 1. unfold ret at 1. unfold bind at 1.
  match goal with
  | |- context [for_each ?l ?body [] w] =>
      assert (E : for_each l body [] w
                  = (Ok (fold_left add_contribution
                           (flat_map (contributions (dict_of_rows (q_entries q)) (drugs_of q)) l)
                           []), w))
        by apply heatmap_loop_raw;
      rewrite E
  end.
  destruct (q_exp_details q) as [[name variant]|]; reflexivity.
Qed.

(* ================================================================== *)
(** ** Aggregation Index: axes and matrix *)
(* ================================================================== *)

Section SetFacts.
Context {A : Type} `{EqKeyLaws A}.

Lemma set_add_In (x y : A) (s : list A) : In y (set_add x s) <-> y = x \/ In y s.
Proof.
  unfold set_add. destruct (contains x s) eqn:E.
  - apply contains_In in E. intuition. now subst.
  - rewrite in_app_iff. cbn. intuition.
Qed.

Lemma set_add_NoDup (x : A) (s : list A) : NoDup s -> NoDup (set_add x s).
Proof.
  intros Hnd. unfold set_add. destruct (contains x s) eqn:E; [assumption|].
  assert (Hx : ~ In x s).
  { intros Hin. apply contains_In in Hin. congruence. }
  clear E. induction Hnd as [|y s Hy Hnd IH]; cbn.
  - constructor; [intros []|constructor].
  - constructor.
    + rewrite in_app_iff. cbn. intros [Hin|[->|[]]]; [contradiction|].
      apply Hx. now left.
    + apply IH. intros Hin. apply Hx. now right.
Qed.

Lemma set_of_spec (xs : list A) :
  NoDup (set_of xs) /\ forall y, In y (set_of xs) <-> In y xs.
Proof.
  unfold set_of.
  assert (G : forall s, NoDup s ->
                NoDup (fold_left (fun s x => set_add x s) xs s)
                /\ forall y, In y (fold_left (fun s x => set_add x s) xs s)
                             <-> In y s \/ In y xs).
  { induction xs as [|x xs IH]; intros s Hs; cbn [fold_left].
    - split; [assumption|]. intros y. cbn. tauto.
    - destruct (IH (set_add x s) (set_add_NoDup x s Hs)) as [Hnd Hin].
      split; [assumption|]. intros y. rewrite Hin, set_add_In. cbn. intuition. }
  destruct (G [] (NoDup_nil _)) as [Hnd Hin].
  split; [assumption|]. intros y. rewrite Hin. cbn. tauto.
Qed.

End SetFacts.

Lemma insert_sorted_In (x y : Z) (l : list Z) :
  In y (insert_sorted x l) <-> y = x \/ In y l.
Proof.
  induction l as [|z l IH]; cbn.
  - intuition.
  - destruct (x <=? z); cbn; [intuition|]. rewrite IH. intuition.
Qed.

Lemma insert_sorted_ascending (x : Z) (l : list Z) :
  StronglySorted Z.lt l -> ~ In x l -> StronglySorted Z.lt (insert_sorted x l).
Proof.
  induction l as [|z l IH]; intros Hs Hx; cbn.
  - constructor; constructor.
  - inversion Hs as [|? ? Hs' Hall]; subst.
    destruct (x <=? z) eqn:E.
    + apply Z.leb_le in E.
      assert (Hlt : x < z). { assert (x <> z) by (intros ->; apply Hx; now left). lia. }
      constructor; [assumption|]. constructor; [assumption|].
      rewrite Forall_forall in *. intros y Hy. specialize (Hall y Hy). lia.
    + apply Z.leb_gt in E. constructor.
      * apply IH; [assumption|]. intros Hin. apply Hx. now right.
      * rewrite Forall_forall in *. intros y Hy. apply insert_sorted_In in Hy.
        destruct Hy as [->|Hy]; [assumption|auto].
Qed.

(** [sorted(set(xs))]: ascending, without repetition, the values of [xs]. *)
Lemma sorted_set_spec (xs : list Z) :
  StronglySorted Z.lt (sorted (set_of xs))
  /\ forall y, In y (sorted (set_of xs)) <-> In y xs.
Proof.
  destruct (set_of_spec xs) as [Hnd Hin].
  assert (G : forall l, NoDup l ->
                StronglySorted Z.lt (sorted l) /\ forall y, In y (sorted l) <-> In y l).
  { induction l as [|x l IH]; intros Hl; cbn.
    - split; [constructor|tauto].
    - inversion Hl as [|? ? Hx Hl']; subst. destruct (IH Hl') as [Hs Hi].
      split.
      + apply insert_sorted_ascending; [assumption|]. now rewrite Hi.
      + intros y. rewrite insert_sorted_In, Hi. intuition. }
  destruct (G _ Hnd) as [Hs Hi]. split; [assumption|].
  intros y. now rewrite Hi, Hin.
Qed.

Lemma list_set_app {A : Type} (pre rest : list A) (x v : A) :
  list_set (pre ++ x :: rest)%list (List.length pre) v = (pre ++ v :: rest)%list.
Proof. induction pre as [|y pre IH]; cbn; [reflexivity|now rewrite IH]. Qed.

Lemma nth_error_app_mid {A : Type} (pre rest : list A) (x : A) :
  nth_error (pre ++ x :: rest)%list (List.length pre) = Some x.
Proof. induction pre as [|y pre IH]; cbn; [reflexivity|exact IH]. Qed.

Lemma matrix_set_app (above below : list (list float)) (pre rest : list float)
  (x v : float) :
  matrix_set (above ++ (pre ++ x :: rest) :: below)%list (List.length above)
    (List.length pre) v
  = (above ++ (pre ++ v :: rest) :: below)%list.
Proof.
  unfold matrix_set. rewrite nth_error_app_mid, list_set_app, list_set_app. reflexivity.
Qed.

(** The inner loop fills one line, left to right. *)
Lemma fill_line (cells : dict position float) (a : Z) (above below : list (list float))
  (rtts : list Z) :
  forall pre,
    fold_left
      (fun m (jr : nat * Z) =>
         match dict_get (a, snd jr) cells with
         | Some v => matrix_set m (List.length above) (fst jr) v
         | None => m
         end)
      (enumerate (List.length pre) rtts)
      (above ++ (pre ++ repeat PrimFloat.nan (List.length rtts)) :: below)%list
    = (above ++ (pre ++ map (cell_value cells a) rtts) :: below)%list.
Proof.
  induction rtts as [|b rtts IH]; intros pre; [reflexivity|].
  cbn [enumerate fold_left List.length repeat map fst snd].
  assert (Hstep : match dict_get (a, b) cells with
                  | Some v => matrix_set
                                (above ++ (pre ++ PrimFloat.nan
                                             :: repeat PrimFloat.nan (List.length rtts))
                                          :: below)%list
                                (List.length above) (List.length pre) v
                  | None => (above ++ (pre ++ PrimFloat.nan
                                         :: repeat PrimFloat.nan (List.length rtts))
                                      :: below)%list
                  end
                  = (above ++ ((pre ++ [cell_value cells a b])
                               ++ repeat PrimFloat.nan (List.length rtts)) :: below)%list).
  { unfold cell_value. rewrite <- app_assoc. cbn [app].
    destruct (dict_get (a, b) cells); [apply matrix_set_app|reflexivity]. }
  rewrite Hstep.
  replace (S (List.length pre)) with (List.length (pre ++ [cell_value cells a b])%list)
    by (rewrite length_app; cbn; lia).
  rewrite IH, <- app_assoc. reflexivity.
Qed.

(** The outer loop fills the matrix, top to bottom. *)
Lemma fill_matrix (cells : dict position float) (rtts : list Z) (pbss : list Z) :
  forall above,
    fold_left
      (fun m (ip : nat * Z) =>
         fold_left
           (fun m (jr : nat * Z) =>
              match dict_get (snd ip, snd jr) cells with
              | Some v => matrix_set m (fst ip) (fst jr) v
              | None => m
              end)
           (enumerate 0 rtts) m)
      (enumerate (List.length above) pbss)
      (above ++ repeat (repeat PrimFloat.nan (List.length rtts)) (List.length pbss))%list
    = (above ++ map (fun a => map (cell_value cells a) rtts) pbss)%list.
Proof.
  induction pbss as [|a pbss IH]; intros above; [reflexivity|].
  cbn [enumerate fold_left List.length repeat map fst snd].
  rewrite (fill_line cells a above _ rtts []). cbn [app].
  replace (S (List.length above))
    with (List.length (above ++ [map (cell_value cells a) rtts])%list)
    by (rewrite length_app; cbn; lia).
  replace (above ++ map (cell_value cells a) rtts
                 :: repeat (repeat PrimFloat.nan (List.length rtts)) (List.length pbss))%list
    with ((above ++ [map (cell_value cells a) rtts])
          ++ repeat (repeat PrimFloat.nan (List.length rtts)) (List.length pbss))%list
    by (now rewrite <- app_assoc).
  rewrite IH, <- app_assoc. reflexivity.
Qed.

(** The matrix of a key: one line per PBS value, one column per RTT value,
    each cell the mean stored for the pair or the no-data marker. *)
Lemma build_matrix_spec (cells : dict position float) :
  build_matrix cells
  = (sorted (set_of (map fst (dict_keys cells))),
     sorted (set_of (map snd (dict_keys cells))),
     map (fun a => map (cell_value cells a) (sorted (set_of (map snd (dict_keys cells)))))
       (sorted (set_of (map fst (dict_keys cells))))).
Proof.
  unfold build_matrix, np_full. f_equal.
  exact (fill_matrix cells _ _ []).
Qed.

Lemma matrix_get_map (cells : dict position float) (pbss rtts : list Z) (i j : nat) (a b : Z) :
  nth_error pbss i = Some a -> nth_error rtts j = Some b ->
  matrix_get (map (fun a => map (cell_value cells a) rtts) pbss) i j
  = Some (cell_value cells a b).
Proof.
  intros Hi Hj. unfold matrix_get.
  rewrite nth_error_map, Hi. cbn. rewrite nth_error_map, Hj. reflexivity.
Qed.

Lemma In_map_fst {A B : Type} (a : A) (l : list (A * B)) :
  In a (map fst l) <-> exists b, In (a, b) l.
Proof.
  rewrite in_map_iff. split.
  - intros ([a' b] & E & Hin). cbn in E. subst a'. now exists b.
  - intros (b & Hin). now exists (a, b).
Qed.

Lemma In_map_snd {A B : Type} (b : B) (l : list (A * B)) :
  In b (map snd l) <-> exists a, In (a, b) l.
Proof.
  rewrite in_map_iff. split.
  - intros ([a b'] & E & Hin). cbn in E. subst b'. now exists a.
  - intros (a & Hin). now exists (a, b).
Qed.

(** A loop keeps what each of its rounds keeps. *)
Lemma for_each_invariant {A S : Type} (I : S -> Prop) (body : A -> S -> M S) (xs : list A) :
  (forall x s w s' w', I s -> body x s w = (Ok s', w') -> I s') ->
  forall s w s' w', I s -> for_each xs body s w = (Ok s', w') -> I s'.
Proof.
  intros Hbody. induction xs as [|x xs IH]; intros s w s' w' Hs Hrun.
  - cbn in Hrun. inversion Hrun. now subst.
  - cbn [for_each] in Hrun. unfold bind in Hrun.
    destruct (body x s w) as [[s1|e] w1] eqn:Hx; [|discriminate].
    eapply IH; [|exact Hrun]. eapply Hbody; eassumption.
Qed.

(** A sequence that returns has run both of its parts. *)
Lemma bind_ok {A B : Type} (m : M A) (k : A -> M B) (w : world) (b : B) (w' : world) :
  bind m k w = (Ok b, w') -> exists a w0, m w = (Ok a, w0) /\ k a w0 = (Ok b, w').
Proof.
  unfold bind. destruct (m w) as [[a|e] w0]; [|discriminate].
  intros E. now exists a, w0.
Qed.

(** Every figure [create_heatmaps] saves shows the matrix of its key. *)
Lemma create_heatmaps_matrices (data : averaged) (prime_editors : list string)
  (drugs : dict string string) (exp_name exp_variant : string) (normalize : bool)
  (run_info : string) (w : world) figures w' :
  create_heatmaps data prime_editors drugs exp_name exp_variant normalize run_info w
  = (Ok figures, w') ->
  forall figure, In figure figures ->
    exists cells,
      dict_get (hm_key figure) data = Some cells
      /\ build_matrix cells = (hm_pbs_values figure, hm_rtt_values figure, hm_matrix figure).
Proof.
  unfold create_heatmaps. intros Hrun.
  apply bind_ok in Hrun. destruct Hrun as (u & wd & _ & Hrun).
  set (I := fun figures : list heatmap =>
              forall figure, In figure figures ->
                exists cells,
                  dict_get (hm_key figure) data = Some cells
                  /\ build_matrix cells
                     = (hm_pbs_values figure, hm_rtt_values figure, hm_matrix figure)).
  change (I figures).
  refine (for_each_invariant I _ prime_editors _ [] wd figures w' _ Hrun).
  2:{ intros figure []. }
  intros editor acc0 w0 acc1 w1 H0.
  refine (for_each_invariant I _ (dict_values drugs) _ acc0 w0 acc1 w1 H0).
  intros drug_name acc2 w2 acc3 w3 H2.
  refine (for_each_invariant I _ metrics _ acc2 w2 acc3 w3 H2).
  intros metric acc4 w4 acc5 w5 H4 Hstep.
  destruct (dict_get (editor, drug_name, metric) data) as [[|c cells]|] eqn:Hget;
    try (unfold bind in Hstep; rewrite print_printed in Hstep; cbn in Hstep;
         inversion Hstep; now subst).
  destruct (build_matrix (c :: cells)) as [[pbs_values rtt_values] matrix] eqn:Hm.
  apply bind_ok in Hstep. destruct Hstep as (u' & ws & _ & Hstep).
  unfold bind in Hstep. rewrite print_printed in Hstep. cbn in Hstep.
  inversion Hstep; subst acc5 w5.
  intros figure Hin. apply in_app_iff in Hin. destruct Hin as [Hin|[<-|[]]]; [now apply H4|].
  exists (c :: cells). cbn. split; [exact Hget|exact Hm].
Qed.

Lemma cell_of_means (hd : dict agg_key (dict position (list float))) (key : agg_key)
  (pos : position) :
  cell_of (map (fun kv => (fst kv, map (fun pv => (fst pv, np_mean (snd pv))) (snd kv))) hd)
    key pos
  = option_map np_mean (cell_of hd key pos).
Proof.
  unfold cell_of.
  pose proof (dict_get_map_values
                (fun cells : dict position (list float) =>
                   map (fun pv => (fst pv, np_mean (snd pv))) cells) key hd) as E.
  match goal with
  | |- context [dict_get key (map ?F hd)] =>
      replace (dict_get key (map F hd))
        with (option_map
                (fun cells : dict position (list float) =>
                   map (fun pv => (fst pv, np_mean (snd pv))) cells) (dict_get key hd))
        by (symmetry; exact E)
  end.
  destruct (dict_get key hd) as [cells|]; cbn [option_map]; [|reflexivity].
  apply (dict_get_map_values np_mean).
Qed.

Lemma mean_of_collected (cs : list (agg_key * position * float)) (key : agg_key)
  (pos : position) {A : Type} (f : A -> float) (pts : list A) :
  map snd (filter (selects key pos) cs) = map f pts ->
  option_map np_mean (cell_of (fold_left add_contribution cs []) key pos)
  = match pts with
    | [] => None
    | _ => Some (np_mean (map f pts))
    end.
Proof.
  intros E. rewrite cell_of_contributions, E.
  change (cell_of [] key pos) with (@None (list float)).
  destruct pts; reflexivity.
Qed.

(** The axes are ascending and hold the coordinates of the key; a cell is
    the mean of its coordinate or the no-data marker. *)
Lemma build_matrix_facts (cells : dict position float) pbs_values rtt_values matrix :
  build_matrix cells = (pbs_values, rtt_values, matrix) ->
  StronglySorted Z.lt pbs_values
  /\ (forall a, In a pbs_values <-> exists b, In (a, b) (dict_keys cells))
  /\ StronglySorted Z.lt rtt_values
  /\ (forall b, In b rtt_values <-> exists a, In (a, b) (dict_keys cells))
  /\ (forall i j a b,
        nth_error pbs_values i = Some a ->
        nth_error rtt_values j = Some b ->
        matrix_get matrix i j
        = Some (match dict_get (a, b) cells with
                | Some mean => mean
                | None => PrimFloat.nan
                end))
  /\ List.length matrix = List.length pbs_values
  /\ (forall line, In line matrix -> List.length line = List.length rtt_values).
Proof.
  rewrite build_matrix_spec. intros E. inversion E; subst. clear E.
  destruct (sorted_set_spec (map fst (dict_keys cells))) as [Hsp Hip].
  destruct (sorted_set_spec (map snd (dict_keys cells))) as [Hsr Hir].
  split; [exact Hsp|].
  split; [intros a; rewrite Hip; apply In_map_fst|].
  split; [exact Hsr|].
  split; [intros b; rewrite Hir; apply In_map_snd|].
  split; [intros i j a b Hi Hj; now apply matrix_get_map|].
  split; [apply length_map|].
  intros line Hline. apply in_map_iff in Hline. destruct Hline as (a & <- & _).
  apply length_map.
Qed.




(* ================================================================== *)
(** ** The matcher: what the groups of a match hold *)
(* ================================================================== *)

Lemma run_matches (p : pattern) :
  forall s opened caps r, run p s opened caps = Some r -> matches p s opened caps r.
Proof.
  induction p as [|n p IH]; intros s opened caps r H.
  - cbn in H. inversion H. constructor.
  - destruct n; cbn [run] in H.
    + destruct (Str.strip_prefix s0 s) as [s1|] eqn:Hp; [|discriminate].
      apply strip_prefix_app in Hp. subst s. constructor. now apply IH.
    + destruct s as [|c s]; [discriminate|].
      destruct (atom_matches a c) eqn:Hc; [|discriminate].
      constructor; [assumption|now apply IH].
    + apply many1_inv in H. destruct H as (pre & s' & -> & Hne & Hall & Hk).
      constructor; [assumption|assumption|now apply IH].
    + constructor. now apply IH.
    + destruct opened as [|st opened]; [discriminate|]. constructor. now apply IH.
    + destruct (at_eol s) eqn:He; [|discriminate]. constructor; [assumption|now apply IH].
Qed.

Lemma string_length_app (a b : string) :
  String.length (a ++ b) = (String.length a + String.length b)%nat.
Proof. induction a as [|c a IH]; cbn; [reflexivity|now rewrite IH]. Qed.

Lemma substring_prefix (a b : string) : substring 0 (String.length a) (a ++ b) = a.
Proof.
  induction a as [|c a IH]; cbn.
  - destruct b; reflexivity.
  - now rewrite IH.
Qed.

(** A group that opened at [x ++ s] and closes at [s] holds [x]. *)
Lemma consumed_app (x s : string) : consumed (x ++ s) s = x.
Proof.
  unfold consumed. rewrite string_length_app.
  replace (String.length x + String.length s - String.length s)%nat
    with (String.length x) by lia.
  apply substring_prefix.
Qed.

(* ================================================================== *)
(** ** [int] on what the groups hold *)
(* ================================================================== *)

Lemma rev_onto_rev_onto (s a b : string) :
  Str.rev_onto (Str.rev_onto s a) b = Str.rev_onto a (s ++ b).
Proof.
  revert a. induction s as [|c s IH]; intros a; cbn; [reflexivity|].
  rewrite IH. reflexivity.
Qed.

Lemma rev_rev (s : string) : Str.rev (Str.rev s) = s.
Proof.
  unfold Str.rev. rewrite rev_onto_rev_onto. cbn.
  induction s as [|c s IH]; cbn; [reflexivity|now rewrite IH].
Qed.

Lemma forallb_rev_onto (p : ascii -> bool) (s a : string) :
  Str.forallb p (Str.rev_onto s a) = Str.forallb p s && Str.forallb p a.
Proof.
  revert a. induction s as [|c s IH]; intros a; cbn; [reflexivity|].
  rewrite IH. cbn. destruct (p c), (Str.forallb p s); reflexivity.
Qed.

Lemma lstrip_no_space (s : string) :
  Str.forallb (fun c => negb (Str.is_space c)) s = true -> Str.lstrip s = s.
Proof.
  destruct s as [|c s]; cbn; [reflexivity|].
  destruct (Str.is_space c); [discriminate|reflexivity].
Qed.

Lemma strip_no_space (s : string) :
  Str.forallb (fun c => negb (Str.is_space c)) s = true -> Str.strip s = s.
Proof.
  intros H. unfold Str.strip. rewrite (lstrip_no_space s H).
  rewrite lstrip_no_space; [apply rev_rev|].
  unfold Str.rev. rewrite forallb_rev_onto, H. reflexivity.
Qed.

Lemma forallb_impl (p q : ascii -> bool) (s : string) :
  (forall c, p c = true -> q c = true) ->
  Str.forallb p s = true -> Str.forallb q s = true.
Proof.
  intros Hpq. induction s as [|c s IH]; cbn; [reflexivity|].
  intros H. apply andb_true_iff in H. destruct H as [Hc Hs].
  now rewrite (Hpq c Hc), IH.
Qed.

Ltac by_bits c :=
  let b0 := fresh "b" in let b1 := fresh "b" in let b2 := fresh "b" in
  let b3 := fresh "b" in let b4 := fresh "b" in let b5 := fresh "b" in
  let b6 := fresh "b" in let b7 := fresh "b" in
  destruct c as [b0 b1 b2 b3 b4 b5 b6 b7];
  destruct b0, b1, b2, b3, b4, b5, b6, b7; try discriminate; try reflexivity.

Lemma word_not_space (c : ascii) :
  atom_matches word c = true -> negb (Str.is_space c) = true.
Proof. by_bits c. Qed.

Lemma digit_is_word (c : ascii) : atom_matches digit c = true -> atom_matches word c = true.
Proof. by_bits c. Qed.

Lemma letter_is_word (c : ascii) : atom_matches letters c = true -> atom_matches word c = true.
Proof. by_bits c. Qed.

Lemma digit_value_range (c : ascii) :
  atom_matches digit c = true -> Str.is_digit c = true /\ 0 <= Str.digit_value c <= 9.
Proof. by_bits c; (split; [reflexivity|vm_compute; split; discriminate]). Qed.

Lemma digits_value_digits (s : string) :
  forall acc prev,
    Str.forallb (atom_matches digit) s = true ->
    (s <> "" \/ prev = true) -> 0 <= acc ->
    exists n, Str.digits_value s acc prev = Some n /\ 0 <= n.
Proof.
  induction s as [|c s IH]; intros acc prev Hall Hne Hacc.
  - destruct Hne as [Hne | ->]; [congruence|]. exists acc. split; [reflexivity|assumption].
  - cbn [Str.forallb] in Hall. apply andb_true_iff in Hall. destruct Hall as [Hc Hs].
    destruct (digit_value_range c Hc) as [Hd Hv].
    cbn [Str.digits_value]. rewrite Hd.
    apply IH; [assumption|now right|lia].
Qed.

Lemma int_head (c : ascii) (s : string) :
  atom_matches word c = true ->
  match String c s with
  | String "-" r => option_map Z.opp (Str.digits_value r 0 false)
  | String "+" r => Str.digits_value r 0 false
  | _ => Str.digits_value (String c s) 0 false
  end = Str.digits_value (String c s) 0 false.
Proof. by_bits c. Qed.

Lemma count_digits_run (d : string) :
  Str.forallb (atom_matches digit) d = true -> Str.count_digits d = String.length d.
Proof.
  induction d as [|c d IH]; cbn [Str.forallb Str.count_digits String.length]; [reflexivity|].
  intros H. apply andb_true_iff in H. destruct H as [Hc Hd].
  destruct (digit_value_range c Hc) as [-> _]. now rewrite (IH Hd).
Qed.

(** [int] of a run of digits: the number written, unless the run is longer
    than [int] accepts. *)
Lemma int_of_run (d : string) :
  run_of digit d ->
  exists n, 0 <= n
    /\ Str.int d = if (Str.max_str_digits <? String.length d)%nat then Raise ValueError else Ok n.
Proof.
  intros [Hne Hall]. unfold Str.int.
  rewrite strip_no_space.
  2:{ apply forallb_impl with (atom_matches digit); [|assumption].
      intros c Hc. now apply word_not_space, digit_is_word. }
  rewrite (count_digits_run d Hall).
  destruct d as [|c d]; [congruence|].
  assert (Hc : atom_matches word c = true).
  { cbn [Str.forallb] in Hall. apply andb_true_iff in Hall. now apply digit_is_word. }
  cbv zeta. rewrite (int_head c d Hc).
  destruct (digits_value_digits (String c d) 0 false Hall) as (n & Hn & Hpos);
    [left; discriminate|lia|].
  rewrite Hn. now exists n.
Qed.

(** [int] of a run of at most [max_str_digits] digits is a natural number. *)
Lemma int_of_digits (d : string) :
  run_of digit d -> (String.length d <= Str.max_str_digits)%nat ->
  exists n, Str.int d = Ok n /\ 0 <= n.
Proof.
  intros Hd Hlen. destruct (int_of_run d Hd) as (n & Hn & E).
  exists n. split; [|exact Hn]. rewrite E.
  destruct (Nat.ltb_spec Str.max_str_digits (String.length d)); [lia|reflexivity].
Qed.

(** [int] of a longer run of digits raises [ValueError]. *)
Lemma int_too_long (d : string) :
  run_of digit d -> (Str.max_str_digits < String.length d)%nat ->
  Str.int d = Raise ValueError.
Proof.
  intros Hd Hlen. destruct (int_of_run d Hd) as (n & Hn & E). rewrite E.
  destruct (Nat.ltb_spec Str.max_str_digits (String.length d)); [reflexivity|lia].
Qed.

(** [int] of a run of letters raises [ValueError]. *)
Lemma int_of_letters (l : string) : run_of letters l -> Str.int l = Raise ValueError.
Proof.
  intros [Hne Hall]. unfold Str.int.
  rewrite strip_no_space.
  2:{ apply forallb_impl with (atom_matches letters); [|assumption].
      intros c Hc. now apply word_not_space, letter_is_word. }
  destruct l as [|c l]; [congruence|].
  cbn [Str.forallb] in Hall. apply andb_true_iff in Hall. destruct Hall as [Hc _].
  cbv zeta. rewrite (int_head c l (letter_is_word c Hc)).
  cbn [Str.digits_value].
  assert (Hd : Str.is_digit c = false) by (revert Hc; by_bits c).
  assert (Hu : Str.is_underscore c && false = false) by apply andb_false_r.
  rewrite Hd, Hu. reflexivity.
Qed.

(* ================================================================== *)
(** ** The six patterns: what a match says about the name *)
(* ================================================================== *)

Ltac invert_matches :=
  repeat match goal with
         | H : matches (_ :: _) _ _ _ _ |- _ => inversion H; subst; clear H
         | H : matches [] _ _ _ _ |- _ => inversion H; subst; clear H
         end.

Lemma consumed_PE (t s : string) : consumed (String "P" (String "E" (t ++ s))) s = "PE" ++ t.
Proof. exact (consumed_app ("PE" ++ t) s). Qed.

Ltac groups_done :=
  rewrite ?consumed_PE, ?consumed_app; unfold run_of; repeat split; assumption.

Lemma pattern1_match (name : string) (m : list string) :
  re_match pattern1 name = Some m ->
  exists l t d1 d2 c d3 tail,
    name = l ++ ("PE" ++ t) ++ "_P" ++ d1 ++ "_R" ++ d2 ++ "_" ++ String c "ep" ++ d3 ++ tail
    /\ run_of letters l /\ run_of word t /\ run_of digit d1 /\ run_of digit d2
    /\ atom_matches rep_initial c = true /\ run_of digit d3
    /\ m = ["PE" ++ t; d1; d2; d3].
Proof.
  intros H. apply run_matches in H. unfold pattern1 in H. invert_matches.
  do 7 eexists. split; [reflexivity|]. groups_done.
Qed.

Lemma pattern2_match (name : string) (m : list string) :
  re_match pattern2 name = Some m ->
  exists l t d1 d2 c d3 tail,
    name = l ++ ("PE" ++ t) ++ "_R" ++ d1 ++ "_P" ++ d2 ++ "_" ++ String c "ep" ++ d3 ++ tail
    /\ run_of letters l /\ run_of word t /\ run_of digit d1 /\ run_of digit d2
    /\ atom_matches rep_initial c = true /\ run_of digit d3
    /\ m = ["PE" ++ t; d1; d2; d3].
Proof.
  intros H. apply run_matches in H. unfold pattern2 in H. invert_matches.
  do 7 eexists. split; [reflexivity|]. groups_done.
Qed.

Lemma pattern3_match (name : string) (m : list string) :
  re_match pattern3 name = Some m ->
  exists l d1 d2 c d3 tail,
    name = l ++ "_P" ++ d1 ++ "_R" ++ d2 ++ "_" ++ String c "ep" ++ d3 ++ tail
    /\ run_of letters l /\ run_of digit d1 /\ run_of digit d2
    /\ atom_matches rep_initial c = true /\ run_of digit d3
    /\ m = [d1; d2; d3].
Proof.
  intros H. apply run_matches in H. unfold pattern3 in H. invert_matches.
  do 6 eexists. split; [reflexivity|]. groups_done.
Qed.

Lemma pattern4_match (name : string) (m : list string) :
  re_match pattern4 name = Some m ->
  exists l d1 d2 c d3 tail,
    name = l ++ "_R" ++ d1 ++ "_P" ++ d2 ++ "_" ++ String c "ep" ++ d3 ++ tail
    /\ run_of letters l /\ run_of digit d1 /\ run_of digit d2
    /\ atom_matches rep_initial c = true /\ run_of digit d3
    /\ m = [d1; d2; d3].
Proof.
  intros H. apply run_matches in H. unfold pattern4 in H. invert_matches.
  do 6 eexists. split; [reflexivity|]. groups_done.
Qed.

Lemma pattern_drug_match (name : string) (m : list string) :
  re_match pattern_drug name = Some m ->
  exists l t d1 d2 code tail,
    name = l ++ ("PE" ++ t) ++ "_P" ++ d1 ++ "R" ++ d2 ++ "_" ++ code ++ tail
    /\ run_of letters_us l /\ run_of word t /\ run_of digit d1 /\ run_of digit d2
    /\ run_of letters code /\ at_eol tail = true
    /\ m = ["PE" ++ t; d1; d2; code].
Proof.
  intros H. apply run_matches in H. unfold pattern_drug in H. invert_matches.
  do 6 eexists. split; [reflexivity|]. groups_done.
Qed.

Lemma pattern_drug_rep_match (name : string) (m : list string) :
  re_match pattern_drug_rep name = Some m ->
  exists l t d1 d2 code c d3 tail,
    name = l ++ ("PE" ++ t) ++ "_P" ++ d1 ++ "R" ++ d2 ++ "_" ++ code
             ++ "_" ++ String c "ep" ++ d3 ++ tail
    /\ run_of letters_us l /\ run_of word t /\ run_of digit d1 /\ run_of digit d2
    /\ run_of letters code /\ atom_matches rep_initial c = true /\ run_of digit d3
    /\ m = ["PE" ++ t; d1; d2; code; d3].
Proof.
  intros H. apply run_matches in H. unfold pattern_drug_rep in H. invert_matches.
  do 8 eexists. split; [reflexivity|]. groups_done.
Qed.

(* ================================================================== *)
(** ** [extract_batch_info], branch by branch *)
(* ================================================================== *)

Ltac read_groups :=
  unfold str_group, int_group, group, lift, bind, rbind, ret;
  cbn [nth_error Nat.sub];
  repeat match goal with
         | H : Str.int ?d = _ |- context [Str.int ?d] => rewrite H
         end.

Ltac read_numbers :=
  read_groups; unfold too_long;
  repeat match goal with
         | |- context [(Str.max_str_digits <? String.length ?d)%nat] =>
             destruct (Str.max_str_digits <? String.length d)%nat
         end;
  reflexivity.

Lemma extract_with_editor (name : string) (w : world) (e d1 d2 d3 : string) :
  run_of digit d1 -> run_of digit d2 -> run_of digit d3 ->
  exists p r rep,
    0 <= p /\ 0 <= r /\ 0 <= rep
    /\ (too_long d1 = false -> Str.int d1 = Ok p)
    /\ (too_long d2 = false -> Str.int d2 = Ok r)
    /\ (too_long d3 = false -> Str.int d3 = Ok rep)
    /\ (re_match pattern1 name = Some [e; d1; d2; d3] ->
        extract_batch_info name w
        = if too_long d1 || too_long d2 || too_long d3 then (Raise ValueError, w)
          else (Ok (Some e, Some p, Some r, Some rep, None), w))
    /\ (re_match pattern1 name = None ->
        re_match pattern2 name = Some [e; d1; d2; d3] ->
        extract_batch_info name w
        = if too_long d1 || too_long d2 || too_long d3 then (Raise ValueError, w)
          else (Ok (Some e, Some r, Some p, Some rep, None), w)).
Proof.
  intros H1 H2 H3.
  destruct (int_of_run d1 H1) as (p & Hp0 & Hp).
  destruct (int_of_run d2 H2) as (r & Hr0 & Hr).
  destruct (int_of_run d3 H3) as (rep & Hrep0 & Hrep).
  exists p, r, rep.
  split; [exact Hp0|]. split; [exact Hr0|]. split; [exact Hrep0|].
  split; [unfold too_long; intros E; now rewrite E in Hp|].
  split; [unfold too_long; intros E; now rewrite E in Hr|].
  split; [unfold too_long; intros E; now rewrite E in Hrep|].
  split.
  - intros Hm. unfold extract_batch_info. rewrite Hm. read_numbers.
  - intros Hn Hm. unfold extract_batch_info. rewrite Hn, Hm. read_numbers.
Qed.

Lemma extract_without_editor (name : string) (w : world) (d1 d2 d3 : string) :
  run_of digit d1 -> run_of digit d2 -> run_of digit d3 ->
  re_match pattern1 name = None -> re_match pattern2 name = None ->
  exists p r rep,
    0 <= p /\ 0 <= r /\ 0 <= rep
    /\ (too_long d1 = false -> Str.int d1 = Ok p)
    /\ (too_long d2 = false -> Str.int d2 = Ok r)
    /\ (too_long d3 = false -> Str.int d3 = Ok rep)
    /\ (re_match pattern3 name = Some [d1; d2; d3] ->
        extract_batch_info name w
        = if too_long d1 || too_long d2 || too_long d3 then (Raise ValueError, w)
          else (Ok (None, Some p, Some r, Some rep, None), w))
    /\ (re_match pattern3 name = None ->
        re_match pattern4 name = Some [d1; d2; d3] ->
        extract_batch_info name w
        = if too_long d1 || too_long d2 || too_long d3 then (Raise ValueError, w)
          else (Ok (None, Some r, Some p, Some rep, None), w)).
Proof.
  intros H1 H2 H3 Hn1 Hn2.
  destruct (int_of_run d1 H1) as (p & Hp0 & Hp).
  destruct (int_of_run d2 H2) as (r & Hr0 & Hr).
  destruct (int_of_run d3 H3) as (rep & Hrep0 & Hrep).
  exists p, r, rep.
  split; [exact Hp0|]. split; [exact Hr0|]. split; [exact Hrep0|].
  split; [unfold too_long; intros E; now rewrite E in Hp|].
  split; [unfold too_long; intros E; now rewrite E in Hr|].
  split; [unfold too_long; intros E; now rewrite E in Hrep|].
  split.
  - intros Hm. unfold extract_batch_info. rewrite Hn1, Hn2, Hm. read_numbers.
  - intros Hn Hm. unfold extract_batch_info. rewrite Hn1, Hn2, Hn, Hm. read_numbers.
Qed.

Lemma extract_with_drug (name : string) (w : world) (e d1 d2 code : string) :
  run_of digit d1 -> run_of digit d2 ->
  re_match pattern1 name = None -> re_match pattern2 name = None ->
  re_match pattern3 name = None -> re_match pattern4 name = None ->
  re_match pattern_drug_rep name = None ->
  re_match pattern_drug name = Some [e; d1; d2; code] ->
  exists p r,
    0 <= p /\ 0 <= r
    /\ (too_long d1 = false -> Str.int d1 = Ok p)
    /\ (too_long d2 = false -> Str.int d2 = Ok r)
    /\ extract_batch_info name w
       = if too_long d1 || too_long d2 then (Raise ValueError, w)
         else (Ok (Some e, Some p, Some r, Some 1, Some code), w).
Proof.
  intros H1 H2 Hn1 Hn2 Hn3 Hn4 Hn5 Hm.
  destruct (int_of_run d1 H1) as (p & Hp0 & Hp).
  destruct (int_of_run d2 H2) as (r & Hr0 & Hr).
  exists p, r.
  split; [exact Hp0|]. split; [exact Hr0|].
  split; [unfold too_long; intros E; now rewrite E in Hp|].
  split; [unfold too_long; intros E; now rewrite E in Hr|].
  unfold extract_batch_info. rewrite Hn1, Hn2, Hn3, Hn4, Hn5, Hm. read_numbers.
Qed.

(** A name that only the pattern with treatment and replicate matches:
    the replicate is read from the group of letters. *)
Lemma extract_with_drug_rep (name : string) (w : world) (m : list string) :
  re_match pattern1 name = None -> re_match pattern2 name = None ->
  re_match pattern3 name = None -> re_match pattern4 name = None ->
  re_match pattern_drug_rep name = Some m ->
  extract_batch_info name w = (Raise ValueError, w).
Proof.
  intros Hn1 Hn2 Hn3 Hn4 Hm.
  destruct (pattern_drug_rep_match name m Hm)
    as (l & t & d1 & d2 & code & c & d3 & tail & _ & _ & _ & H1 & H2 & Hcode & _ & _ & ->).
  destruct (int_of_run d1 H1) as (p & _ & Hp).
  destruct (int_of_run d2 H2) as (r & _ & Hr).
  pose proof (int_of_letters code Hcode) as Hraise.
  unfold extract_batch_info. rewrite Hn1, Hn2, Hn3, Hn4, Hm. read_numbers.
Qed.

(** One of three numbers is too long: it is written in the name. *)
Lemma long_number_occurs (name d1 d2 d3 : string) :
  run_of digit d1 -> run_of digit d2 -> run_of digit d3 ->
  occurs d1 name -> occurs d2 name -> occurs d3 name ->
  too_long d1 || too_long d2 || too_long d3 = true ->
  exists d, run_of digit d /\ too_long d = true /\ occurs d name.
Proof.
  intros H1 H2 H3 O1 O2 O3 H.
  destruct (too_long d1) eqn:E1; [now exists d1|].
  destruct (too_long d2) eqn:E2; [now exists d2|].
  destruct (too_long d3) eqn:E3; [now exists d3|discriminate].
Qed.

Ltac occurs_here before after :=
  exists before, after;
  repeat (progress (rewrite ?string_app_assoc; cbn [append]));
  reflexivity.

Lemma occurs_after_marker (marker d name : string) :
  occurs (marker ++ d) name -> occurs d name.
Proof.
  intros (before & after & ->). exists (before ++ marker), after.
  now rewrite !string_app_assoc.
Qed.

Lemma no_long_number (d1 d2 d3 : string) :
  too_long d1 || too_long d2 || too_long d3 = false ->
  too_long d1 = false /\ too_long d2 = false /\ too_long d3 = false.
Proof. destruct (too_long d1), (too_long d2), (too_long d3); intros H; now try discriminate. Qed.

(** Every way [extract_batch_info] can end. *)
Lemma extract_cases (name : string) (w : world) :
  (exists e p r rep,
      extract_batch_info name w = (Ok (Some e, Some p, Some r, Some rep, None), w)
      /\ editor_shaped e /\ occurs e name
      /\ 0 <= p /\ 0 <= r /\ 0 <= rep
      /\ written_after "_P" p name /\ written_after "_R" r name
      /\ written_after "ep" rep name)
  \/ (exists p r rep,
        extract_batch_info name w = (Ok (None, Some p, Some r, Some rep, None), w)
        /\ 0 <= p /\ 0 <= r /\ 0 <= rep
        /\ written_after "_P" p name /\ written_after "_R" r name
        /\ written_after "ep" rep name)
  \/ (exists e p r code,
        extract_batch_info name w = (Ok (Some e, Some p, Some r, Some 1, Some code), w)
        /\ editor_shaped e /\ occurs e name
        /\ 0 <= p /\ 0 <= r
        /\ written_after "_P" p name /\ written_after "R" r name
        /\ run_of letters code /\ occurs ("_" ++ code) name
        /\ re_match pattern1 name = None /\ re_match pattern2 name = None
        /\ re_match pattern3 name = None /\ re_match pattern4 name = None)
  \/ (extract_batch_info name w = (Raise ValueError, w)
      /\ re_match pattern1 name = None /\ re_match pattern2 name = None
      /\ re_match pattern3 name = None /\ re_match pattern4 name = None
      /\ re_match pattern_drug_rep name <> None)
  \/ (extract_batch_info name w
      = (Ok no_info, printed w ["Warning: Could not parse batch name: " ++ name])
      /\ re_match pattern1 name = None /\ re_match pattern2 name = None
      /\ re_match pattern3 name = None /\ re_match pattern4 name = None
      /\ re_match pattern_drug_rep name = None /\ re_match pattern_drug name = None)
  \/ (extract_batch_info name w = (Raise ValueError, w)
      /\ exists d, run_of digit d /\ too_long d = true /\ occurs d name).
Proof.
  destruct (re_match pattern1 name) as [m1|] eqn:H1.
  { destruct (pattern1_match name m1 H1)
      as (l & t & d1 & d2 & c & d3 & tail & Hname & Hl & Ht & Hd1 & Hd2 & Hc & Hd3 & ->).
    assert (O1 : occurs ("_P" ++ d1) name).
    { subst name.
      occurs_here (l ++ "PE" ++ t) ("_R" ++ d2 ++ "_" ++ String c "ep" ++ d3 ++ tail). }
    assert (O2 : occurs ("_R" ++ d2) name).
    { subst name.
      occurs_here (l ++ ("PE" ++ t) ++ "_P" ++ d1) ("_" ++ String c "ep" ++ d3 ++ tail). }
    assert (O3 : occurs ("ep" ++ d3) name).
    { subst name.
      occurs_here (l ++ ("PE" ++ t) ++ "_P" ++ d1 ++ "_R" ++ d2 ++ "_" ++ String c "") tail. }
    destruct (extract_with_editor name w ("PE" ++ t) d1 d2 d3 Hd1 Hd2 Hd3)
      as (p & r & rep & Hp0 & Hr0 & Hrep0 & Hp & Hr & Hrep & Hrun & _).
    specialize (Hrun H1).
    destruct (too_long d1 || too_long d2 || too_long d3) eqn:Hlong.
    { do 5 right. split; [exact Hrun|].
      apply (long_number_occurs name d1 d2 d3); try assumption;
        eapply occurs_after_marker; eassumption. }
    apply no_long_number in Hlong. destruct Hlong as (L1 & L2 & L3).
    left. exists ("PE" ++ t), p, r, rep. split; [exact Hrun|].
    split; [now exists t|].
    split; [subst name; occurs_here l ("_P" ++ d1 ++ "_R" ++ d2 ++ "_" ++ String c "ep" ++ d3 ++ tail)|].
    split; [exact Hp0|]. split; [exact Hr0|]. split; [exact Hrep0|].
    split; [exists d1; auto|]. split; [exists d2; auto|]. exists d3; auto. }
  destruct (re_match pattern2 name) as [m2|] eqn:H2.
  { destruct (pattern2_match name m2 H2)
      as (l & t & d1 & d2 & c & d3 & tail & Hname & Hl & Ht & Hd1 & Hd2 & Hc & Hd3 & ->).
    assert (O1 : occurs ("_R" ++ d1) name).
    { subst name.
      occurs_here (l ++ "PE" ++ t) ("_P" ++ d2 ++ "_" ++ String c "ep" ++ d3 ++ tail). }
    assert (O2 : occurs ("_P" ++ d2) name).
    { subst name.
      occurs_here (l ++ ("PE" ++ t) ++ "_R" ++ d1) ("_" ++ String c "ep" ++ d3 ++ tail). }
    assert (O3 : occurs ("ep" ++ d3) name).
    { subst name.
      occurs_here (l ++ ("PE" ++ t) ++ "_R" ++ d1 ++ "_P" ++ d2 ++ "_" ++ String c "") tail. }
    destruct (extract_with_editor name w ("PE" ++ t) d1 d2 d3 Hd1 Hd2 Hd3)
      as (p & r & rep & Hp0 & Hr0 & Hrep0 & Hp & Hr & Hrep & _ & Hrun).
    specialize (Hrun H1 H2).
    destruct (too_long d1 || too_long d2 || too_long d3) eqn:Hlong.
    { do 5 right. split; [exact Hrun|].
      apply (long_number_occurs name d1 d2 d3); try assumption;
        eapply occurs_after_marker; eassumption. }
    apply no_long_number in Hlong. destruct Hlong as (L1 & L2 & L3).
    left. exists ("PE" ++ t), r, p, rep. split; [exact Hrun|].
    split; [now exists t|].
    split; [subst name; occurs_here l ("_R" ++ d1 ++ "_P" ++ d2 ++ "_" ++ String c "ep" ++ d3 ++ tail)|].
    split; [exact Hr0|]. split; [exact Hp0|]. split; [exact Hrep0|].
    split; [exists d2; auto|]. split; [exists d1; auto|]. exists d3; auto. }
  destruct (re_match pattern3 name) as [m3|] eqn:H3.
  { destruct (pattern3_match name m3 H3)
      as (l & d1 & d2 & c & d3 & tail & Hname & Hl & Hd1 & Hd2 & Hc & Hd3 & ->).
    assert (O1 : occurs ("_P" ++ d1) name).
    { subst name. occurs_here l ("_R" ++ d2 ++ "_" ++ String c "ep" ++ d3 ++ tail). }
    assert (O2 : occurs ("_R" ++ d2) name).
    { subst name. occurs_here (l ++ "_P" ++ d1) ("_" ++ String c "ep" ++ d3 ++ tail). }
    assert (O3 : occurs ("ep" ++ d3) name).
    { subst name. occurs_here (l ++ "_P" ++ d1 ++ "_R" ++ d2 ++ "_" ++ String c "") tail. }
    destruct (extract_without_editor name w d1 d2 d3 Hd1 Hd2 Hd3 H1 H2)
      as (p & r & rep & Hp0 & Hr0 & Hrep0 & Hp & Hr & Hrep & Hrun & _).
    specialize (Hrun H3).
    destruct (too_long d1 || too_long d2 || too_long d3) eqn:Hlong.
    { do 5 right. split; [exact Hrun|].
      apply (long_number_occurs name d1 d2 d3); try assumption;
        eapply occurs_after_marker; eassumption. }
    apply no_long_number in Hlong. destruct Hlong as (L1 & L2 & L3).
    right. left. exists p, r, rep. split; [exact Hrun|].
    split; [exact Hp0|]. split; [exact Hr0|]. split; [exact Hrep0|].
    split; [exists d1; auto|]. split; [exists d2; auto|]. exists d3; auto. }
  destruct (re_match pattern4 name) as [m4|] eqn:H4.
  { destruct (pattern4_match name m4 H4)
      as (l & d1 & d2 & c & d3 & tail & Hname & Hl & Hd1 & Hd2 & Hc & Hd3 & ->).
    assert (O1 : occurs ("_R" ++ d1) name).
    { subst name. occurs_here l ("_P" ++ d2 ++ "_" ++ String c "ep" ++ d3 ++ tail). }
    assert (O2 : occurs ("_P" ++ d2) name).
    { subst name. occurs_here (l ++ "_R" ++ d1) ("_" ++ String c "ep" ++ d3 ++ tail). }
    assert (O3 : occurs ("ep" ++ d3) name).
    { subst name. occurs_here (l ++ "_R" ++ d1 ++ "_P" ++ d2 ++ "_" ++ String c "") tail. }
    destruct (extract_without_editor name w d1 d2 d3 Hd1 Hd2 Hd3 H1 H2)
      as (p & r & rep & Hp0 & Hr0 & Hrep0 & Hp & Hr & Hrep & _ & Hrun).
    specialize (Hrun H3 H4).
    destruct (too_long d1 || too_long d2 || too_long d3) eqn:Hlong.
    { do 5 right. split; [exact Hrun|].
      apply (long_number_occurs name d1 d2 d3); try assumption;
        eapply occurs_after_marker; eassumption. }
    apply no_long_number in Hlong. destruct Hlong as (L1 & L2 & L3).
    right. left. exists r, p, rep. split; [exact Hrun|].
    split; [exact Hr0|]. split; [exact Hp0|]. split; [exact Hrep0|].
    split; [exists d2; auto|]. split; [exists d1; auto|]. exists d3; auto. }
  destruct (re_match pattern_drug_rep name) as [m5|] eqn:H5.
  { right. right. right. left.
    split; [exact (extract_with_drug_rep name w m5 H1 H2 H3 H4 H5)|].
    repeat split; try reflexivity. discriminate. }
  destruct (re_match pattern_drug name) as [m6|] eqn:H6.
  { destruct (pattern_drug_match name m6 H6)
      as (l & t & d1 & d2 & code & tail & Hname & Hl & Ht & Hd1 & Hd2 & Hcode & Htail & ->).
    assert (O1 : occurs ("_P" ++ d1) name).
    { subst name. occurs_here (l ++ "PE" ++ t) ("R" ++ d2 ++ "_" ++ code ++ tail). }
    assert (O2 : occurs ("R" ++ d2) name).
    { subst name. occurs_here (l ++ ("PE" ++ t) ++ "_P" ++ d1) ("_" ++ code ++ tail). }
    destruct (extract_with_drug name w ("PE" ++ t) d1 d2 code Hd1 Hd2 H1 H2 H3 H4 H5 H6)
      as (p & r & Hp0 & Hr0 & Hp & Hr & Hrun).
    destruct (too_long d1 || too_long d2) eqn:Hlong.
    { do 5 right. split; [exact Hrun|].
      destruct (too_long d1) eqn:L1.
      - exists d1. repeat split; try apply Hd1; try assumption.
        eapply occurs_after_marker; eassumption.
      - exists d2. repeat split; try apply Hd2; try assumption.
        eapply occurs_after_marker; eassumption. }
    apply orb_false_iff in Hlong. destruct Hlong as (L1 & L2).
    right. right. left.
    exists ("PE" ++ t), p, r, code. split; [exact Hrun|].
    split; [now exists t|].
    split; [subst name; occurs_here l ("_P" ++ d1 ++ "R" ++ d2 ++ "_" ++ code ++ tail)|].
    split; [exact Hp0|]. split; [exact Hr0|].
    split; [exists d1; auto|]. split; [exists d2; auto|].
    split; [exact Hcode|].
    split; [subst name; occurs_here (l ++ ("PE" ++ t) ++ "_P" ++ d1 ++ "R" ++ d2) tail|].
    repeat split; reflexivity. }
  right. right. right. right. left.
  split; [|repeat split; reflexivity].
  unfold extract_batch_info. rewrite H1, H2, H3, H4, H5, H6. reflexivity.
Qed.

Lemma occurs_length (sub s : string) :
  occurs sub s -> (String.length sub <= String.length s)%nat.
Proof. intros (before & after & ->). rewrite !string_length_app. lia. Qed.

(** A name no longer than [int] reads digits holds no number too long. *)
Lemma short_name_short_numbers (name d : string) :
  (String.length name <= Str.max_str_digits)%nat -> occurs d name -> too_long d = false.
Proof.
  intros Hlen Hocc. apply occurs_length in Hocc. unfold too_long.
  apply Nat.ltb_ge. lia.
Qed.

(** X1.  On a name of ASCII text, [extract_batch_info] raises nothing but
    [ValueError] and prints nothing when it raises.  It raises on every
    name that the pattern with treatment and replicate decides -- none of
    the four patterns without treatment matches and [pattern_drug_rep]
    does: the replicate is then read from the alphabetic group.  On any
    other name it raises only when a number written in the name has more
    digits than [int] reads, so never on a name of at most
    [max_str_digits] characters. *)
Theorem X1_treatment_with_replicate_raises (name : string) (w : world) :
  Str.is_ascii name = true ->
  (re_match pattern1 name = None -> re_match pattern2 name = None ->
   re_match pattern3 name = None -> re_match pattern4 name = None ->
   re_match pattern_drug_rep name <> None ->
   extract_batch_info name w = (Raise ValueError, w))
  /\ (forall e w',
        extract_batch_info name w = (Raise e, w') ->
        e = ValueError /\ w' = w
        /\ ((re_match pattern1 name = None /\ re_match pattern2 name = None
             /\ re_match pattern3 name = None /\ re_match pattern4 name = None
             /\ re_match pattern_drug_rep name <> None)
            \/ (exists d, run_of digit d /\ too_long d = true /\ occurs d name)))
  /\ ((String.length name <= Str.max_str_digits)%nat ->
      forall e w',
        extract_batch_info name w = (Raise e, w') ->
        re_match pattern1 name = None /\ re_match pattern2 name = None
        /\ re_match pattern3 name = None /\ re_match pattern4 name = None
        /\ re_match pattern_drug_rep name <> None).
Proof.
  intros _.
  assert (Hraise : forall e w',
             extract_batch_info name w = (Raise e, w') ->
             e = ValueError /\ w' = w
             /\ ((re_match pattern1 name = None /\ re_match pattern2 name = None
                  /\ re_match pattern3 name = None /\ re_match pattern4 name = None
                  /\ re_match pattern_drug_rep name <> None)
                 \/ (exists d, run_of digit d /\ too_long d = true /\ occurs d name))).
  { intros e w' Hrun.
    destruct (extract_cases name w)
      as [(e' & p & r & rep & H & _)|[(p & r & rep & H & _)|[(e' & p & r & code & H & _)
         |[(H & H1 & H2 & H3 & H4 & H5)|[(H & _)|(H & Hlong)]]]]];
      rewrite H in Hrun; try discriminate; inversion Hrun; subst.
    - split; [reflexivity|]. split; [reflexivity|]. left. repeat split; assumption.
    - split; [reflexivity|]. split; [reflexivity|]. right. exact Hlong. }
  split; [|split].
  - intros H1 H2 H3 H4 H5.
    destruct (re_match pattern_drug_rep name) as [m|] eqn:Hm; [|congruence].
    exact (extract_with_drug_rep name w m H1 H2 H3 H4 Hm).
  - exact Hraise.
  - intros Hlen e w' Hrun.
    destruct (Hraise e w' Hrun) as (_ & _ & [H|(d & _ & Hd & Hocc)]); [exact H|].
    rewrite (short_name_short_numbers name d Hlen Hocc) in Hd. discriminate.
Qed.

(** X1, on a name with treatment and replicate. *)
Lemma X1_treatment_with_replicate_raises_witness :
  extract_batch_info "X_PE2_P5R10_drugA_Rep2" empty_world = (Raise ValueError, empty_world).
Proof.
  apply (proj1 (X1_treatment_with_replicate_raises "X_PE2_P5R10_drugA_Rep2" empty_world
                  eq_refl));
    try reflexivity.
  vm_compute. discriminate.
Defined.

(** X2.  A tuple [extract_batch_info] returns for a name of ASCII text is
    either the tuple of [None]s or complete: PBS, RTT and replicate are all
    present and not negative, an editor is [PE] followed by word
    characters, and a treatment code is a run of letters that comes with an
    editor and with the replicate 1.  Nothing is printed with a complete
    tuple. *)
Theorem X2_parsed_tuple_is_complete (name : string) (w : world) (info : batch_info)
  (w' : world) :
  Str.is_ascii name = true ->
  extract_batch_info name w = (Ok info, w') ->
  info = no_info
  \/ exists pe p r rep code,
       info = (pe, Some p, Some r, Some rep, code)
       /\ w' = w
       /\ 0 <= p /\ 0 <= r /\ 0 <= rep
       /\ (forall e, pe = Some e -> editor_shaped e)
       /\ (forall c, code = Some c -> run_of letters c /\ rep = 1 /\ pe <> None).
Proof.
  intros _ Hrun.
  destruct (extract_cases name w)
    as [(e & p & r & rep & H & He & _ & Hp & Hr & Hrep & _)
       |[(p & r & rep & H & Hp & Hr & Hrep & _)
        |[(e & p & r & code & H & He & _ & Hp & Hr & _ & _ & Hcode & _)
         |[(H & _)|[(H & _)|(H & _)]]]]];
    rewrite H in Hrun; inversion Hrun; subst; clear Hrun.
  - right. exists (Some e), p, r, rep, None.
    split; [reflexivity|]. split; [reflexivity|]. repeat (split; [assumption|]).
    split; [intros e' E; inversion E; now subst | discriminate].
  - right. exists None, p, r, rep, None.
    split; [reflexivity|]. split; [reflexivity|]. repeat (split; [assumption|]).
    split; discriminate.
  - right. exists (Some e), p, r, 1, (Some code).
    split; [reflexivity|]. split; [reflexivity|]. repeat (split; [assumption|]).
    split; [lia|].
    split; [intros e' E; inversion E; now subst|].
    intros c E. inversion E. subst. split; [assumption|]. split; [reflexivity|discriminate].
  - now left.
Qed.

(** X2, on a name with a treatment code. *)
Lemma X2_parsed_tuple_is_complete_witness :
  (Some "PE2", Some 5, Some 10, Some 1, Some "drugA") = no_info
  \/ exists pe p r rep code,
       (Some "PE2", Some 5, Some 10, Some 1, Some "drugA") = (pe, Some p, Some r, Some rep, code)
       /\ empty_world = empty_world
       /\ 0 <= p /\ 0 <= r /\ 0 <= rep
       /\ (forall e, pe = Some e -> editor_shaped e)
       /\ (forall c, code = Some c -> run_of letters c /\ rep = 1 /\ pe <> None).
Proof.
  apply (X2_parsed_tuple_is_complete "X_PE2_P5R10_drugA" empty_world); [reflexivity|].
  vm_compute. reflexivity.
Defined.

Lemma written_after_underscore (marker : string) (n : Z) (name : string) :
  written_after ("_" ++ marker) n name -> written_after marker n name.
Proof.
  intros (d & Hd & Hn & before & after & ->). exists d. repeat split; try apply Hd; auto.
  exists (before ++ "_"), after.
  repeat (progress (rewrite ?string_app_assoc; cbn [append])). reflexivity.
Qed.

(** X3.  Nothing in a tuple parsed from a name of ASCII text is invented:
    the PBS is the number written in the name after [_P], the RTT the
    number written after [R] (after [_R] when there is no treatment), the
    replicate of a name without treatment the number written after [ep],
    the editor and the treatment code (after an underscore) parts of the
    name. *)
Theorem X3_fields_are_written_in_the_name (name : string) (w w' : world)
  (pe : option string) (p r rep : Z) (code : option string) :
  Str.is_ascii name = true ->
  extract_batch_info name w = (Ok (pe, Some p, Some r, Some rep, code), w') ->
  written_after "_P" p name
  /\ written_after "R" r name
  /\ (code = None -> written_after "_R" r name /\ written_after "ep" rep name)
  /\ (forall e, pe = Some e -> occurs e name)
  /\ (forall c, code = Some c -> occurs ("_" ++ c) name).
Proof.
  intros _ Hrun.
  destruct (extract_cases name w)
    as [(e & p' & r' & rep' & H & _ & He & _ & _ & _ & Hp & Hr & Hrep)
       |[(p' & r' & rep' & H & _ & _ & _ & Hp & Hr & Hrep)
        |[(e & p' & r' & code' & H & _ & He & _ & _ & Hp & Hr & _ & Hcode & _)
         |[(H & _)|[(H & _)|(H & _)]]]]];
    rewrite H in Hrun; inversion Hrun; subst; clear Hrun.
  - split; [assumption|]. split; [now apply (written_after_underscore "R")|].
    split; [intros _; now split|].
    split; [intros e' E; inversion E; now subst | discriminate].
  - split; [assumption|]. split; [now apply (written_after_underscore "R")|].
    split; [intros _; now split|].
    split; discriminate.
  - split; [assumption|]. split; [assumption|].
    split; [discriminate|].
    split; [intros e' E; inversion E; now subst|].
    intros c E. inversion E. now subst.
Qed.

(** X3, on a name of the first pattern. *)
Lemma X3_fields_are_written_in_the_name_witness :
  written_after "_P" 5 "XPE2_P5_R10_Rep2"
  /\ written_after "R" 10 "XPE2_P5_R10_Rep2"
  /\ (@None string = None ->
      written_after "_R" 10 "XPE2_P5_R10_Rep2" /\ written_after "ep" 2 "XPE2_P5_R10_Rep2")
  /\ (forall e, Some "PE2" = Some e -> occurs e "XPE2_P5_R10_Rep2")
  /\ (forall c, @None string = Some c -> occurs ("_" ++ c) "XPE2_P5_R10_Rep2").
Proof.
  apply (X3_fields_are_written_in_the_name "XPE2_P5_R10_Rep2" empty_world empty_world);
    [reflexivity|].
  vm_compute. reflexivity.
Defined.

(* ================================================================== *)
(** ** The matcher finds a match whenever there is one *)
(* ================================================================== *)

Lemma many1_complete {A : Type} (a : atom) (k : string -> option A) (rest : string) (x : A) :
  k rest = Some x ->
  forall pre, pre <> "" -> Str.forallb (atom_matches a) pre = true ->
    exists y, many1 a (pre ++ rest) k = Some y.
Proof.
  intros Hk. induction pre as [|c pre IH]; intros Hne Hall; [congruence|].
  cbn [Str.forallb] in Hall. apply andb_true_iff in Hall as [Hc Hall].
  cbn [append many1]. rewrite Hc.
  destruct pre as [|c' pre'].
  - cbn [append]. destruct (many1 a rest k) as [y|]; [now exists y|now exists x].
  - destruct (IH ltac:(discriminate) Hall) as [y Hy]. rewrite Hy. now exists y.
Qed.

Lemma strip_prefix_here (t rest : string) : Str.strip_prefix t (t ++ rest) = Some rest.
Proof.
  induction t as [|c t IH]; cbn [append Str.strip_prefix]; [reflexivity|].
  rewrite Ascii.eqb_refl. exact IH.
Qed.

Lemma run_complete (p : pattern) (s : string) (opened caps r : list string) :
  matches p s opened caps r -> exists r', run p s opened caps = Some r'.
Proof.
  induction 1 as [s opened caps | t p rest opened caps r _ IH
                 | a c p rest opened caps r Hc _ IH
                 | a pre p rest opened caps r Hne Hall _ IH
                 | p s opened caps r _ IH
                 | p s start opened caps r _ IH
                 | p s opened caps r He _ IH].
  - now exists (List.rev caps).
  - cbn [run]. rewrite strip_prefix_here. exact IH.
  - cbn [run]. rewrite Hc. exact IH.
  - cbn [run]. destruct IH as [r' IH].
    exact (many1_complete a (fun s' => run p s' opened caps) rest r' IH pre Hne Hall).
  - cbn [run]. exact IH.
  - cbn [run]. exact IH.
  - cbn [run]. rewrite He. exact IH.
Qed.

Ltac build_match :=
  repeat match goal with
         | H : run_of _ _ |- _ => destruct H
         end;
  repeat first
    [ apply matches_nil
    | apply matches_open
    | apply matches_close
    | apply matches_lit
    | apply matches_one; [assumption|]
    | apply matches_many; [assumption|assumption|] ].

Lemma replicate_shaped_matches (name : string) :
  replicate_shaped name ->
  exists m, re_match pattern1 name = Some m \/ re_match pattern2 name = Some m
            \/ re_match pattern3 name = Some m \/ re_match pattern4 name = Some m.
Proof.
  intros (l & rest & Hl & Hname & Hrest).
  destruct Hname as [->|(t & Ht & ->)];
    destruct Hrest as [Hrest|Hrest];
    destruct Hrest as (d1 & d2 & c & d3 & tail & Hd1 & Hd2 & Hc & Hd3 & ->).
  - destruct (run_complete pattern3
                (l ++ "_P" ++ d1 ++ "_R" ++ d2 ++ "_" ++ String c ("ep" ++ d3 ++ tail))
                [] [] [d1; d2; d3]) as [m Hm].
    { unfold pattern3. build_match.
      rewrite !consumed_app. apply matches_nil. }
    exists m. auto.
  - destruct (run_complete pattern4
                (l ++ "_R" ++ d1 ++ "_P" ++ d2 ++ "_" ++ String c ("ep" ++ d3 ++ tail))
                [] [] [d1; d2; d3]) as [m Hm].
    { unfold pattern4. build_match.
      rewrite !consumed_app. apply matches_nil. }
    exists m. auto.
  - destruct (run_complete pattern1
                (l ++ "PE" ++ t ++ "_P" ++ d1 ++ "_R" ++ d2 ++ "_"
                   ++ String c ("ep" ++ d3 ++ tail))
                [] [] ["PE" ++ t; d1; d2; d3]) as [m Hm].
    { unfold pattern1. build_match.
      cbn [append]. rewrite !consumed_app, consumed_PE. apply matches_nil. }
    exists m. auto.
  - destruct (run_complete pattern2
                (l ++ "PE" ++ t ++ "_R" ++ d1 ++ "_P" ++ d2 ++ "_"
                   ++ String c ("ep" ++ d3 ++ tail))
                [] [] ["PE" ++ t; d1; d2; d3]) as [m Hm].
    { unfold pattern2. build_match.
      cbn [append]. rewrite !consumed_app, consumed_PE. apply matches_nil. }
    exists m. auto.
Qed.

(** X4.  Every name of ASCII text of the shape the four patterns without
    treatment are written for -- letters, optionally [PE] and word
    characters, then the two numbers after [_P] and [_R] in either order,
    then [_Rep], [_rep] or [_/ep] and a number, then anything -- is parsed
    into a complete tuple without treatment, with no warning, whatever
    follows the replicate; unless a number written in it has more digits
    than [int] reads, when [ValueError] is raised.  A name of at most
    [max_str_digits] characters is always parsed. *)
Theorem X4_replicate_names_are_parsed (name : string) (w : world) :
  Str.is_ascii name = true ->
  replicate_shaped name ->
  ((exists pe p r rep,
       extract_batch_info name w = (Ok (pe, Some p, Some r, Some rep, None), w)
       /\ 0 <= p /\ 0 <= r /\ 0 <= rep)
   \/ (extract_batch_info name w = (Raise ValueError, w)
       /\ exists d, run_of digit d /\ too_long d = true /\ occurs d name))
  /\ ((String.length name <= Str.max_str_digits)%nat ->
      exists pe p r rep,
        extract_batch_info name w = (Ok (pe, Some p, Some r, Some rep, None), w)
        /\ 0 <= p /\ 0 <= r /\ 0 <= rep).
Proof.
  intros _ Hshape.
  destruct (replicate_shaped_matches name Hshape) as [m Hm].
  assert (Hcases :
            (exists pe p r rep,
                extract_batch_info name w = (Ok (pe, Some p, Some r, Some rep, None), w)
                /\ 0 <= p /\ 0 <= r /\ 0 <= rep)
            \/ (extract_batch_info name w = (Raise ValueError, w)
                /\ exists d, run_of digit d /\ too_long d = true /\ occurs d name)).
  { destruct (extract_cases name w)
      as [(e & p & r & rep & H & _ & _ & Hp & Hr & Hrep & _)
         |[(p & r & rep & H & Hp & Hr & Hrep & _)
          |[(e & p & r & code & _ & _ & _ & _ & _ & _ & _ & _ & _ & H1 & H2 & H3 & H4)
           |[(_ & H1 & H2 & H3 & H4 & _)|[(_ & H1 & H2 & H3 & H4 & _)|Hlong]]]]].
    - left. exists (Some e), p, r, rep. auto.
    - left. exists None, p, r, rep. auto.
    - rewrite H1, H2, H3, H4 in Hm. destruct Hm as [?|[?|[?|?]]]; discriminate.
    - rewrite H1, H2, H3, H4 in Hm. destruct Hm as [?|[?|[?|?]]]; discriminate.
    - rewrite H1, H2, H3, H4 in Hm. destruct Hm as [?|[?|[?|?]]]; discriminate.
    - right. exact Hlong. }
  split; [exact Hcases|].
  intros Hlen. destruct Hcases as [H|(_ & d & _ & Hd & Hocc)]; [exact H|].
  rewrite (short_name_short_numbers name d Hlen Hocc) in Hd. discriminate.
Qed.

(** X4, on a name with trailing text after the replicate. *)
Lemma X4_replicate_names_are_parsed_witness :
  exists pe p r rep,
    extract_batch_info "HEK_R13_P9_rep3_run2" empty_world
    = (Ok (pe, Some p, Some r, Some rep, None), empty_world)
    /\ 0 <= p /\ 0 <= r /\ 0 <= rep.
Proof.
  apply (X4_replicate_names_are_parsed "HEK_R13_P9_rep3_run2" empty_world);
    [reflexivity| |apply Nat.leb_le; vm_compute; reflexivity].
  exists "HEK", "_R13_P9_rep3_run2".
  split; [split; [discriminate|reflexivity]|].
  split; [now left|].
  right. exists "13", "9", "r"%char, "3", "_run2".
  repeat split; discriminate.
Defined.

(* ================================================================== *)
(** ** When the loop of [process_data] raises *)
(* ================================================================== *)

Lemma misread_patterns (name : string) :
  misread name = true <->
  re_match pattern1 name = None /\ re_match pattern2 name = None
  /\ re_match pattern3 name = None /\ re_match pattern4 name = None
  /\ re_match pattern_drug_rep name <> None.
Proof.
  unfold misread.
  destruct (re_match pattern1 name), (re_match pattern2 name), (re_match pattern3 name),
    (re_match pattern4 name), (re_match pattern_drug_rep name);
    split; try discriminate; try (intros (? & ? & ? & ? & ?); congruence).
  intros _. repeat split; discriminate.
Qed.

(** A name is unreadable when it is misread, or holds a number too long. *)
Lemma unreadable_cases (name : string) :
  unreadable name = true ->
  extract_batch_info name empty_world = (Raise ValueError, empty_world)
  /\ (misread name = true
      \/ exists d, run_of digit d /\ too_long d = true /\ occurs d name).
Proof.
  unfold unreadable. intros H.
  destruct (extract_cases name empty_world)
    as [(e & p & r & rep & E & _)|[(p & r & rep & E & _)|[(e & p & r & code & E & _)
       |[(E & H1 & H2 & H3 & H4 & H5)|[(E & _)|(E & Hlong)]]]]];
    rewrite E in H; try discriminate.
  - split; [exact E|]. left. apply misread_patterns. auto.
  - split; [exact E|]. right. exact Hlong.
Qed.

Lemma misread_unreadable (name : string) : misread name = true -> unreadable name = true.
Proof.
  intros H. apply misread_patterns in H. destruct H as (H1 & H2 & H3 & H4 & H5).
  destruct (re_match pattern_drug_rep name) as [m|] eqn:Hm; [|congruence].
  unfold unreadable.
  now rewrite (extract_with_drug_rep name empty_world m H1 H2 H3 H4 Hm).
Qed.

(** A name of at most [max_str_digits] characters is unreadable only when it
    is misread. *)
Lemma short_unreadable (name : string) :
  (String.length name <= Str.max_str_digits)%nat -> unreadable name = misread name.
Proof.
  intros Hlen. destruct (unreadable name) eqn:Hu.
  - destruct (unreadable_cases name Hu) as (_ & [H|(d & _ & Hd & Hocc)]); [now rewrite H|].
    rewrite (short_name_short_numbers name d Hlen Hocc) in Hd. discriminate.
  - destruct (misread name) eqn:Hm; [|reflexivity].
    apply misread_unreadable in Hm. congruence.
Qed.

Lemma well_formed_rows_true (df : dataframe) (b : string) :
  well_formed_rows df b = true ->
  List.length (rows_of_batch df b) = 3%nat
  /\ exists p s, rows_of_amplicon (rows_of_batch df b) "Prime-edited" = [p]
                 /\ rows_of_amplicon (rows_of_batch df b) "Scaffold-incorporated" = [s].
Proof.
  unfold well_formed_rows. intros H.
  apply andb_true_iff in H as [H H3]. apply andb_true_iff in H as [H1 H2].
  apply Nat.eqb_eq in H1, H2, H3.
  destruct (length_one _ H2) as [p Hp]. destruct (length_one _ H3) as [s Hs].
  split; [assumption|]. now exists p, s.
Qed.

Lemma well_formed_rows_false (df : dataframe) (b : string) :
  well_formed_rows df b = false ->
  exists warning, batch_outcome df b = (Ok None, [warning]).
Proof.
  unfold well_formed_rows. intros H.
  destruct (batch_outcome_invalid df b) as (warning & Hw & _); [|now exists warning].
  cbv zeta.
  apply andb_false_iff in H as [H|H]; [apply andb_false_iff in H as [H|H]|];
    apply Nat.eqb_neq in H; auto.
Qed.

Lemma batch_outcome_aborts (df : dataframe) (b : string) :
  aborts df b = true -> batch_outcome df b = (Raise ValueError, []).
Proof.
  unfold aborts. intros H. apply andb_true_iff in H as [Hrows Hname].
  destruct (well_formed_rows_true df b Hrows) as (H3 & p & s & Hp & Hs).
  rewrite (batch_outcome_valid df b p s H3 Hp Hs).
  destruct (unreadable_cases b Hname) as (E & _). rewrite E. reflexivity.
Qed.

Lemma batch_outcome_returns (df : dataframe) (b : string) :
  aborts df b = false -> exists o out, batch_outcome df b = (Ok o, out).
Proof.
  unfold aborts. intros H.
  destruct (well_formed_rows df b) eqn:Hrows.
  - cbn [andb] in H.
    destruct (well_formed_rows_true df b Hrows) as (H3 & p & s & Hp & Hs).
    rewrite (batch_outcome_valid df b p s H3 Hp Hs).
    unfold unreadable in H.
    destruct (extract_batch_info b empty_world) as [[info|e] w1]; [|discriminate].
    destruct info as [[[[pe [p_|]] [r_|]] [rep|]] code]; do 2 eexists; reflexivity.
  - destruct (well_formed_rows_false df b Hrows) as [warning Hw]. eauto.
Qed.

Lemma batch_outcome_raise (df : dataframe) (b : string) (e : exn) out :
  batch_outcome df b = (Raise e, out) -> e = ValueError /\ aborts df b = true.
Proof.
  intros H. destruct (aborts df b) eqn:Ha.
  - rewrite (batch_outcome_aborts df b Ha) in H. inversion H. auto.
  - destruct (batch_outcome_returns df b Ha) as (o & out' & Ho). congruence.
Qed.

(* ================================================================== *)
(** ** The loop of [process_data], in full *)
(* ================================================================== *)

Lemma batch_loop_exact (df : dataframe) (names : list string) :
  forall st w,
    (forall b, In b names -> aborts df b = false) ->
    for_each names (process_batch df) st w
    = (Ok (fold_left (file_outcome df) names st), printed w (loop_output df names)).
Proof.
  induction names as [|a names IH]; intros st w Hok.
  - cbn. unfold ret. now rewrite printed_nil.
  - cbn [for_each fold_left]. unfold bind. rewrite process_batch_frame.
    destruct (batch_outcome_returns df a (Hok a (or_introl eq_refl))) as (o & out & Ho).
    unfold loop_output. cbn [flat_map]. unfold file_outcome at 2. rewrite Ho. cbn [fst snd].
    assert (Hok' : forall b, In b names -> aborts df b = false)
      by (intros b Hb; apply Hok; now right).
    destruct o as [data|]; rewrite (IH _ _ Hok'); now rewrite printed_printed.
Qed.

Lemma batch_loop_raises (df : dataframe) (names : list string) :
  forall st w b,
    In b names -> aborts df b = true ->
    exists out, for_each names (process_batch df) st w = (Raise ValueError, printed w out).
Proof.
  induction names as [|a names IH]; intros st w b Hin Hb; [contradiction|].
  cbn [for_each]. unfold bind. rewrite process_batch_frame.
  destruct (aborts df a) eqn:Ha.
  - rewrite (batch_outcome_aborts df a Ha). now exists [].
  - destruct (batch_outcome_returns df a Ha) as (o & out & Ho). rewrite Ho.
    destruct Hin as [->|Hin]; [congruence|].
    destruct o as [data|].
    + destruct (IH (file_record a data st) (printed w out) b Hin Hb) as [out' E].
      rewrite E, printed_printed. eauto.
    + destruct (IH st (printed w out) b Hin Hb) as [out' E].
      rewrite E, printed_printed. eauto.
Qed.

Lemma unique_NoDup (names : list string) : NoDup (unique names).
Proof.
  unfold unique.
  assert (G : forall seen, NoDup seen ->
            NoDup (fold_left (fun seen n => if contains n seen then seen else (seen ++ [n])%list)
                     names seen)).
  { induction names as [|n names IH]; intros seen Hnd; cbn [fold_left]; [assumption|].
    apply IH. destruct (contains n seen) eqn:E; [assumption|].
    apply NoDup_app; [assumption|repeat constructor; intros []|].
    intros x Hx [Ex|[]]. subst x.
    apply (proj2 (contains_In n seen)) in Hx. congruence. }
  apply G. constructor.
Qed.

Lemma dict_set_fresh (k : string) (v : batch_record) (d : dict string batch_record) :
  ~ In k (dict_keys d) -> dict_set k v d = (d ++ [(k, v)])%list.
Proof.
  induction d as [|[k' v'] d IH]; intros Hk; [reflexivity|].
  cbn [dict_set app]. change (keqb k' k) with (String.eqb k' k).
  destruct (String.eqb k' k) eqn:E.
  - apply String.eqb_eq in E. subst. exfalso. apply Hk. now left.
  - rewrite IH; [reflexivity|]. intros Hin. apply Hk. now right.
Qed.

Lemma missing_after_loop (df : dataframe) (names : list string) :
  forall st,
    NoDup names ->
    (forall b, In b names -> ~ In b (dict_keys (missing_pe_batches st))) ->
    missing_pe_batches (fold_left (file_outcome df) names st)
    = (missing_pe_batches st ++ missing_items df names)%list.
Proof.
  induction names as [|a names IH]; intros st Hnd Hfresh.
  - cbn. now rewrite app_nil_r.
  - inversion Hnd as [|? ? Ha Hnd']; subst.
    cbn [fold_left]. unfold missing_items. cbn [flat_map]. fold (missing_items df names).
    assert (Hkeys : forall b, In b names ->
              ~ In b (dict_keys (missing_pe_batches (file_outcome df st a)))).
    { intros b Hb. unfold file_outcome.
      destruct (fst (batch_outcome df a)) as [[data|]|e]; try (apply Hfresh; now right).
      unfold file_record. destruct (prime_editor data); cbn [missing_pe_batches];
        try (apply Hfresh; now right).
      rewrite dict_set_fresh by (apply Hfresh; now left).
      unfold dict_keys. rewrite map_app, in_app_iff. cbn.
      intros [Hin|[<-|[]]]; [|contradiction].
      revert Hin. apply Hfresh. now right. }
    rewrite (IH _ Hnd' Hkeys). unfold file_outcome.
    destruct (fst (batch_outcome df a)) as [[data|]|e]; try reflexivity.
    unfold file_record. destruct (prime_editor data); cbn [missing_pe_batches app];
      try reflexivity.
    rewrite dict_set_fresh by (apply Hfresh; now left).
    now rewrite <- app_assoc.
Qed.

Lemma missing_items_keys (df : dataframe) (names : list string) :
  dict_keys (missing_items df names) = filter (lacks_editor df) names.
Proof.
  induction names as [|a names IH]; [reflexivity|].
  unfold missing_items, lacks_editor. cbn [flat_map filter].
  fold (missing_items df names). unfold dict_keys in *. rewrite map_app, IH.
  unfold lacks_editor.
  destruct (fst (batch_outcome df a)) as [[data|]|e]; try reflexivity.
  destruct (prime_editor data); reflexivity.
Qed.

Lemma missing_items_outcome (df : dataframe) (names : list string) (b : string)
  (data : batch_record) :
  In (b, data) (missing_items df names) ->
  fst (batch_outcome df b) = Ok (Some data) /\ prime_editor data = None.
Proof.
  unfold missing_items. rewrite in_flat_map. intros (a & _ & Hin).
  destruct (fst (batch_outcome df a)) as [[data'|]|e] eqn:E; try contradiction.
  destruct (prime_editor data') eqn:Hpe; try contradiction.
  destruct Hin as [Heq|[]]. inversion Heq; subst. auto.
Qed.

Lemma process_data_loop (df : dataframe) (w : world) :
  (forall b, In b (map Batch df) -> aborts df b = false) ->
  exists st,
    process_data df w
    = resolve_missing st (printed w (loop_output df (unique (map Batch df))))
    /\ missing_pe_batches st = missing_items df (unique (map Batch df))
    /\ st = fold_left (file_outcome df) (unique (map Batch df)) (mkState [] []).
Proof.
  intros Hok. eexists. split; [|split; [|reflexivity]].
  - unfold process_data, bind. rewrite batch_loop_exact; [reflexivity|].
    intros b Hb. apply Hok. now apply unique_In.
  - rewrite missing_after_loop; [reflexivity|apply unique_NoDup|].
    intros b _ [].
Qed.

(* ================================================================== *)
(** ** The operator's answers, line by line *)
(* ================================================================== *)

Lemma with_stdin_same (w : world) : with_stdin w (stdin w) = w.
Proof. now destruct w. Qed.

Lemma with_stdin_twice (w : world) (a b : list string) :
  with_stdin (with_stdin w a) b = with_stdin w b.
Proof. reflexivity. Qed.

Lemma printed_with_stdin (w : world) (inp out : list string) :
  printed (with_stdin w inp) out = with_stdin (printed w out) inp.
Proof. reflexivity. Qed.

Lemma answered_cons (k : string) (v : batch_record) (m : dict string batch_record)
  (a : string) (answers : list string) (d0 : dict string batch_record) :
  answered ((k, v) :: m) (a :: answers) d0
  = answered m answers (dict_set k (set_prime_editor v a) d0).
Proof. reflexivity. Qed.

Lemma ask_each_exact (m : dict string batch_record) :
  forall d0 w,
    (List.length m <= List.length (stdin w))%nat ->
    for_each m
      (fun item acc =>
         pe <- input ("Enter prime editor name for batch '" ++ fst item ++ "': ") ;;
         ret (dict_set (fst item) (set_prime_editor (snd item) pe) acc)) d0 w
    = (Ok (answered m (stdin w) d0),
       with_stdin (printed w (map editor_prompt m)) (skipn (List.length m) (stdin w))).
Proof.
  induction m as [|[k v] m IH]; intros d0 w Hlen.
  - cbn. unfold ret. now rewrite printed_nil, with_stdin_same.
  - cbn [for_each fst snd]. unfold bind at 1 2.
    destruct (input_cases ("Enter prime editor name for batch '" ++ k ++ "': ") w)
      as [(line & rest & Hin & Hi)|[Hin _]];
      [|rewrite Hin in Hlen; cbn in Hlen; lia].
    rewrite Hi. unfold ret at 1. rewrite Hin in Hlen. cbn [List.length] in Hlen.
    rewrite IH by (cbn; lia).
    rewrite Hin. cbn [stdin with_stdin List.length skipn map].
    rewrite answered_cons.
    rewrite printed_with_stdin, printed_printed, with_stdin_twice. reflexivity.
Qed.

Lemma ask_each_eof (m : dict string batch_record) :
  forall d0 w,
    (List.length (stdin w) < List.length m)%nat ->
    exists w',
      for_each m
        (fun item acc =>
           pe <- input ("Enter prime editor name for batch '" ++ fst item ++ "': ") ;;
           ret (dict_set (fst item) (set_prime_editor (snd item) pe) acc)) d0 w
      = (Raise EOFError, w') /\ stdin w' = [].
Proof.
  induction m as [|[k v] m IH]; intros d0 w Hlen; [cbn in Hlen; lia|].
  cbn [for_each fst snd]. unfold bind at 1 2.
  destruct (input_cases ("Enter prime editor name for batch '" ++ k ++ "': ") w)
    as [(line & rest & Hin & Hi)|[Hin Hi]]; rewrite Hi.
  - unfold ret at 1. apply IH. rewrite Hin in Hlen. cbn in *. lia.
  - eexists. split; [reflexivity|]. now rewrite stdin_printed.
Qed.

Lemma answered_other (m : dict string batch_record) (b : string) :
  forall answers d0,
    ~ In b (dict_keys m) -> dict_get b (answered m answers d0) = dict_get b d0.
Proof.
  induction m as [|[k v] m IH]; intros answers d0 Hb; [reflexivity|].
  destruct answers as [|a answers]; [reflexivity|].
  rewrite answered_cons.
  rewrite IH by (intros Hin; apply Hb; now right).
  apply dict_get_set_other. intros <-. apply Hb. now left.
Qed.

Lemma answered_nth (m : dict string batch_record) :
  forall answers d0 i b data a,
    NoDup (dict_keys m) ->
    nth_error m i = Some (b, data) ->
    nth_error answers i = Some a ->
    dict_get b (answered m answers d0) = Some (set_prime_editor data a).
Proof.
  induction m as [|[k v] m IH]; intros answers d0 i b data a Hnd Hm Ha.
  - now destruct i.
  - inversion Hnd as [|? ? Hk Hnd']; subst.
    destruct answers as [|a0 answers]; [now destruct i|].
    rewrite answered_cons.
    destruct i as [|i]; cbn [nth_error] in Hm, Ha.
    + inversion Hm; inversion Ha; subst.
      rewrite answered_other by assumption. apply dict_get_set_same.
    + exact (IH answers _ i b data a Hnd' Hm Ha).
Qed.

(* ================================================================== *)
(** ** [resolve_missing], case by case *)
(* ================================================================== *)

Lemma ask_question {A : Type} (line prompt : string) (k : string -> M A) (w : world) :
  (print line ;;; response <- input prompt ;; k response) w
  = match stdin w with
    | [] => (Raise EOFError, printed w [line; prompt])
    | response :: rest => k response (with_stdin (printed w [line; prompt]) rest)
    end.
Proof.
  unfold bind. rewrite print_printed.
  destruct (input_cases prompt (printed w [line]))
    as [(response & rest & Hin & Hi)|[Hin Hi]];
    rewrite stdin_printed in Hin; rewrite Hin, Hi, printed_printed; reflexivity.
Qed.

Lemma resolve_missing_cases (st : batch_state) (w : world) :
  let missing := missing_pe_batches st in
  let asked := printed w [found_line (List.length missing); editor_question] in
  match missing with
  | [] => resolve_missing st w = (Ok (batches st), w)
  | _ :: _ =>
      match stdin w with
      | [] => resolve_missing st w = (Raise EOFError, asked)
      | response :: rest =>
          if String.eqb (Str.lower response) "different" then
            if (List.length missing <=? List.length rest)%nat then
              resolve_missing st w
              = (Ok (answered missing rest (batches st)),
                 with_stdin (printed asked (map editor_prompt missing))
                   (skipn (List.length missing) rest))
            else
              exists w', resolve_missing st w = (Raise EOFError, w') /\ stdin w' = []
          else
            exists d,
              resolve_missing st w = (Ok d, with_stdin asked rest)
              /\ (NoDup (dict_keys missing) ->
                  forall b, dict_get b d
                            = match dict_get b missing with
                              | Some data => Some (set_prime_editor data response)
                              | None => dict_get b (batches st)
                              end)
      end
  end.
Proof.
  cbv zeta. unfold resolve_missing.
  destruct (missing_pe_batches st) as [|item m] eqn:Hm; [reflexivity|].
  remember (item :: m) as missing eqn:Hmissing.
  fold (found_line (List.length missing)). fold editor_question.
  rewrite ask_question.
  destruct (stdin w) as [|response rest]; [reflexivity|].
  destruct (String.eqb (Str.lower response) "different").
  - destruct (List.length missing <=? List.length rest)%nat eqn:Hlen.
    + apply Nat.leb_le in Hlen. rewrite ask_each_exact by exact Hlen.
      cbn [stdin with_stdin]. rewrite printed_with_stdin, with_stdin_twice. reflexivity.
    + apply Nat.leb_gt in Hlen. apply ask_each_eof. exact Hlen.
  - match goal with
    | |- context [for_each _ _ ?d0 ?w0] =>
        destruct (assign_all response missing d0 w0) as (d & Hrun & Hget)
    end.
    exists d. split; assumption.
Qed.

(* ================================================================== *)
(** ** [process_data]: how it ends *)
(* ================================================================== *)

Lemma batch_outcome_foreign (df : dataframe) (b : string) :
  ~ In b (map Batch df) -> fst (batch_outcome df b) = Ok None.
Proof.
  intros Hb. destruct (well_formed_rows df b) eqn:Hrows.
  - destruct (well_formed_rows_true df b Hrows) as (H3 & _).
    exfalso. apply Hb. apply rows_of_batch_In.
    intros E. rewrite E in H3. discriminate.
  - destruct (well_formed_rows_false df b Hrows) as [warning Hw]. now rewrite Hw.
Qed.

Lemma no_abort_decide (df : dataframe) :
  (exists b, In b (map Batch df) /\ aborts df b = true)
  \/ (forall b, In b (map Batch df) -> aborts df b = false).
Proof.
  destruct (List.existsb (aborts df) (map Batch df)) eqn:E.
  - left. apply existsb_exists in E. exact E.
  - right. intros b Hb. destruct (aborts df b) eqn:Ha; [|reflexivity].
    assert (List.existsb (aborts df) (map Batch df) = true)
      by (apply existsb_exists; eauto).
    congruence.
Qed.

Lemma editorless_missing (df : dataframe) :
  editorless df = dict_keys (missing_items df (unique (map Batch df))).
Proof. unfold editorless. now rewrite missing_items_keys. Qed.

Lemma missing_items_NoDup (df : dataframe) :
  NoDup (dict_keys (missing_items df (unique (map Batch df)))).
Proof. rewrite missing_items_keys. apply NoDup_filter, unique_NoDup. Qed.

Lemma process_data_raise (df : dataframe) (w : world) (e : exn) (w' : world) :
  process_data df w = (Raise e, w') ->
  (e = ValueError /\ stdin w' = stdin w
   /\ exists b, In b (map Batch df) /\ aborts df b = true)
  \/ (e = EOFError /\ stdin w' = [] /\ editorless df <> []
      /\ (forall b, In b (map Batch df) -> aborts df b = false)
      /\ (stdin w = []
          \/ exists response answers,
               stdin w = response :: answers /\ Str.lower response = "different"
               /\ (List.length answers < List.length (editorless df))%nat)).
Proof.
  intros Hrun. destruct (no_abort_decide df) as [(b & Hb & Ha)|Hok].
  - left. unfold process_data, bind in Hrun.
    destruct (batch_loop_raises df (unique (map Batch df)) (mkState [] []) w b
                (proj2 (unique_In b _) Hb) Ha) as [out E].
    rewrite E in Hrun. inversion Hrun; subst. rewrite stdin_printed. eauto.
  - right. destruct (process_data_loop df w Hok) as (st & E & Hm & _).
    rewrite E in Hrun.
    pose proof (resolve_missing_cases st
                  (printed w (loop_output df (unique (map Batch df))))) as Hc.
    cbv zeta in Hc. rewrite Hm, stdin_printed in Hc.
    rewrite editorless_missing. unfold dict_keys. rewrite length_map.
    destruct (missing_items df (unique (map Batch df))) as [|item m] eqn:Hitems;
      [congruence|].
    destruct (stdin w) as [|response rest] eqn:Hin.
    + rewrite Hc in Hrun. inversion Hrun; subst.
      repeat split; auto; try discriminate.
    + destruct (String.eqb (Str.lower response) "different") eqn:Hd.
      * destruct (List.length (item :: m) <=? List.length rest)%nat eqn:Hlen;
          [congruence|].
        destruct Hc as (w1 & Hc & Hw1). rewrite Hc in Hrun. inversion Hrun; subst.
        repeat split; auto; try discriminate.
        right. exists response, rest. apply String.eqb_eq in Hd. apply Nat.leb_gt in Hlen.
        auto.
      * destruct Hc as (d & Hc & _). congruence.
Qed.

(** X5.  In a table of ASCII names, one batch with well-formed rows whose
    name is read by the pattern with treatment and replicate makes
    [process_data] raise [ValueError]: no batch of the table is returned,
    and the operator is not asked anything.  So does any batch with
    well-formed rows on whose name [extract_batch_info] raises.
    [process_data] raises [ValueError] in no other case: some batch with
    well-formed rows then has a misread name, or a name in which a number
    has more digits than [int] reads.  For a name of at most
    [max_str_digits] characters, to raise is to be misread. *)
Theorem X5_misread_name_aborts_the_table (df : dataframe) (w : world) :
  ascii_names df ->
  (forall b, In b (map Batch df) -> well_formed_rows df b = true -> misread b = true ->
     exists w', process_data df w = (Raise ValueError, w') /\ stdin w' = stdin w)
  /\ (forall b, In b (map Batch df) -> aborts df b = true ->
        exists w', process_data df w = (Raise ValueError, w') /\ stdin w' = stdin w)
  /\ (forall w', process_data df w = (Raise ValueError, w') ->
        exists b, In b (map Batch df) /\ well_formed_rows df b = true
                  /\ (misread b = true
                      \/ exists d, run_of digit d /\ too_long d = true /\ occurs d b))
  /\ (forall b, (String.length b <= Str.max_str_digits)%nat ->
        aborts df b = well_formed_rows df b && misread b).
Proof.
  intros _.
  assert (Habort : forall b, In b (map Batch df) -> aborts df b = true ->
            exists w', process_data df w = (Raise ValueError, w') /\ stdin w' = stdin w).
  { intros b Hb Ha. unfold process_data, bind.
    destruct (batch_loop_raises df (unique (map Batch df)) (mkState [] []) w b
                (proj2 (unique_In b _) Hb) Ha) as [out E].
    rewrite E. eexists. split; [reflexivity|]. now rewrite stdin_printed. }
  split; [|split; [|split]].
  - intros b Hb Hrows Hm. apply (Habort b Hb). unfold aborts.
    now rewrite Hrows, (misread_unreadable b Hm).
  - exact Habort.
  - intros w' Hrun.
    destruct (process_data_raise df w _ _ Hrun) as [(_ & _ & b & Hb & Ha)|(H & _)];
      [|discriminate].
    unfold aborts in Ha. apply andb_true_iff in Ha. destruct Ha as [Hrows Hname].
    exists b. split; [exact Hb|]. split; [exact Hrows|].
    exact (proj2 (unreadable_cases b Hname)).
  - intros b Hlen. unfold aborts. now rewrite (short_unreadable b Hlen).
Qed.

(** X5, on the specification's example followed by a treated batch with a
    replicate. *)
Lemma X5_misread_name_aborts_the_table_witness :
  exists w',
    process_data (spec_rows ++ treated_replicate_rows)%list (typing ["PE2"])
    = (Raise ValueError, w')
    /\ stdin w' = stdin (typing ["PE2"]).
Proof.
  apply (proj1 (X5_misread_name_aborts_the_table (spec_rows ++ treated_replicate_rows)%list
                  (typing ["PE2"]) ltac:(intros b Hb; cbn in Hb; repeat (destruct Hb as [<-|Hb]; [reflexivity|]); contradiction))
           "X_PE2_P5R10_drugA_Rep2").
  - cbn. tauto.
  - vm_compute. reflexivity.
  - vm_compute. reflexivity.
Defined.

(** X6.  In a table of ASCII names, when no name raises and every parsed
    name carries its editor, [process_data] returns without asking the operator: it prints the
    warnings of the loop and nothing else, reads nothing, and returns for
    each name the record the loop filed for it. *)
Theorem X6_no_question_when_editors_are_parsed (df : dataframe) (w : world) :
  ascii_names df ->
  (forall b, In b (map Batch df) -> aborts df b = false) ->
  editorless df = [] ->
  exists d,
    process_data df w = (Ok d, printed w (loop_output df (unique (map Batch df))))
    /\ forall b, dict_get b d = match fst (batch_outcome df b) with
                                | Ok o => o
                                | Raise _ => None
                                end.
Proof.
  intros _ Hok Hnone.
  destruct (process_data_loop df w Hok) as (st & E & Hm & _).
  assert (Hitems : missing_items df (unique (map Batch df)) = []).
  { rewrite editorless_missing in Hnone. unfold dict_keys in Hnone.
    now apply map_eq_nil in Hnone. }
  pose proof (resolve_missing_cases st
                (printed w (loop_output df (unique (map Batch df))))) as Hc.
  cbv zeta in Hc. rewrite Hm, Hitems in Hc. rewrite Hc in E.
  exists (batches st). split; [exact E|].
  intros b. destruct (in_dec string_dec b (map Batch df)) as [Hb|Hb].
  - destruct (process_data_spec df w _ _ E b Hb) as (o & out & Ho & _ & Hget).
    rewrite Ho. cbn [fst]. destruct o as [data|]; [|exact Hget].
    destruct (prime_editor data) eqn:Hpe; [exact Hget|].
    exfalso.
    assert (Hin : In b (editorless df)).
    { unfold editorless. apply filter_In. split; [now apply unique_In|].
      unfold lacks_editor. rewrite Ho. cbn [fst]. now rewrite Hpe. }
    rewrite Hnone in Hin. exact Hin.
  - rewrite (batch_outcome_foreign df b Hb).
    exact (process_data_foreign df w _ _ E b Hb).
Qed.

(** X6, on a batch of two rows followed by the specification's example, and
    an operator who has nothing to say. *)
Lemma X6_no_question_when_editors_are_parsed_witness :
  exists d,
    process_data short_then_spec_rows empty_world
    = (Ok d, printed empty_world
               (loop_output short_then_spec_rows (unique (map Batch short_then_spec_rows))))
    /\ forall b, dict_get b d = match fst (batch_outcome short_then_spec_rows b) with
                                | Ok o => o
                                | Raise _ => None
                                end.
Proof.
  apply (X6_no_question_when_editors_are_parsed short_then_spec_rows empty_world).
  - intros b Hb. cbn in Hb. repeat (destruct Hb as [<-|Hb]; [reflexivity|]). contradiction.
  - intros b Hb. cbn in Hb. destruct Hb as [<-|[<-|[<-|[<-|[<-|[]]]]]]; vm_compute; reflexivity.
  - vm_compute. reflexivity.
Defined.

(** The operator's lines run out. *)
Lemma process_data_eof (df : dataframe) (w : world) :
  (forall b, In b (map Batch df) -> aborts df b = false) ->
  editorless df <> [] ->
  stdin w = []
  \/ (exists response answers,
        stdin w = response :: answers /\ Str.lower response = "different"
        /\ (List.length answers < List.length (editorless df))%nat) ->
  exists w', process_data df w = (Raise EOFError, w') /\ stdin w' = [].
Proof.
  intros Hok Hsome Hin.
  destruct (process_data_loop df w Hok) as (st & E & Hm & _).
  pose proof (resolve_missing_cases st
                (printed w (loop_output df (unique (map Batch df))))) as Hc.
  cbv zeta in Hc. rewrite Hm, stdin_printed in Hc.
  rewrite editorless_missing in Hsome, Hin. unfold dict_keys in Hin.
  rewrite length_map in Hin.
  destruct (missing_items df (unique (map Batch df))) as [|item m] eqn:Hitems;
    [now contradiction Hsome|].
  destruct Hin as [Hin|(response & answers & Hin & Hd & Hlen)]; rewrite Hin in Hc.
  - rewrite E, Hc. eexists. split; [reflexivity|]. now rewrite !stdin_printed.
  - apply String.eqb_eq in Hd. rewrite Hd in Hc.
    apply Nat.leb_gt in Hlen. rewrite Hlen in Hc. rewrite E. exact Hc.
Qed.

(** X7.  In a table of ASCII names on which no name raises, [process_data]
    raises [EOFError] when the operator's lines run out: some parsed batch
    lacks its editor and nothing is typed, or the answer is [different] and
    fewer lines follow than there are such batches.  Apart from the
    [ValueError] of a name that raises it raises nothing else. *)
Theorem X7_missing_answers_raise_eof (df : dataframe) (w : world) :
  ascii_names df ->
  ((forall b, In b (map Batch df) -> aborts df b = false) ->
   editorless df <> [] ->
   stdin w = []
   \/ (exists response answers,
         stdin w = response :: answers /\ Str.lower response = "different"
         /\ (List.length answers < List.length (editorless df))%nat) ->
   exists w', process_data df w = (Raise EOFError, w') /\ stdin w' = [])
  /\ (forall e w',
        process_data df w = (Raise e, w') ->
        e = ValueError
        \/ (e = EOFError /\ stdin w' = [] /\ editorless df <> []
            /\ (stdin w = []
                \/ exists response answers,
                     stdin w = response :: answers /\ Str.lower response = "different"
                     /\ (List.length answers < List.length (editorless df))%nat))).
Proof.
  intros _. split.
  - exact (process_data_eof df w).
  - intros e w' Hrun.
    destruct (process_data_raise df w e w' Hrun)
      as [(He & _)|(He & Hw' & Hsome & _ & Hin)]; auto.
Qed.

(** X7, with two batches to name and one line after [different]. *)
Lemma X7_missing_answers_raise_eof_witness :
  exists w',
    process_data two_unnamed_rows (typing ["Different"; "PE2"]) = (Raise EOFError, w')
    /\ stdin w' = [].
Proof.
  apply (proj1 (X7_missing_answers_raise_eof two_unnamed_rows
                  (typing ["Different"; "PE2"])
                  ltac:(intros b Hb; cbn in Hb;
                        repeat (destruct Hb as [<-|Hb]; [reflexivity|]); contradiction))).
  - intros b Hb. cbn in Hb.
    destruct Hb as [<-|[<-|[<-|[<-|[<-|[<-|[]]]]]]]; vm_compute; reflexivity.
  - vm_compute. discriminate.
  - right. exists "Different", ["PE2"]. repeat split. vm_compute. lia.
Defined.

(** X8.  In a table of ASCII names, when no name raises, some parsed batch
    lacks its editor and
    the first line typed is anything but [different], [process_data]
    returns after reading that one line, however many batches lack the
    editor: they all get the line as their editor, every other parsed
    batch keeps its record, and no other name is returned. *)
Theorem X8_one_answer_names_every_batch (df : dataframe) (w : world)
  (response : string) (rest : list string) :
  ascii_names df ->
  (forall b, In b (map Batch df) -> aborts df b = false) ->
  editorless df <> [] ->
  stdin w = response :: rest ->
  Str.lower response <> "different" ->
  exists d w',
    process_data df w = (Ok d, w')
    /\ stdin w' = rest
    /\ forall b,
         dict_get b d
         = match fst (batch_outcome df b) with
           | Ok (Some data) =>
               Some (match prime_editor data with
                     | Some _ => data
                     | None => set_prime_editor data response
                     end)
           | _ => None
           end.
Proof.
  intros _ Hok Hsome Hin Hd.
  destruct (process_data_loop df w Hok) as (st & E & Hm & _).
  pose proof (resolve_missing_cases st
                (printed w (loop_output df (unique (map Batch df))))) as Hc.
  cbv zeta in Hc. rewrite Hm, stdin_printed, Hin in Hc.
  rewrite editorless_missing in Hsome.
  destruct (missing_items df (unique (map Batch df))) as [|item m] eqn:Hitems;
    [now contradiction Hsome|].
  apply String.eqb_neq in Hd. rewrite Hd in Hc. destruct Hc as (d & Hc & _).
  rewrite Hc in E. exists d. eexists. split; [exact E|]. split; [reflexivity|].
  intros b. destruct (in_dec string_dec b (map Batch df)) as [Hb|Hb].
  - destruct (process_data_spec df w _ _ E b Hb) as (o & out & Ho & _ & Hget).
    rewrite Ho. cbn [fst]. destruct o as [data|]; [|exact Hget].
    destruct (prime_editor data) eqn:Hpe; [exact Hget|].
    destruct Hget as (pe & _ & Hpe' & Hget).
    apply String.eqb_neq in Hd. rewrite (Hpe' response rest Hin Hd) in Hget. exact Hget.
  - rewrite (batch_outcome_foreign df b Hb).
    exact (process_data_foreign df w _ _ E b Hb).
Qed.

(** X8, with two batches to name and two lines typed. *)
Lemma X8_one_answer_names_every_batch_witness :
  exists d w',
    process_data two_unnamed_rows (typing ["PEmax"; "unread"]) = (Ok d, w')
    /\ stdin w' = ["unread"]
    /\ forall b,
         dict_get b d
         = match fst (batch_outcome two_unnamed_rows b) with
           | Ok (Some data) =>
               Some (match prime_editor data with
                     | Some _ => data
                     | None => set_prime_editor data "PEmax"
                     end)
           | _ => None
           end.
Proof.
  apply (X8_one_answer_names_every_batch two_unnamed_rows (typing ["PEmax"; "unread"])
           "PEmax" ["unread"]).
  - intros b Hb. cbn in Hb. repeat (destruct Hb as [<-|Hb]; [reflexivity|]). contradiction.
  - intros b Hb. cbn in Hb.
    destruct Hb as [<-|[<-|[<-|[<-|[<-|[<-|[]]]]]]]; vm_compute; reflexivity.
  - vm_compute. discriminate.
  - reflexivity.
  - vm_compute. discriminate.
Defined.

(** After the answer [different] each batch without editor gets the line
    typed at its turn. *)
Lemma process_data_different (df : dataframe) (w : world)
  (response : string) (answers : list string) :
  (forall b, In b (map Batch df) -> aborts df b = false) ->
  editorless df <> [] ->
  stdin w = response :: answers ->
  Str.lower response = "different" ->
  (List.length (editorless df) <= List.length answers)%nat ->
  exists d w',
    process_data df w = (Ok d, w')
    /\ stdin w' = skipn (List.length (editorless df)) answers
    /\ forall i b,
         nth_error (editorless df) i = Some b ->
         exists data answer,
           fst (batch_outcome df b) = Ok (Some data)
           /\ nth_error answers i = Some answer
           /\ dict_get b d = Some (set_prime_editor data answer).
Proof.
  intros Hok Hsome Hin Hd Hlen.
  destruct (process_data_loop df w Hok) as (st & E & Hm & _).
  pose proof (resolve_missing_cases st
                (printed w (loop_output df (unique (map Batch df))))) as Hc.
  cbv zeta in Hc. rewrite Hm, stdin_printed, Hin in Hc.
  pose proof (missing_items_NoDup df) as Hnd.
  assert (Hitem : forall b data, In (b, data) (missing_items df (unique (map Batch df))) ->
                    fst (batch_outcome df b) = Ok (Some data))
    by (intros b data Hb; exact (proj1 (missing_items_outcome df (unique (map Batch df)) b data Hb))).
  rewrite editorless_missing in *. unfold dict_keys in Hlen. rewrite length_map in Hlen.
  unfold dict_keys at 1. rewrite length_map.
  destruct (missing_items df (unique (map Batch df))) as [|item m] eqn:Hitems;
    [now contradiction Hsome|].
  apply String.eqb_eq in Hd. rewrite Hd in Hc.
  apply Nat.leb_le in Hlen. rewrite Hlen in Hc. rewrite Hc in E.
  do 2 eexists. split; [exact E|]. split; [reflexivity|].
  intros i b Hi. unfold dict_keys in Hi. rewrite nth_error_map in Hi.
  destruct (nth_error (item :: m) i) as [[b' data]|] eqn:Hnth; [|discriminate].
  cbn in Hi. inversion Hi; subst b'.
  destruct (nth_error answers i) as [answer|] eqn:Ha.
  - exists data, answer. split; [apply Hitem; eapply nth_error_In; eassumption|].
    split; [reflexivity|].
    exact (answered_nth (item :: m) answers (batches st) i b data answer Hnd Hnth Ha).
  - exfalso. apply nth_error_None in Ha. apply Nat.leb_le in Hlen.
    assert (i < List.length (item :: m))%nat by (apply nth_error_Some; congruence).
    lia.
Qed.

(** X9.  In a table of ASCII names on which no name raises, after the
    answer [different] (in any letter case) the operator's next lines name the editors in the order in which the batches that lack
    one first appear in the table: the i-th such batch gets the i-th of
    these lines, and exactly as many lines are read as there are such
    batches. *)
Theorem X9_individual_answers_follow_the_table (df : dataframe) (w : world)
  (response : string) (answers : list string) :
  ascii_names df ->
  (forall b, In b (map Batch df) -> aborts df b = false) ->
  editorless df <> [] ->
  stdin w = response :: answers ->
  Str.lower response = "different" ->
  (List.length (editorless df) <= List.length answers)%nat ->
  exists d w',
    process_data df w = (Ok d, w')
    /\ stdin w' = skipn (List.length (editorless df)) answers
    /\ forall i b,
         nth_error (editorless df) i = Some b ->
         exists data answer,
           fst (batch_outcome df b) = Ok (Some data)
           /\ nth_error answers i = Some answer
           /\ dict_get b d = Some (set_prime_editor data answer).
Proof. intros _. apply process_data_different. Qed.

(** X9, with two batches to name. *)
Lemma X9_individual_answers_follow_the_table_witness :
  exists d w',
    process_data two_unnamed_rows (typing ["DIFFERENT"; "PE2"; "PEmax"; "unread"])
    = (Ok d, w')
    /\ stdin w' = skipn (List.length (editorless two_unnamed_rows)) ["PE2"; "PEmax"; "unread"]
    /\ forall i b,
         nth_error (editorless two_unnamed_rows) i = Some b ->
         exists data answer,
           fst (batch_outcome two_unnamed_rows b) = Ok (Some data)
           /\ nth_error ["PE2"; "PEmax"; "unread"] i = Some answer
           /\ dict_get b d = Some (set_prime_editor data answer).
Proof.
  apply (X9_individual_answers_follow_the_table two_unnamed_rows
           (typing ["DIFFERENT"; "PE2"; "PEmax"; "unread"]) "DIFFERENT").
  - intros b Hb. cbn in Hb. repeat (destruct Hb as [<-|Hb]; [reflexivity|]). contradiction.
  - intros b Hb. cbn in Hb.
    destruct Hb as [<-|[<-|[<-|[<-|[<-|[<-|[]]]]]]]; vm_compute; reflexivity.
  - vm_compute. discriminate.
  - reflexivity.
  - vm_compute. reflexivity.
  - vm_compute. lia.
Defined.

(** A call of [process_data] that returns has met no name that raises. *)
Lemma process_data_no_abort (df : dataframe) (w : world) d w' :
  process_data df w = (Ok d, w') ->
  forall b, In b (map Batch df) -> aborts df b = false.
Proof.
  intros Hrun. destruct (no_abort_decide df) as [(b & Hb & Ha)|Hok]; [|exact Hok].
  unfold process_data, bind in Hrun.
  destruct (batch_loop_raises df (unique (map Batch df)) (mkState [] []) w b
              (proj2 (unique_In b _) Hb) Ha) as [out E].
  rewrite E in Hrun. discriminate.
Qed.

(** C9 (as the code has it).  Every batch whose name carries no prime
    editor is returned with the operator's answer as its prime editor:
    the one answer for all, or the batch's own after the answer
    [different]; the answer is taken as typed.  Every returned batch has a
    prime editor.  After [different], the own answer of a batch is the line
    typed at its turn: the i-th batch without editor, in the order of the
    table (of ASCII names), gets the i-th line that follows. *)
Theorem C9_operator_answer_is_assigned (df : dataframe) (w : world) d w' :
  process_data df w = (Ok d, w') ->
  (forall b rec, dict_get b d = Some rec -> prime_editor rec <> None)
  /\ (forall b data out,
        batch_outcome df b = (Ok (Some data), out) ->
        prime_editor data = None ->
        exists answer,
          In answer (stdin w)
          /\ dict_get b d = Some (set_prime_editor data answer)
          /\ (forall response rest,
                stdin w = response :: rest ->
                Str.lower response <> "different" -> answer = response))
  /\ (ascii_names df ->
      forall response answers,
        stdin w = response :: answers ->
        Str.lower response = "different" ->
        forall i b,
          nth_error (editorless df) i = Some b ->
          exists data answer,
            fst (batch_outcome df b) = Ok (Some data)
            /\ prime_editor data = None
            /\ nth_error answers i = Some answer
            /\ dict_get b d = Some (set_prime_editor data answer)).
Proof.
  intros Hrun. split; [|split].
  - intros b rec Hget.
    destruct (process_data_record df w d w' b rec Hrun Hget) as (data & out & _ & Hrec).
    destruct Hrec as [[-> Hpe]|[_ (pe & -> & _)]]; [exact Hpe|discriminate].
  - intros b data out Ho Hnone.
    destruct (process_data_keeps df w d w' b data out Hrun Ho)
      as [_ [[Hpe _]|[_ (pe & Hd & Hin & Huni)]]]; [contradiction|].
    exists pe. auto.
  - intros _ response answers Hin Hd i b Hi.
    pose proof (process_data_no_abort df w d w' Hrun) as Hok.
    assert (Hsome : editorless df <> []) by (intros E; rewrite E in Hi; destruct i; discriminate).
    destruct (Nat.le_gt_cases (List.length (editorless df)) (List.length answers))
      as [Hlen|Hlen].
    + destruct (process_data_different df w response answers Hok Hsome Hin Hd Hlen)
        as (d1 & w1 & Hrun1 & _ & Hown).
      rewrite Hrun in Hrun1. inversion Hrun1; subst d1 w1.
      destruct (Hown i b Hi) as (data & answer & Ho & Ha & Hget).
      exists data, answer. split; [exact Ho|]. split; [|now split].
      apply nth_error_In in Hi. unfold editorless in Hi. apply filter_In in Hi.
      destruct Hi as [_ Hl]. unfold lacks_editor in Hl. rewrite Ho in Hl.
      destruct (prime_editor data); [discriminate|reflexivity].
    + destruct (process_data_eof df w Hok Hsome) as (w1 & Hrun1 & _).
      { right. now exists response, answers. }
      rewrite Hrun in Hrun1. discriminate.
Qed.

(** C9, on two batches without prime editor and an operator who names them
    one by one. *)
Lemma C9_operator_answer_is_assigned_witness :
  exists d w',
    process_data two_unnamed_rows (typing ["Different"; "PE2"; ""]) = (Ok d, w')
    /\ (forall b rec, dict_get b d = Some rec -> prime_editor rec <> None)
    /\ (forall i b,
          nth_error (editorless two_unnamed_rows) i = Some b ->
          exists data answer,
            fst (batch_outcome two_unnamed_rows b) = Ok (Some data)
            /\ prime_editor data = None
            /\ nth_error ["PE2"; ""] i = Some answer
            /\ dict_get b d = Some (set_prime_editor data answer)).
Proof.
  assert (Hrun : exists d w',
             process_data two_unnamed_rows (typing ["Different"; "PE2"; ""]) = (Ok d, w'))
    by (do 2 eexists; vm_compute; reflexivity).
  destruct Hrun as (d & w' & Hrun). exists d, w'. split; [exact Hrun|].
  destruct (C9_operator_answer_is_assigned two_unnamed_rows
              (typing ["Different"; "PE2"; ""]) d w' Hrun) as (Heditor & _ & Hown).
  split; [exact Heditor|].
  apply (Hown ltac:(intros b Hb; cbn in Hb;
                    repeat (destruct Hb as [<-|Hb]; [reflexivity|]); contradiction)
           "Different" ["PE2"; ""]); reflexivity.
Defined.

(* ================================================================== *)
(** ** The dialogue of [get_or_create_drug] *)
(* ================================================================== *)

Lemma select_loop_run (n : Z) (tbl : list (string * string * string))
  (cache : list (string * string)) (src : nat -> string) (drawn : nat) (fs : file_system) :
  forall inp fuel out,
    (List.length inp < fuel)%nat ->
    exists out',
      select_loop fuel n (mkWorld inp out tbl cache src drawn fs)
      = match first_accepted n inp with
        | Some (selection, rest) =>
            (Ok selection, mkWorld rest (out ++ out') tbl cache src drawn fs)
        | None => (Raise EOFError, mkWorld [] (out ++ out') tbl cache src drawn fs)
        end.
Proof.
  induction inp as [|line inp IH]; intros fuel out Hfuel.
  - destruct fuel as [|fuel]; [cbn in Hfuel; lia|].
    cbn [select_loop first_accepted]. unfold bind, input. cbn. eexists. reflexivity.
  - destruct fuel as [|fuel]; [cbn in Hfuel; lia|].
    cbn [select_loop first_accepted]. unfold bind at 1, input, with_stdout, with_stdin.
    cbn [stdin stdout drugs_table drug_cache uuid_source uuid_drawn files].
    unfold accepts.
    destruct (Str.int line) as [selection|e].
    + destruct ((0 <=? selection) && (selection <=? n)).
      * unfold ret. eexists. reflexivity.
      * unfold bind, print, with_stdout.
        cbn [stdin stdout drugs_table drug_cache uuid_source uuid_drawn files].
        match goal with
        | |- context [select_loop fuel n (mkWorld inp ?o _ _ _ _ _)] =>
            destruct (IH fuel o ltac:(cbn in Hfuel; lia)) as [out' E]
        end.
        rewrite E. rewrite <- !app_assoc. eexists. reflexivity.
    + unfold bind, print, with_stdout.
      cbn [stdin stdout drugs_table drug_cache uuid_source uuid_drawn files].
      match goal with
      | |- context [select_loop fuel n (mkWorld inp ?o _ _ _ _ _)] =>
          destruct (IH fuel o ltac:(cbn in Hfuel; lia)) as [out' E]
      end.
      rewrite E. rewrite <- !app_assoc. eexists. reflexivity.
Qed.

Lemma first_accepted_range (n : Z) (lines : list string) (selection : Z)
  (rest : list string) :
  first_accepted n lines = Some (selection, rest) ->
  0 <= selection <= n
  /\ exists skipped line,
       lines = (skipped ++ line :: rest)%list
       /\ Str.int line = Ok selection
       /\ forall l, In l skipped -> accepts n l = false.
Proof.
  induction lines as [|line lines IH]; [discriminate|].
  cbn [first_accepted]. destruct (accepts n line) eqn:Ha.
  - unfold accepts in Ha. destruct (Str.int line) as [s|e] eqn:Hs; [|discriminate].
    intros E. inversion E; subst. split; [lia|].
    exists [], line. repeat split; auto. intros l [].
  - intros E. destruct (IH E) as (Hr & skipped & l0 & Hl & Hi & Hs).
    split; [exact Hr|]. exists (line :: skipped), l0. repeat split; auto.
    + cbn. now rewrite Hl.
    + intros l [<-|Hl']; auto.
Qed.

Lemma first_accepted_skip (n : Z) (skipped : list string) (line : string)
  (rest : list string) (selection : Z) :
  (forall l, In l skipped -> accepts n l = false) ->
  Str.int line = Ok selection -> 0 <= selection <= n ->
  first_accepted n (skipped ++ line :: rest) = Some (selection, rest).
Proof.
  intros Hs Hi Hr. induction skipped as [|l skipped IH]; cbn [app first_accepted].
  - unfold accepts. rewrite Hi.
    replace ((0 <=? selection) && (selection <=? n)) with true; [reflexivity|].
    symmetry. apply andb_true_iff. split; apply Z.leb_le; lia.
  - rewrite (Hs l (or_introl eq_refl)). apply IH. intros l' Hl'. apply Hs. now right.
Qed.

Lemma first_accepted_none (n : Z) (lines : list string) :
  first_accepted n lines = None <-> forall l, In l lines -> accepts n l = false.
Proof.
  induction lines as [|line lines IH]; cbn [first_accepted].
  - split; [intros _ l []|reflexivity].
  - destruct (accepts n line) eqn:Ha.
    + split.
      * unfold accepts in Ha. destruct (Str.int line) as [s|e]; discriminate.
      * intros H. specialize (H line (or_introl eq_refl)). congruence.
    + rewrite IH. split.
      * intros H l [<-|Hl]; auto.
      * intros H l Hl. apply H. now right.
Qed.

Lemma list_lines_run {A : Type} (line : A -> string) (tbl : list (string * string * string))
  (cache : list (string * string)) (src : nat -> string) (drawn : nat) (fs : file_system) (inp : list string) :
  forall (items : list A) out,
    for_each items (fun item _ => print (line item)) tt (mkWorld inp out tbl cache src drawn fs)
    = (Ok tt, mkWorld inp (out ++ map line items) tbl cache src drawn fs).
Proof.
  induction items as [|item items IH]; intros out.
  - cbn. unfold ret. now rewrite app_nil_r.
  - cbn [for_each map]. unfold bind, print, with_stdout.
    cbn [stdin stdout drugs_table drug_cache uuid_source uuid_drawn files].
    rewrite IH, <- app_assoc. reflexivity.
Qed.

(** A cache miss, step by step: the menu, the selection, and either the
    new row or the row chosen. *)
Lemma drug_dialogue (code : string) (inp out : list string)
  (tbl : list (string * string * string)) (cache : list (string * string))
  (src : nat -> string) (drawn : nat) (fs : file_system) :
  dict_get code cache = None ->
  exists out',
    get_or_create_drug (Some code) (mkWorld inp out tbl cache src drawn fs)
    = match first_accepted (Z.of_nat (List.length tbl)) inp with
      | None => (Raise EOFError, mkWorld [] (out ++ out') tbl cache src drawn fs)
      | Some (selection, rest) =>
          if selection =? 0 then
            match rest with
            | name :: description :: rest' =>
                (Ok (src drawn),
                 mkWorld rest' (out ++ out') (tbl ++ [(src drawn, name, description)])
                   (dict_set code (src drawn) cache) src (S drawn) fs)
            | _ => (Raise EOFError, mkWorld [] (out ++ out') tbl cache src drawn fs)
            end
          else
            match nth_error tbl (Z.to_nat (selection - 1)) with
            | Some row =>
                (Ok (fst (fst row)),
                 mkWorld rest (out ++ out') tbl (dict_set code (fst (fst row)) cache)
                   src drawn fs)
            | None => (Raise IndexError, mkWorld rest (out ++ out') tbl cache src drawn fs)
            end
      end.
Proof.
  intros Hmiss. unfold get_or_create_drug.
  unfold bind at 1, read_cache. cbn [drug_cache]. rewrite Hmiss.
  unfold bind at 1, select_drugs. cbn [drugs_table].
  unfold bind at 1. rewrite print_printed.
  unfold bind at 1. rewrite print_printed.
  unfold bind at 1. rewrite print_printed.
  unfold printed, with_stdout. cbn [stdin stdout drugs_table drug_cache uuid_source uuid_drawn files].
  unfold bind at 1. rewrite list_lines_run.
  unfold bind at 1, select_number. cbn [stdin]. rewrite length_map.
  match goal with
  | |- context [select_loop ?f ?n (mkWorld inp ?o _ _ _ _ _)] =>
      destruct (select_loop_run n tbl cache src drawn fs inp f o ltac:(lia)) as [out1 E]
  end.
  rewrite E. clear E.
  destruct (first_accepted (Z.of_nat (List.length tbl)) inp) as [[selection rest]|];
    [|rewrite <- !app_assoc; eexists; reflexivity].
  destruct (selection =? 0).
  - unfold bind at 1 2, input, with_stdout, with_stdin.
    cbn [stdin stdout drugs_table drug_cache uuid_source uuid_drawn files].
    destruct rest as [|name rest]; [rewrite <- !app_assoc; eexists; reflexivity|].
    unfold bind at 1, input, with_stdout, with_stdin.
    cbn [stdin stdout drugs_table drug_cache uuid_source uuid_drawn files].
    destruct rest as [|description rest]; [rewrite <- !app_assoc; eexists; reflexivity|].
    unfold bind, uuid4, insert_drug, write_cache, ret, with_drugs.
    cbn [stdin stdout drugs_table drug_cache uuid_source uuid_drawn files].
    rewrite <- !app_assoc. eexists. reflexivity.
  - rewrite nth_error_map.
    destruct (nth_error tbl (Z.to_nat (selection - 1))) as [row|]; cbn [option_map].
    + unfold bind, write_cache, ret, with_drugs.
      cbn [stdin stdout drugs_table drug_cache uuid_source uuid_drawn files].
      rewrite <- !app_assoc. eexists. reflexivity.
    + unfold bind, raise. rewrite <- !app_assoc. eexists. reflexivity.
Qed.

Lemma cache_hit (code id : string) (w : world) :
  dict_get code (drug_cache w) = Some id ->
  get_or_create_drug (Some code) w = (Ok id, w).
Proof.
  intros H. unfold get_or_create_drug, bind, read_cache. now rewrite H.
Qed.

(** Every way a call with a treatment code can end. *)
Lemma get_or_create_drug_cases (code : string) (w : world) :
  let n := Z.of_nat (List.length (drugs_table w)) in
  (exists id, dict_get code (drug_cache w) = Some id
              /\ get_or_create_drug (Some code) w = (Ok id, w))
  \/ (dict_get code (drug_cache w) = None
      /\ exists w',
           stdin w' = [] /\ drugs_table w' = drugs_table w
           /\ drug_cache w' = drug_cache w /\ uuid_drawn w' = uuid_drawn w
           /\ uuid_source w' = uuid_source w
           /\ get_or_create_drug (Some code) w = (Raise EOFError, w')
           /\ (first_accepted n (stdin w) = None
               \/ exists rest, first_accepted n (stdin w) = Some (0, rest)
                               /\ (List.length rest < 2)%nat))
  \/ (dict_get code (drug_cache w) = None
      /\ exists name description rest w',
           first_accepted n (stdin w) = Some (0, name :: description :: rest)
           /\ stdin w' = rest
           /\ drugs_table w'
              = (drugs_table w ++ [(uuid_source w (uuid_drawn w), name, description)])%list
           /\ drug_cache w' = dict_set code (uuid_source w (uuid_drawn w)) (drug_cache w)
           /\ uuid_drawn w' = S (uuid_drawn w)
           /\ uuid_source w' = uuid_source w
           /\ get_or_create_drug (Some code) w = (Ok (uuid_source w (uuid_drawn w)), w'))
  \/ (dict_get code (drug_cache w) = None
      /\ exists selection rest id name description w',
           first_accepted n (stdin w) = Some (selection, rest)
           /\ 1 <= selection <= n
           /\ nth_error (drugs_table w) (Z.to_nat (selection - 1))
              = Some (id, name, description)
           /\ stdin w' = rest
           /\ drugs_table w' = drugs_table w
           /\ drug_cache w' = dict_set code id (drug_cache w)
           /\ uuid_drawn w' = uuid_drawn w
           /\ uuid_source w' = uuid_source w
           /\ get_or_create_drug (Some code) w = (Ok id, w')).
Proof.
  cbv zeta. destruct (dict_get code (drug_cache w)) as [id|] eqn:Hc.
  { left. exists id. split; [reflexivity|]. now apply cache_hit. }
  right. destruct w as [inp out tbl cache src drawn fs].
  cbn [stdin stdout drugs_table drug_cache uuid_source uuid_drawn files] in *.
  destruct (drug_dialogue code inp out tbl cache src drawn fs Hc) as [out' E].
  destruct (first_accepted (Z.of_nat (List.length tbl)) inp) as [[selection rest]|] eqn:Hf.
  - destruct (first_accepted_range _ _ _ _ Hf) as (Hr & _).
    destruct (selection =? 0) eqn:H0.
    + apply Z.eqb_eq in H0. subst selection.
      destruct rest as [|name [|description rest]].
      * left. split; [reflexivity|].
        exists (mkWorld [] (out ++ out') tbl cache src drawn fs).
        repeat split; try reflexivity; try exact E.
        right. exists []. split; [reflexivity|cbn; lia].
      * left. split; [reflexivity|].
        exists (mkWorld [] (out ++ out') tbl cache src drawn fs).
        repeat split; try reflexivity; try exact E.
        right. exists [name]. split; [reflexivity|cbn; lia].
      * right. left. split; [reflexivity|].
        exists name, description, rest.
        exists (mkWorld rest (out ++ out') (tbl ++ [(src drawn, name, description)])
                  (dict_set code (src drawn) cache) src (S drawn) fs).
        repeat split; try reflexivity; exact E.
    + apply Z.eqb_neq in H0.
      destruct (nth_error tbl (Z.to_nat (selection - 1))) as [[[id name] description]|] eqn:Hn.
      * right. right. split; [reflexivity|].
        exists selection, rest, id, name, description.
        exists (mkWorld rest (out ++ out') tbl (dict_set code id cache) src drawn fs).
        split; [reflexivity|]. split; [lia|]. split; [exact Hn|].
        repeat split; try reflexivity; exact E.
      * exfalso. apply nth_error_None in Hn. lia.
  - left. split; [reflexivity|].
    exists (mkWorld [] (out ++ out') tbl cache src drawn fs).
    repeat split; try reflexivity; try exact E. now left.
Qed.

Lemma cache_persists (other : option string) (w w' : world) (r : result string)
  (code id : string) :
  get_or_create_drug other w = (r, w') ->
  dict_get code (drug_cache w) = Some id ->
  dict_get code (drug_cache w') = Some id.
Proof.
  intros Hrun Hc. destruct other as [c|]; [|inversion Hrun; now subst].
  destruct (get_or_create_drug_cases c w)
    as [(id' & _ & E)
       |[(_ & w1 & _ & _ & Hcache & _ & _ & E & _)
        |[(Hmiss & name & description & rest & w1 & _ & _ & _ & Hcache & _ & _ & E)
         |(Hmiss & selection & rest & id' & name & description & w1 & _ & _ & _ & _ & _
                 & Hcache & _ & _ & E)]]];
    rewrite E in Hrun; inversion Hrun; subst; try assumption.
  - now rewrite Hcache.
  - rewrite Hcache, dict_get_set_other; [assumption|]. intros <-. congruence.
  - rewrite Hcache, dict_get_set_other; [assumption|]. intros <-. congruence.
Qed.

(** X10.  The operator is asked about a treatment code once: when
    [get_or_create_drug] has returned an id for a code, every later call
    with that code -- directly after, or after a call for any other code,
    successful or not -- returns the same id without printing, reading or
    writing anything. *)
Theorem X10_treatment_is_asked_once (code : option string) (w w' : world) (id : string) :
  get_or_create_drug code w = (Ok id, w') ->
  get_or_create_drug code w' = (Ok id, w')
  /\ forall other r w'',
       get_or_create_drug other w' = (r, w'') ->
       get_or_create_drug code w'' = (Ok id, w'').
Proof.
  intros Hrun. destruct code as [code|].
  - assert (Hc : dict_get code (drug_cache w') = Some id).
    { destruct (get_or_create_drug_cases code w)
        as [(id' & Hhit & E)
           |[(_ & w1 & _ & _ & _ & _ & _ & E & _)
            |[(_ & name & description & rest & w1 & _ & _ & _ & Hcache & _ & _ & E)
             |(_ & selection & rest & id' & name & description & w1 & _ & _ & _ & _ & _
                 & Hcache & _ & _ & E)]]];
        rewrite E in Hrun; inversion Hrun; subst; try assumption.
      - rewrite Hcache. apply dict_get_set_same.
      - rewrite Hcache. apply dict_get_set_same. }
    split; [now apply cache_hit|].
    intros other r w'' Hother. apply cache_hit.
    exact (cache_persists other w' w'' r code id Hother Hc).
  - cbn in Hrun. inversion Hrun; subst. split; [reflexivity|]. intros; reflexivity.
Qed.

(** X10, with the operator choosing the second drug listed. *)
Lemma X10_treatment_is_asked_once_witness :
  get_or_create_drug (Some "dex") (snd (get_or_create_drug (Some "dex") (drug_world ["2"])))
  = (Ok "id-dex", snd (get_or_create_drug (Some "dex") (drug_world ["2"])))
  /\ forall other r w'',
       get_or_create_drug other (snd (get_or_create_drug (Some "dex") (drug_world ["2"])))
       = (r, w'') ->
       get_or_create_drug (Some "dex") w'' = (Ok "id-dex", w'').
Proof.
  apply (X10_treatment_is_asked_once (Some "dex") (drug_world ["2"])).
  vm_compute. reflexivity.
Defined.

(** X11.  With a cache that holds ids of the [drugs] table only, the id
    returned for a treatment code is the id of a row of the table as the
    call leaves it, and the cache still holds such ids only.  The call
    leaves the table as it was or appends one row that carries the returned
    id; no row is changed or removed. *)
Theorem X11_returned_id_names_a_drug (code : string) (w w' : world) (id : string) :
  cache_sound w ->
  get_or_create_drug (Some code) w = (Ok id, w') ->
  In id (drug_ids w')
  /\ cache_sound w'
  /\ (drugs_table w' = drugs_table w
      \/ exists name description,
           drugs_table w' = (drugs_table w ++ [(id, name, description)])%list).
Proof.
  intros Hsound Hrun.
  destruct (get_or_create_drug_cases code w)
    as [(id' & Hhit & E)
       |[(_ & w1 & _ & _ & _ & _ & _ & E & _)
        |[(_ & name & description & rest & w1 & _ & _ & Htable & Hcache & _ & _ & E)
         |(_ & selection & rest & id' & name & description & w1 & _ & _ & Hnth & _ & Htable
             & Hcache & _ & _ & E)]]];
    rewrite E in Hrun; inversion Hrun; subst.
  - split; [exact (Hsound code id Hhit)|]. split; [exact Hsound|now left].
  - assert (Hid : In (uuid_source w (uuid_drawn w)) (drug_ids w')).
    { unfold drug_ids. rewrite Htable, map_app, in_app_iff. right. now left. }
    split; [exact Hid|]. split; [|right; eauto].
    intros c i. rewrite Hcache.
    destruct (string_dec code c) as [<-|Hne].
    + rewrite dict_get_set_same. intros Hi. inversion Hi; subst. exact Hid.
    + rewrite dict_get_set_other by exact Hne. intros Hi.
      unfold drug_ids. rewrite Htable, map_app, in_app_iff. left.
      exact (Hsound c i Hi).
  - assert (Hid : In id (drug_ids w')).
    { unfold drug_ids. rewrite Htable.
      change id with ((fun r : string * string * string => fst (fst r)) (id, name, description)).
      apply in_map. eapply nth_error_In. exact Hnth. }
    split; [exact Hid|]. split; [|now left].
    intros c i. rewrite Hcache.
    destruct (string_dec code c) as [<-|Hne].
    + rewrite dict_get_set_same. intros Hi. inversion Hi; subst. exact Hid.
    + rewrite dict_get_set_other by exact Hne. intros Hi.
      unfold drug_ids. rewrite Htable. exact (Hsound c i Hi).
Qed.

(** X11, with the operator creating a drug after two rejected lines. *)
Lemma X11_returned_id_names_a_drug_witness :
  In "uuid-0" (drug_ids (snd (get_or_create_drug (Some "dex")
                                (drug_world ["two"; "3"; "0"; "Dexamethasone"; "10 uM"]))))
  /\ cache_sound (snd (get_or_create_drug (Some "dex")
                         (drug_world ["two"; "3"; "0"; "Dexamethasone"; "10 uM"])))
  /\ (drugs_table (snd (get_or_create_drug (Some "dex")
                          (drug_world ["two"; "3"; "0"; "Dexamethasone"; "10 uM"])))
      = drugs_table (drug_world ["two"; "3"; "0"; "Dexamethasone"; "10 uM"])
      \/ exists name description,
           drugs_table (snd (get_or_create_drug (Some "dex")
                               (drug_world ["two"; "3"; "0"; "Dexamethasone"; "10 uM"])))
           = (drugs_table (drug_world ["two"; "3"; "0"; "Dexamethasone"; "10 uM"])
                ++ [("uuid-0", name, description)])%list).
Proof.
  apply (X11_returned_id_names_a_drug "dex"
           (drug_world ["two"; "3"; "0"; "Dexamethasone"; "10 uM"])).
  - intros c i Hi. discriminate Hi.
  - vm_compute. reflexivity.
Defined.

(** X12.  A call of [get_or_create_drug] fails only with [EOFError], when
    the operator's lines run out -- never with [IndexError], since a
    selection is accepted only within the list shown -- and a failed call
    leaves the [drugs] table, the cache and the ids drawn as they were: a
    drug is inserted only after its name and description were both read. *)
Theorem X12_failed_dialogue_changes_nothing (code : option string) (w w' : world)
  (e : exn) :
  get_or_create_drug code w = (Raise e, w') ->
  e = EOFError /\ stdin w' = []
  /\ drugs_table w' = drugs_table w /\ drug_cache w' = drug_cache w
  /\ uuid_drawn w' = uuid_drawn w.
Proof.
  intros Hrun. destruct code as [code|]; [|discriminate].
  destruct (get_or_create_drug_cases code w)
    as [(id' & Hhit & E)
       |[(_ & w1 & Hin & Htable & Hcache & Hdrawn & _ & E & _)
        |[(_ & name & description & rest & w1 & _ & _ & _ & _ & _ & _ & E)
         |(_ & selection & rest & id' & name & description & w1 & _ & _ & _ & _ & _
             & _ & _ & _ & E)]]];
    rewrite E in Hrun; inversion Hrun; subst.
  auto.
Qed.

(** X12, with the operator leaving after the name of the new drug. *)
Lemma X12_failed_dialogue_changes_nothing_witness :
  EOFError = EOFError
  /\ stdin (snd (get_or_create_drug (Some "dex") (drug_world ["0"; "Dexamethasone"]))) = []
  /\ drugs_table (snd (get_or_create_drug (Some "dex") (drug_world ["0"; "Dexamethasone"])))
     = drugs_table (drug_world ["0"; "Dexamethasone"])
  /\ drug_cache (snd (get_or_create_drug (Some "dex") (drug_world ["0"; "Dexamethasone"])))
     = drug_cache (drug_world ["0"; "Dexamethasone"])
  /\ uuid_drawn (snd (get_or_create_drug (Some "dex") (drug_world ["0"; "Dexamethasone"])))
     = uuid_drawn (drug_world ["0"; "Dexamethasone"]).
Proof.
  apply (X12_failed_dialogue_changes_nothing (Some "dex")
           (drug_world ["0"; "Dexamethasone"])).
  vm_compute. reflexivity.
Defined.

(** X13.  For a code the cache does not hold and lines of ASCII text, the
    first line typed that is a number within the list shown decides: lines
    before it are rejected and read over; a number [k >= 1] returns the id of the k-th row of the
    table and leaves the table alone; [0] reads a name and a description,
    appends a row with a fresh id and returns that id.  In both cases the
    code is cached with the id. *)
Theorem X13_first_valid_line_decides (code : string) (w : world)
  (skipped : list string) (line : string) (rest : list string) (selection : Z) :
  dict_get code (drug_cache w) = None ->
  stdin w = (skipped ++ line :: rest)%list ->
  (forall l, In l (skipped ++ [line])%list -> Str.is_ascii l = true) ->
  (forall l, In l skipped -> accepts (Z.of_nat (List.length (drugs_table w))) l = false) ->
  Str.int line = Ok selection ->
  0 <= selection <= Z.of_nat (List.length (drugs_table w)) ->
  (1 <= selection ->
   exists id name description w',
     nth_error (drugs_table w) (Z.to_nat (selection - 1)) = Some (id, name, description)
     /\ get_or_create_drug (Some code) w = (Ok id, w')
     /\ stdin w' = rest /\ drugs_table w' = drugs_table w
     /\ dict_get code (drug_cache w') = Some id)
  /\ (selection = 0 ->
      forall name description rest',
        rest = name :: description :: rest' ->
        exists w',
          get_or_create_drug (Some code) w = (Ok (uuid_source w (uuid_drawn w)), w')
          /\ stdin w' = rest'
          /\ drugs_table w'
             = (drugs_table w ++ [(uuid_source w (uuid_drawn w), name, description)])%list
          /\ dict_get code (drug_cache w') = Some (uuid_source w (uuid_drawn w))).
Proof.
  intros Hmiss Hin _ Hskip Hline Hrange.
  pose proof (first_accepted_skip _ skipped line rest selection Hskip Hline Hrange) as Hf.
  rewrite <- Hin in Hf.
  destruct (get_or_create_drug_cases code w)
    as [(id' & Hhit & _)
       |[(_ & w1 & _ & _ & _ & _ & _ & E & Hnone)
        |[(_ & name & description & rest1 & w1 & Hf1 & Hin1 & Htable & Hcache & _ & _ & E)
         |(_ & sel & rest1 & id' & name & description & w1 & Hf1 & Hsel & Hnth & Hin1
             & Htable & Hcache & _ & _ & E)]]];
    [congruence| | |].
  - split.
    + intros Hpos. destruct Hnone as [Hnone|(rest1 & Hf1 & _)]; [congruence|].
      rewrite Hf in Hf1. inversion Hf1. lia.
    + intros -> name description rest' ->.
      destruct Hnone as [Hnone|(rest1 & Hf1 & Hlen)]; [congruence|].
      rewrite Hf in Hf1. inversion Hf1; subst. cbn in Hlen. lia.
  - rewrite Hf in Hf1. inversion Hf1; subst. split; [lia|].
    intros _ name' description' rest' Hrest. inversion Hrest; subst.
    exists w1. repeat split; auto. rewrite Hcache. apply dict_get_set_same.
  - rewrite Hf in Hf1. inversion Hf1; subst. split; [|lia].
    intros _. exists id', name, description, w1. repeat split; auto.
    rewrite Hcache. apply dict_get_set_same.
Qed.

(** X13, with the operator choosing the second drug after two rejected
    lines. *)
Lemma X13_first_valid_line_decides_witness :
  (1 <= 2 ->
   exists id name description w',
     nth_error (drugs_table (drug_world ["two"; "3"; "2"; "unread"])) (Z.to_nat (2 - 1))
     = Some (id, name, description)
     /\ get_or_create_drug (Some "dex") (drug_world ["two"; "3"; "2"; "unread"]) = (Ok id, w')
     /\ stdin w' = ["unread"]
     /\ drugs_table w' = drugs_table (drug_world ["two"; "3"; "2"; "unread"])
     /\ dict_get "dex" (drug_cache w') = Some id)
  /\ (2 = 0 ->
      forall name description rest',
        ["unread"] = name :: description :: rest' ->
        exists w',
          get_or_create_drug (Some "dex") (drug_world ["two"; "3"; "2"; "unread"])
          = (Ok (uuid_source (drug_world ["two"; "3"; "2"; "unread"])
                   (uuid_drawn (drug_world ["two"; "3"; "2"; "unread"]))), w')
          /\ stdin w' = rest'
          /\ drugs_table w'
             = (drugs_table (drug_world ["two"; "3"; "2"; "unread"])
                  ++ [(uuid_source (drug_world ["two"; "3"; "2"; "unread"])
                         (uuid_drawn (drug_world ["two"; "3"; "2"; "unread"])),
                       name, description)])%list
          /\ dict_get "dex" (drug_cache w')
             = Some (uuid_source (drug_world ["two"; "3"; "2"; "unread"])
                       (uuid_drawn (drug_world ["two"; "3"; "2"; "unread"])))).
Proof.
  apply (X13_first_valid_line_decides "dex" (drug_world ["two"; "3"; "2"; "unread"])
           ["two"; "3"] "2" ["unread"] 2).
  - reflexivity.
  - reflexivity.
  - intros l [<-|[<-|[<-|[]]]]; reflexivity.
  - intros l [<-|[<-|[]]]; vm_compute; reflexivity.
  - vm_compute. reflexivity.
  - vm_compute. split; discriminate.
Defined.

(* ================================================================== *)
(** ** The three loops of [create_heatmaps] *)
(* ================================================================== *)

(** A loop that returns has gathered what each of its rounds gathers: the
    items kept, the lines printed and the files saved. *)
Lemma for_each_collect {A B : Type} (f : A -> list B) (line names : A -> list string)
  (body : A -> list B -> M (list B)) (xs : list A) :
  (forall x acc w acc' w',
      body x acc w = (Ok acc', w') ->
      acc' = (acc ++ f x)%list /\ stdout w' = (stdout w ++ line x)%list
      /\ saved (files w') = (saved (files w) ++ names x)%list) ->
  forall acc w acc' w',
    for_each xs body acc w = (Ok acc', w') ->
    acc' = (acc ++ flat_map f xs)%list
    /\ stdout w' = (stdout w ++ flat_map line xs)%list
    /\ saved (files w') = (saved (files w) ++ flat_map names xs)%list.
Proof.
  intros Hbody. induction xs as [|x xs IH]; intros acc w acc' w' Hrun.
  - cbn in Hrun. inversion Hrun; subst. cbn [flat_map]. now rewrite !app_nil_r.
  - cbn [for_each] in Hrun. apply bind_ok in Hrun. destruct Hrun as (a & w0 & Hx & Hrun).
    destruct (Hbody _ _ _ _ _ Hx) as (-> & Hout & Hsaved).
    destruct (IH _ _ _ _ Hrun) as (-> & Hout' & Hsaved').
    cbn [flat_map]. rewrite Hout', Hout, Hsaved', Hsaved, !app_assoc. auto.
Qed.

(** A loop returns when each of its rounds does, under a condition on the
    world that the rounds keep. *)
Lemma for_each_returns {A S : Type} (P : world -> Prop) (body : A -> S -> M S)
  (xs : list A) :
  (forall x s w, P w -> exists s' w', body x s w = (Ok s', w') /\ P w') ->
  forall s w, P w -> exists s' w', for_each xs body s w = (Ok s', w') /\ P w'.
Proof.
  intros Hbody. induction xs as [|x xs IH]; intros s w Hw.
  - exists s, w. now split.
  - cbn [for_each]. unfold bind.
    destruct (Hbody x s w Hw) as (s1 & w1 & E & Hw1). rewrite E. now apply IH.
Qed.

Lemma flat_map_singleton {A B : Type} (f : A -> B) (xs : list A) :
  flat_map (fun x => [f x]) xs = map f xs.
Proof. induction xs as [|x xs IH]; cbn; [reflexivity|now rewrite IH]. Qed.

Lemma flat_map_map {A B C : Type} (g : A -> B) (f : B -> list C) (xs : list A) :
  flat_map f (map g xs) = flat_map (fun x => f (g x)) xs.
Proof. induction xs as [|x xs IH]; cbn; [reflexivity|now rewrite IH]. Qed.

Lemma flat_map_flat_map {A B C : Type} (g : A -> list B) (f : B -> list C) (xs : list A) :
  flat_map f (flat_map g xs) = flat_map (fun x => flat_map f (g x)) xs.
Proof.
  induction xs as [|x xs IH]; cbn; [reflexivity|]. now rewrite flat_map_app, IH.
Qed.

Lemma map_of_flat_map {A B C : Type} (g : A -> list B) (f : B -> C) (xs : list A) :
  map f (flat_map g xs) = flat_map (fun x => map f (g x)) xs.
Proof.
  induction xs as [|x xs IH]; cbn; [reflexivity|]. now rewrite map_app, IH.
Qed.

Lemma ensure_directory_world (path : string) (w : world) (r : result unit) (w' : world) :
  ensure_directory path w = (r, w') -> w' = w.
Proof.
  unfold ensure_directory. destruct (path_exists (files w) path); intros E; now inversion E.
Qed.

(** The figures, the lines and the files of a call of [create_heatmaps]
    that returns. *)
Lemma create_heatmaps_figures (data : averaged) (prime_editors : list string)
  (drugs : dict string string) (exp_name exp_variant : string) (normalize : bool)
  (run_info : string) (w : world) (figures : list heatmap) (w' : world) :
  create_heatmaps data prime_editors drugs exp_name exp_variant normalize run_info w
  = (Ok figures, w') ->
  figures = flat_map (figure_of data exp_name exp_variant run_info normalize)
              (all_keys prime_editors drugs)
  /\ stdout w' = (stdout w ++ map (line_of data exp_name exp_variant run_info normalize)
                               (all_keys prime_editors drugs))%list
  /\ saved (files w') = (saved (files w) ++ map hm_filename figures)%list.
Proof.
  unfold create_heatmaps, all_keys. intros Hrun.
  apply bind_ok in Hrun. destruct Hrun as (u & wd & Hdir & Hrun).
  apply ensure_directory_world in Hdir. subst wd.
  set (fig := figure_of data exp_name exp_variant run_info normalize).
  set (lin := line_of data exp_name exp_variant run_info normalize).
  edestruct (for_each_collect
               (fun editor =>
                  flat_map fig
                    (flat_map (fun drug_name => map (fun metric => (editor, drug_name, metric))
                                                  metrics) (dict_values drugs)))
               (fun editor =>
                  map lin
                    (flat_map (fun drug_name => map (fun metric => (editor, drug_name, metric))
                                                  metrics) (dict_values drugs)))
               (fun editor =>
                  map hm_filename
                    (flat_map fig
                       (flat_map (fun drug_name =>
                                    map (fun metric => (editor, drug_name, metric)) metrics)
                          (dict_values drugs))))) as (Hf & Ho & Hs); [|exact Hrun|].
  - intros editor acc w0 acc' w0' Hx.
    edestruct (for_each_collect
                 (fun drug_name =>
                    flat_map fig (map (fun metric => (editor, drug_name, metric)) metrics))
                 (fun drug_name =>
                    map lin (map (fun metric => (editor, drug_name, metric)) metrics))
                 (fun drug_name =>
                    map hm_filename
                      (flat_map fig
                         (map (fun metric => (editor, drug_name, metric)) metrics))))
      as (Hf & Ho & Hs); [|exact Hx|].
    + intros drug_name acc1 w1 acc1' w1' Hy.
      edestruct (for_each_collect
                   (fun metric => fig (editor, drug_name, metric))
                   (fun metric => [lin (editor, drug_name, metric)])
                   (fun metric => map hm_filename (fig (editor, drug_name, metric))))
        as (Hf & Ho & Hs); [|exact Hy|].
      * intros metric acc2 w2 acc2' w2' Hz.
        unfold fig, lin, figure_of, line_of, heatmap_file, output_dir_of.
        cbv zeta in Hz. cbv zeta. cbn [fst snd]. unfold agg_key, position, dict in *.
        match goal with
        | |- context [@dict_get ?K ?V ?I ?k data] =>
            destruct (@dict_get K V I k data) as [[|cell cells]|]
        end.
        -- unfold bind in Hz. rewrite print_printed in Hz. inversion Hz; subst.
           cbn [map]. unfold printed, with_stdout. cbn [stdout files].
           now rewrite !app_nil_r.
        -- destruct (build_matrix (cell :: cells)) as [[pbs_values rtt_values] matrix].
           apply bind_ok in Hz. destruct Hz as (u' & ws & Hsave & Hz).
           unfold bind in Hz. rewrite print_printed in Hz. inversion Hz; subst.
           unfold save_figure in Hsave.
           match type of Hsave with
           | context [savefig ?a ?b ?c ?d ?e ?f ?g] =>
               destruct (savefig a b c d e f g); inversion Hsave; subst; clear Hsave
           end.
           unfold printed, with_stdout, with_files. cbn [stdout files saved map hm_filename].
           auto.
        -- unfold bind in Hz. rewrite print_printed in Hz. inversion Hz; subst.
           cbn [map]. unfold printed, with_stdout. cbn [stdout files].
           now rewrite !app_nil_r.
      * rewrite Hf, Ho, Hs. unfold metrics. cbn [flat_map map app].
        now rewrite !app_nil_r, !map_app.
    + rewrite Hf, Ho, Hs. repeat split.
      * now rewrite flat_map_flat_map.
      * now rewrite map_of_flat_map.
      * now rewrite flat_map_flat_map, map_of_flat_map.
  - rewrite Hs, Ho, Hf. cbn [app]. repeat split.
    + now rewrite flat_map_flat_map.
    + now rewrite map_of_flat_map.
    + now rewrite map_of_flat_map.
Qed.

(** [create_heatmaps] returns when the directory is there or can be made
    and every figure can be saved. *)
Lemma create_heatmaps_returns (data : averaged) (prime_editors : list string)
  (drugs : dict string string) (exp_name exp_variant : string) (normalize : bool)
  (run_info : string) (w : world) :
  (path_exists (files w) (output_dir_of exp_name exp_variant run_info) = true
   \/ makedirs (files w) (output_dir_of exp_name exp_variant run_info) = Ok tt) ->
  (forall before key pbs_values rtt_values matrix filename,
      savefig (files w) before key pbs_values rtt_values matrix filename = Ok tt) ->
  exists figures w',
    create_heatmaps data prime_editors drugs exp_name exp_variant normalize run_info w
    = (Ok figures, w').
Proof.
  intros Hdir Hsave. unfold create_heatmaps.
  fold (output_dir_of exp_name exp_variant run_info).
  unfold bind at 1.
  assert (E : ensure_directory (output_dir_of exp_name exp_variant run_info) w = (Ok tt, w)).
  { unfold ensure_directory.
    destruct (path_exists (files w) (output_dir_of exp_name exp_variant run_info)) eqn:Ex;
      [reflexivity|].
    destruct Hdir as [Hdir|Hdir]; [discriminate|now rewrite Hdir]. }
  rewrite E.
  set (P := fun w0 : world => savefig (files w0) = savefig (files w)).
  assert (Hloop : forall (A S : Type) (body : A -> S -> M S) (xs : list A),
             (forall x s w0, P w0 -> exists s' w1, body x s w0 = (Ok s', w1) /\ P w1) ->
             forall s w0, P w0 -> exists s' w1, for_each xs body s w0 = (Ok s', w1) /\ P w1)
    by (intros A S body xs; apply for_each_returns).
  destruct (Hloop _ _
              (fun editor acc =>
                 for_each (dict_values drugs)
                   (fun drug_name acc =>
                      for_each metrics
                        (fun metric acc =>
                           let key := (editor, drug_name, metric) in
                           match dict_get key data with
                           | Some ((_ :: _) as cells) =>
                               let '(pbs_values, rtt_values, matrix) := build_matrix cells in
                               let filename :=
                                 output_dir_of exp_name exp_variant run_info ++ "/" ++ editor
                                 ++ "_" ++ metric ++ "_" ++ drug_name
                                 ++ (if normalize then "_normalized" else "") ++ ".svg" in
                               save_figure key pbs_values rtt_values matrix filename ;;;
                               print ("Saved heatmap to " ++ filename) ;;;
                               ret (acc ++ [mkHeatmap key pbs_values rtt_values matrix
                                              filename])%list
                           | _ =>
                               print (str_of_key key ++ " key not found in data, continuing") ;;;
                               ret acc
                           end)
                        acc)
                   acc)
              prime_editors) with (s := @nil heatmap) (w0 := w) as (figures & w' & Hrun & _).
  - intros editor acc w0 Hw0. apply Hloop; [|exact Hw0].
    intros drug_name acc1 w1 Hw1. apply Hloop; [|exact Hw1].
    intros metric acc2 w2 Hw2. cbv zeta.
    destruct (dict_get (editor, drug_name, metric) data) as [[|cell cells]|].
    + unfold bind. rewrite print_printed. do 2 eexists. split; [reflexivity|exact Hw2].
    + destruct (build_matrix (cell :: cells)) as [[pbs_values rtt_values] matrix].
      unfold bind, save_figure. unfold P in Hw2. rewrite Hw2, Hsave.
      rewrite print_printed. do 2 eexists. split; [reflexivity|].
      unfold P, printed, with_stdout, with_files. cbn [files savefig]. reflexivity.
    + unfold bind. rewrite print_printed. do 2 eexists. split; [reflexivity|exact Hw2].
  - reflexivity.
  - exists figures, w'. exact Hrun.
Qed.

(** When the directory is missing and cannot be made, the exception of
    [os.makedirs] ends the call before anything is printed. *)
Lemma create_heatmaps_no_directory (data : averaged) (prime_editors : list string)
  (drugs : dict string string) (exp_name exp_variant : string) (normalize : bool)
  (run_info : string) (w : world) (e : exn) :
  path_exists (files w) (output_dir_of exp_name exp_variant run_info) = false ->
  makedirs (files w) (output_dir_of exp_name exp_variant run_info) = Raise e ->
  create_heatmaps data prime_editors drugs exp_name exp_variant normalize run_info w
  = (Raise e, w).
Proof.
  intros Hex Hmk. unfold create_heatmaps.
  fold (output_dir_of exp_name exp_variant run_info).
  unfold bind at 1. unfold ensure_directory. now rewrite Hex, Hmk.
Qed.

Lemma all_keys_In (prime_editors : list string) (drugs : dict string string)
  (editor drug_name metric : string) :
  In (editor, drug_name, metric) (all_keys prime_editors drugs)
  <-> In editor prime_editors /\ In drug_name (dict_values drugs) /\ In metric metrics.
Proof.
  unfold all_keys. rewrite in_flat_map. split.
  - intros (e & He & Hin). apply in_flat_map in Hin. destruct Hin as (d & Hd & Hin).
    apply in_map_iff in Hin. destruct Hin as (m & Heq & Hm). inversion Heq; subst. auto.
  - intros (He & Hd & Hm). exists editor. split; [assumption|].
    apply in_flat_map. exists drug_name. split; [assumption|].
    apply in_map_iff. now exists metric.
Qed.

Lemma flat_map_length_const {A B : Type} (f : A -> list B) (n : nat) (xs : list A) :
  (forall x, List.length (f x) = n) ->
  List.length (flat_map f xs) = (n * List.length xs)%nat.
Proof.
  intros Hf. induction xs as [|x xs IH]; cbn [flat_map List.length]; [lia|].
  rewrite length_app, Hf, IH. lia.
Qed.

Lemma all_keys_length (prime_editors : list string) (drugs : dict string string) :
  List.length (all_keys prime_editors drugs)
  = (3 * List.length prime_editors * List.length drugs)%nat.
Proof.
  unfold all_keys.
  rewrite (flat_map_length_const _ (3 * List.length drugs)%nat).
  - lia.
  - intros editor. rewrite (flat_map_length_const _ 3%nat).
    + unfold dict_values. now rewrite length_map.
    + intros drug_name. reflexivity.
Qed.

Lemma figures_spec (data : averaged) (prime_editors : list string)
  (drugs : dict string string) (exp_name exp_variant : string) (normalize : bool)
  (run_info : string) (figure : heatmap) :
  In figure (flat_map (figure_of data exp_name exp_variant run_info normalize)
               (all_keys prime_editors drugs))
  <-> exists editor drug_name metric cells,
        In editor prime_editors /\ In drug_name (dict_values drugs)
        /\ In metric metrics
        /\ dict_get (editor, drug_name, metric) data = Some cells /\ cells <> []
        /\ hm_key figure = (editor, drug_name, metric)
        /\ build_matrix cells
           = (hm_pbs_values figure, hm_rtt_values figure, hm_matrix figure)
        /\ hm_filename figure
           = heatmap_file exp_name exp_variant run_info normalize
               (editor, drug_name, metric).
Proof.
  rewrite in_flat_map. split.
  - intros ([[editor drug_name] metric] & Hkey & Hfig).
    apply all_keys_In in Hkey. destruct Hkey as (He & Hd & Hm).
    unfold figure_of in Hfig.
    match type of Hfig with
    | context [@dict_get ?K ?V ?I ?k data] =>
        destruct (@dict_get K V I k data) as [[|cell cells]|] eqn:Hget
    end; try contradiction.
    destruct (build_matrix (cell :: cells)) as [[pbs_values rtt_values] matrix] eqn:Hb.
    destruct Hfig as [<-|[]].
    exists editor, drug_name, metric, (cell :: cells). cbn [hm_key hm_pbs_values
      hm_rtt_values hm_matrix hm_filename].
    repeat split; auto; try exact Hget. discriminate.
  - intros (editor & drug_name & metric & cells & He & Hd & Hm & Hget & Hne & Hk & Hb & Hf).
    exists (editor, drug_name, metric). split; [now apply all_keys_In|].
    unfold figure_of.
    match goal with
    | |- context [@dict_get ?K ?V ?I ?k data] =>
        replace (@dict_get K V I k data) with (Some cells) by (symmetry; exact Hget)
    end.
    destruct cells as [|cell cells]; [congruence|].
    rewrite Hb. left. destruct figure. cbn in Hk, Hf. now subst.
Qed.

(** X14.  A call of [create_heatmaps] that returns has visited each
    combination of a listed editor, a drug name of [drugs] and a metric
    once, printing one line for it.  It has saved a figure exactly for the
    combinations whose key has data: the key, the axes and matrix built
    from the key's cells, and the file name made of directory, editor,
    metric and drug name; the files written are those of the figures, in
    order.  Data under any other key -- an editor that is not listed, a
    drug name such as [Unknown] that [drugs] does not hold -- is saved in
    no figure.  The call returns whenever the output directory exists or
    can be made and every figure can be saved; when the directory is
    missing and [os.makedirs] raises, the call raises the same exception,
    with nothing printed. *)
Theorem X14_figures_are_the_listed_keys_with_data (data : averaged)
  (prime_editors : list string) (drugs : dict string string)
  (exp_name exp_variant : string) (normalize : bool) (run_info : string) (w : world) :
  (forall figures w',
      create_heatmaps data prime_editors drugs exp_name exp_variant normalize run_info w
      = (Ok figures, w') ->
      (exists out,
          stdout w' = (stdout w ++ out)%list
          /\ List.length out = (3 * List.length prime_editors * List.length drugs)%nat)
      /\ saved (files w') = (saved (files w) ++ map hm_filename figures)%list
      /\ forall figure,
           In figure figures
           <-> exists editor drug_name metric cells,
                 In editor prime_editors /\ In drug_name (dict_values drugs)
                 /\ In metric metrics
                 /\ dict_get (editor, drug_name, metric) data = Some cells /\ cells <> []
                 /\ hm_key figure = (editor, drug_name, metric)
                 /\ build_matrix cells
                    = (hm_pbs_values figure, hm_rtt_values figure, hm_matrix figure)
                 /\ hm_filename figure
                    = heatmap_file exp_name exp_variant run_info normalize
                        (editor, drug_name, metric))
  /\ ((path_exists (files w) (output_dir_of exp_name exp_variant run_info) = true
       \/ makedirs (files w) (output_dir_of exp_name exp_variant run_info) = Ok tt) ->
      (forall before key pbs_values rtt_values matrix filename,
          savefig (files w) before key pbs_values rtt_values matrix filename = Ok tt) ->
      exists figures w',
        create_heatmaps data prime_editors drugs exp_name exp_variant normalize run_info w
        = (Ok figures, w'))
  /\ (forall e,
        path_exists (files w) (output_dir_of exp_name exp_variant run_info) = false ->
        makedirs (files w) (output_dir_of exp_name exp_variant run_info) = Raise e ->
        create_heatmaps data prime_editors drugs exp_name exp_variant normalize run_info w
        = (Raise e, w)).
Proof.
  split; [|split].
  - intros figures w' Hrun.
    destruct (create_heatmaps_figures _ _ _ _ _ _ _ _ _ _ Hrun) as (Hf & Ho & Hs).
    split; [|split].
    + eexists. split; [exact Ho|]. now rewrite length_map, all_keys_length.
    + exact Hs.
    + intros figure. rewrite Hf. apply figures_spec.
  - apply create_heatmaps_returns.
  - intros e. apply create_heatmaps_no_directory.
Qed.

(** X14, on the data of one editor in a directory that can be made. *)
Lemma X14_figures_are_the_listed_keys_with_data_witness :
  exists figures w',
    create_heatmaps (averaged_of replicate_query) ["PE2"] [(no_drug_id, "None")]
      "experiment" "" false "" empty_world
    = (Ok figures, w').
Proof.
  apply (proj1 (proj2 (X14_figures_are_the_listed_keys_with_data
                         (averaged_of replicate_query) ["PE2"] [(no_drug_id, "None")]
                         "experiment" "" false "" empty_world))).
  - right. reflexivity.
  - intros before key pbs_values rtt_values matrix filename. reflexivity.
Defined.

(* ================================================================== *)
(** ** The coordinates of the three metrics *)
(* ================================================================== *)

Lemma keqb_sym {K : Type} `{EqKeyLaws K} (a b : K) : keqb a b = keqb b a.
Proof.
  destruct (keqb a b) eqn:E1, (keqb b a) eqn:E2; auto.
  - apply keqb_eq in E1. subst. rewrite keqb_refl in E2. discriminate.
  - apply keqb_eq in E2. subst. rewrite keqb_refl in E1. discriminate.
Qed.

Lemma dict_set_keys_list {V : Type} (pos : position) (v : V) (d : dict position V) :
  dict_keys (dict_set pos v d) = add_position pos (dict_keys d).
Proof.
  unfold add_position, contains. induction d as [|[k v'] d IH]; [reflexivity|].
  cbn [dict_set dict_keys map fst List.existsb].
  rewrite (keqb_sym pos k).
  destruct (keqb k pos) eqn:E; cbn [orb]; [reflexivity|].
  cbn [dict_keys map fst]. unfold dict_keys in IH. rewrite IH.
  destruct (List.existsb (keqb pos) (map fst d)); reflexivity.
Qed.

Lemma coordinates_append_value (key key' : agg_key) (pos : position) (v : float)
  (hd : dict agg_key (dict position (list float))) :
  coordinates (append_value key pos v hd) key'
  = if keqb key key'
    then Some (add_position pos match coordinates hd key with
                                | Some keys => keys
                                | None => []
                                end)
    else coordinates hd key'.
Proof.
  unfold coordinates, append_value.
  destruct (keqb key key') eqn:E.
  - apply keqb_eq in E. subst key'. rewrite dict_get_set_same. cbn [option_map].
    rewrite dict_set_keys_list. destruct (dict_get key hd); reflexivity.
  - rewrite dict_get_set_other; [reflexivity|].
    intros <-. rewrite keqb_refl in E. discriminate.
Qed.

Lemma metric_cases (metric : string) :
  In metric metrics ->
  metric = "correct_edits" \/ metric = "incorrect_edits" \/ metric = "scaffold_incorporated".
Proof. cbn. intuition. Qed.

(** One data point adds its coordinate under the three metrics of its
    editor and drug, and nowhere else. *)
Lemma coordinates_contributions (entries : dict string position)
  (drugs : dict string string) (t : data_point)
  (hd : dict agg_key (dict position (list float))) (editor drug_name metric : string) :
  In metric metrics ->
  coordinates (fold_left add_contribution (contributions entries drugs t) hd)
    (editor, drug_name, metric)
  = match dict_get (dp_entry_id t) entries with
    | Some pos =>
        if String.eqb (dp_editor t) editor && String.eqb (drug_name_of drugs t) drug_name
        then Some (add_position pos match coordinates hd (editor, drug_name, metric) with
                                    | Some keys => keys
                                    | None => []
                                    end)
        else coordinates hd (editor, drug_name, metric)
    | None => coordinates hd (editor, drug_name, metric)
    end.
Proof.
  intros Hm. unfold contributions.
  destruct (dict_get (dp_entry_id t) entries) as [pos|]; [|reflexivity].
  cbn [fold_left]. unfold add_contribution. cbn [fst snd].
  rewrite !coordinates_append_value.
  cbn [keqb pair_EqKey string_EqKey fst snd].
  destruct (String.eqb (dp_editor t) editor) eqn:Ee;
    [|cbn [andb]; reflexivity].
  destruct (String.eqb (drug_name_of drugs t) drug_name) eqn:Ed;
    [|cbn [andb]; reflexivity].
  apply String.eqb_eq in Ee, Ed. subst editor drug_name.
  rewrite !String.eqb_refl. cbn [andb].
  destruct (metric_cases metric Hm) as [-> | [-> | ->]]; reflexivity.
Qed.

Lemma coordinates_aligned (entries : dict string position) (drugs : dict string string)
  (dps : list data_point) :
  forall hd,
    (forall editor drug_name m1 m2, In m1 metrics -> In m2 metrics ->
       coordinates hd (editor, drug_name, m1) = coordinates hd (editor, drug_name, m2)) ->
    forall editor drug_name m1 m2, In m1 metrics -> In m2 metrics ->
      coordinates (fold_left add_contribution (flat_map (contributions entries drugs) dps) hd)
        (editor, drug_name, m1)
      = coordinates (fold_left add_contribution (flat_map (contributions entries drugs) dps) hd)
          (editor, drug_name, m2).
Proof.
  induction dps as [|t dps IH]; intros hd Hhd; [exact Hhd|].
  cbn [flat_map]. intros editor drug_name m1 m2 H1 H2.
  rewrite fold_left_app. apply IH; [|assumption|assumption].
  intros e d n1 n2 Hn1 Hn2.
  rewrite !coordinates_contributions by assumption.
  rewrite (Hhd e d n1 n2 Hn1 Hn2). reflexivity.
Qed.

Lemma coordinates_averaged (hd : dict agg_key (dict position (list float)))
  (key : agg_key) :
  coordinates (map (fun kv => (fst kv, map (fun pv => (fst pv, np_mean (snd pv))) (snd kv))) hd)
    key
  = coordinates hd key.
Proof.
  unfold coordinates.
  pose proof (dict_get_map_values
                (fun cells : dict position (list float) =>
                   map (fun pv => (fst pv, np_mean (snd pv))) cells) key hd) as E.
  cbv beta in E.
  match goal with
  | |- option_map _ ?lhs = _ =>
      match type of E with
      | _ = ?rhs => replace lhs with rhs by (symmetry; exact E)
      end
  end.
  clear E.
  destruct (dict_get key hd) as [cells|]; [|reflexivity].
  cbn [option_map]. unfold dict_keys. rewrite map_map. reflexivity.
Qed.

Lemma get_experiment_data_aligned (q : query_results) (selected_runs : option (list string))
  (normalize : bool) (w w' : world) data prime_editors drugs name variant runs :
  get_experiment_data q selected_runs normalize w
  = (Ok (data, prime_editors, drugs, name, variant, runs), w') ->
  forall editor drug_name m1 m2, In m1 metrics -> In m2 metrics ->
    coordinates data (editor, drug_name, m1) = coordinates data (editor, drug_name, m2).
Proof.
  intros Hrun.
  assert (Hraw : fst (get_experiment_data q selected_runs false w)
                 = Ok (data, prime_editors, drugs, name, variant, runs)).
  { destruct normalize; [|now rewrite Hrun].
    destruct (q_data_points q) as [|t rest] eqn:Hpts.
    - rewrite (normalize_without_points q selected_runs w Hpts) in Hrun.
      now inversion Hrun.
    - rewrite (normalize_raises q selected_runs w t rest Hpts) in Hrun. discriminate. }
  rewrite get_experiment_data_raw in Hraw.
  destruct (q_exp_details q) as [[n v]|]; [|discriminate].
  cbn [fst] in Hraw. inversion Hraw; subst.
  intros editor drug_name m1 m2 H1 H2. rewrite !coordinates_averaged.
  apply coordinates_aligned; [|assumption|assumption].
  intros; reflexivity.
Qed.

Lemma coordinates_some {V : Type} (data : dict agg_key (dict position V)) (key : agg_key)
  (cells : dict position V) :
  dict_get key data = Some cells -> coordinates data key = Some (dict_keys cells).
Proof. intros H. unfold coordinates. now rewrite H. Qed.

Lemma coordinates_inv {V : Type} (data : dict agg_key (dict position V)) (key : agg_key)
  (keys : list position) :
  coordinates data key = Some keys ->
  exists cells, dict_get key data = Some cells /\ dict_keys cells = keys.
Proof.
  unfold coordinates. destruct (dict_get key data) as [cells|]; cbn [option_map];
    [|discriminate].
  intros E. inversion E. eauto.
Qed.

Lemma build_matrix_axes (cells cells' : dict position float) :
  dict_keys cells = dict_keys cells' ->
  fst (build_matrix cells) = fst (build_matrix cells').
Proof. intros E. rewrite !build_matrix_spec. cbn [fst]. now rewrite E. Qed.

(** X15.  With [normalize=True], [get_experiment_data] raises [ValueError]
    for every experiment that has a data point, whatever the runs, the
    selection and the values are -- even before it looks up the experiment;
    for an experiment without data points it prints the warning that
    normalization is disabled and returns what it returns without
    normalization. *)
Theorem X15_normalizing_any_data_raises (q : query_results)
  (selected_runs : option (list string)) (w : world) :
  (q_data_points q <> [] ->
   get_experiment_data q selected_runs true w = (Raise ValueError, w))
  /\ (q_data_points q = [] ->
      get_experiment_data q selected_runs true w
      = (fst (get_experiment_data q selected_runs false w),
         printed w ["Warning: No common PBS/RTT combination found across all runs. Normalization disabled."])).
Proof.
  split.
  - intros Hne. destruct (q_data_points q) as [|t rest] eqn:Hpts; [congruence|].
    exact (normalize_raises q selected_runs w t rest Hpts).
  - exact (normalize_without_points q selected_runs w).
Qed.

(** X16.  In the table [get_experiment_data] returns, the three metrics of
    an editor and a drug hold the same coordinates in the same order.  So
    the figures of [create_heatmaps] come in threes: with the figure of one
    metric there is a figure of each metric for that editor and drug, with
    the same PBS axis and the same RTT axis. *)
Theorem X16_metrics_share_axes (q : query_results) (selected_runs : option (list string))
  (normalize : bool) (w w' : world) data prime_editors drugs name variant runs :
  get_experiment_data q selected_runs normalize w
  = (Ok (data, prime_editors, drugs, name, variant, runs), w') ->
  (forall editor drug_name m1 m2, In m1 metrics -> In m2 metrics ->
     coordinates data (editor, drug_name, m1) = coordinates data (editor, drug_name, m2))
  /\ forall editors drug_names exp_name exp_variant norm run_info w1 figures w2 f1 metric,
       create_heatmaps data editors drug_names exp_name exp_variant norm run_info w1
       = (Ok figures, w2) ->
       In f1 figures -> In metric metrics ->
       exists f2,
         In f2 figures
         /\ hm_key f2 = (fst (fst (hm_key f1)), snd (fst (hm_key f1)), metric)
         /\ hm_pbs_values f2 = hm_pbs_values f1
         /\ hm_rtt_values f2 = hm_rtt_values f1.
Proof.
  intros Hrun.
  pose proof (get_experiment_data_aligned _ _ _ _ _ _ _ _ _ _ _ Hrun) as Hal.
  split; [exact Hal|].
  intros editors drug_names exp_name exp_variant norm run_info w1 figures w2 f1 metric
    Hfig Hf1 Hm.
  apply create_heatmaps_figures in Hfig. destruct Hfig as (-> & _).
  apply figures_spec in Hf1.
  destruct Hf1 as (editor & drug_name & m1 & cells & He & Hd & Hm1 & Hget & Hne & Hk & Hb & _).
  pose proof (Hal editor drug_name m1 metric Hm1 Hm) as Hco.
  rewrite (coordinates_some data _ cells Hget) in Hco. symmetry in Hco.
  destruct (coordinates_inv data _ _ Hco) as (cells' & Hget' & Hkeys).
  destruct (build_matrix cells') as [[pbs_values rtt_values] matrix] eqn:Hb'.
  exists (mkHeatmap (editor, drug_name, metric) pbs_values rtt_values matrix
            (heatmap_file exp_name exp_variant run_info norm (editor, drug_name, metric))).
  split.
  - apply figures_spec. exists editor, drug_name, metric, cells'.
    cbn [hm_key hm_pbs_values hm_rtt_values hm_matrix hm_filename].
    repeat split; auto.
    intros ->. destruct cells; [congruence|discriminate].
  - rewrite Hk. cbn [hm_key hm_pbs_values hm_rtt_values fst snd].
    pose proof (build_matrix_axes cells' cells Hkeys) as Hax.
    rewrite Hb, Hb' in Hax. cbn [fst] in Hax. inversion Hax. auto.
Qed.

(** X16, on three replicates at one coordinate and one value at another. *)
Lemma X16_metrics_share_axes_witness :
  (forall editor drug_name m1 m2, In m1 metrics -> In m2 metrics ->
     coordinates (averaged_of replicate_query) (editor, drug_name, m1)
     = coordinates (averaged_of replicate_query) (editor, drug_name, m2))
  /\ forall editors drug_names exp_name exp_variant norm run_info w1 figures w2 f1 metric,
       create_heatmaps (averaged_of replicate_query) editors drug_names exp_name exp_variant
         norm run_info w1
       = (Ok figures, w2) ->
       In f1 figures -> In metric metrics ->
       exists f2,
         In f2 figures
         /\ hm_key f2 = (fst (fst (hm_key f1)), snd (fst (hm_key f1)), metric)
         /\ hm_pbs_values f2 = hm_pbs_values f1
         /\ hm_rtt_values f2 = hm_rtt_values f1.
Proof.
  apply (X16_metrics_share_axes replicate_query None false empty_world empty_world
           (averaged_of replicate_query) ["PE2"] [(no_drug_id, "None")] "experiment" ""
           [("run-1", "first")]).
  vm_compute. reflexivity.
Defined.

(* ================================================================== *)
(** ** [select_runs] *)
(* ================================================================== *)

Lemma runs_at_picked (runs : list (string * string)) (selected_indices : list Z) :
  runs_at runs selected_indices = Ok (picked runs selected_indices).
Proof.
  unfold runs_at, picked.
  induction selected_indices as [|idx rest IH]; [reflexivity|].
  cbn [filter].
  destruct ((1 <=? idx) && (idx <=? Z.of_nat (List.length runs))) eqn:Hr; [|exact IH].
  cbn [map_result flat_map].
  apply andb_true_iff in Hr. destruct Hr as [H1 H2].
  apply Z.leb_le in H1, H2.
  destruct (nth_error runs (Z.to_nat (idx - 1))) as [r|] eqn:Hn.
  - rewrite IH. reflexivity.
  - apply nth_error_None in Hn. lia.
Qed.

Lemma picked_In (runs : list (string * string)) (selected_indices : list Z) (run_id : string) :
  In run_id (picked runs selected_indices) <->
  exists idx name,
    In idx selected_indices /\ 1 <= idx <= Z.of_nat (List.length runs)
    /\ nth_error runs (Z.to_nat (idx - 1)) = Some (run_id, name).
Proof.
  unfold picked. rewrite in_flat_map. split.
  - intros (idx & Hidx & Hin). apply filter_In in Hidx. destruct Hidx as [Hidx Hr].
    apply andb_true_iff in Hr. destruct Hr as [H1 H2]. apply Z.leb_le in H1, H2.
    destruct (nth_error runs (Z.to_nat (idx - 1))) as [[id name]|] eqn:Hn; [|contradiction].
    destruct Hin as [<-|[]]. exists idx, name. auto.
  - intros (idx & name & Hidx & Hr & Hn). exists idx. split.
    + apply filter_In. split; [assumption|].
      apply andb_true_iff. split; apply Z.leb_le; lia.
    + rewrite Hn. now left.
Qed.

Lemma int_raises_value_error (s : string) (e : exn) : Str.int s = Raise e -> e = ValueError.
Proof.
  unfold Str.int.
  destruct (match Str.strip s with
            | String "-" r => option_map Z.opp (Str.digits_value r 0 false)
            | String "+" r => Str.digits_value r 0 false
            | _ => Str.digits_value (Str.strip s) 0 false
            end); [|intros H; now inversion H].
  destruct (Str.max_str_digits <? Str.count_digits (Str.strip s))%nat; [|discriminate].
  intros H. now inversion H.
Qed.

Lemma map_result_raise {A B : Type} (f : A -> result B) (xs : list A) (e : exn) :
  map_result f xs = Raise e -> exists x, In x xs /\ f x = Raise e.
Proof.
  induction xs as [|x xs IH]; [discriminate|]. cbn [map_result].
  destruct (f x) as [y|e'] eqn:Hf.
  - destruct (map_result f xs) as [ys|e'']; [discriminate|].
    intros H. inversion H; subst. destruct (IH eq_refl) as (x' & Hin & Hx').
    exists x'. split; [now right|assumption].
  - intros H. inversion H; subst. exists x. split; [now left|assumption].
Qed.

(** With runs to choose from and a line typed, [select_runs] returns. *)
Lemma select_runs_line (r : string * string) (rs : list (string * string))
  (line : string) (rest out : list string) (tbl : list (string * string * string))
  (cache : list (string * string)) (src : nat -> string) (drawn : nat) (fs : file_system) :
  exists out',
    select_runs (r :: rs) (mkWorld (line :: rest) out tbl cache src drawn fs)
    = (Ok (if String.eqb (Str.lower (str_strip line)) "all" then map fst (r :: rs)
           else match numbers_typed line with
                | Ok selected_indices =>
                    match picked (r :: rs) selected_indices with
                    | [] => map fst (r :: rs)
                    | selected => selected
                    end
                | Raise _ => map fst (r :: rs)
                end),
       mkWorld rest (out ++ out') tbl cache src drawn fs).
Proof.
  unfold select_runs.
  unfold bind at 1. rewrite print_printed.
  unfold printed, with_stdout. cbn [stdin stdout drugs_table drug_cache uuid_source uuid_drawn files].
  unfold bind at 1. rewrite list_lines_run.
  unfold bind at 1. rewrite print_printed.
  unfold printed, with_stdout. cbn [stdin stdout drugs_table drug_cache uuid_source uuid_drawn files].
  unfold bind at 1, input, with_stdout, with_stdin.
  cbn [stdin stdout drugs_table drug_cache uuid_source uuid_drawn files].
  destruct (String.eqb (Str.lower (str_strip line)) "all").
  - unfold ret. rewrite <- !app_assoc. eexists. reflexivity.
  - unfold numbers_typed.
    destruct (map_result (fun idx => Str.int (str_strip idx)) (split "," (str_strip line)))
      as [selected_indices|e] eqn:Hparse.
    + unfold bind at 1, lift. rewrite runs_at_picked.
      destruct (picked (r :: rs) selected_indices) as [|id ids].
      * unfold bind, print, ret, with_stdout.
        cbn [stdin stdout drugs_table drug_cache uuid_source uuid_drawn files].
        rewrite <- !app_assoc. eexists. reflexivity.
      * unfold ret. rewrite <- !app_assoc. eexists. reflexivity.
    + destruct (map_result_raise _ _ _ Hparse) as (piece & _ & Hint).
      apply int_raises_value_error in Hint.
      subst e. unfold bind, print, ret, with_stdout.
      cbn [stdin stdout drugs_table drug_cache uuid_source uuid_drawn files].
      rewrite <- !app_assoc. eexists. reflexivity.
Qed.

Lemma select_runs_eof (r : string * string) (rs : list (string * string))
  (out : list string) (tbl : list (string * string * string))
  (cache : list (string * string)) (src : nat -> string) (drawn : nat) (fs : file_system) :
  exists out',
    select_runs (r :: rs) (mkWorld [] out tbl cache src drawn fs)
    = (Raise EOFError, mkWorld [] (out ++ out') tbl cache src drawn fs).
Proof.
  unfold select_runs.
  unfold bind at 1. rewrite print_printed.
  unfold printed, with_stdout. cbn [stdin stdout drugs_table drug_cache uuid_source uuid_drawn files].
  unfold bind at 1. rewrite list_lines_run.
  unfold bind at 1. rewrite print_printed.
  unfold printed, with_stdout. cbn [stdin stdout drugs_table drug_cache uuid_source uuid_drawn files].
  unfold bind at 1, input, with_stdout, with_stdin.
  cbn [stdin stdout drugs_table drug_cache uuid_source uuid_drawn files].
  rewrite <- !app_assoc. eexists. reflexivity.
Qed.

Lemma dict_keys_In_nth (runs : list (string * string)) (i : nat) (id name : string) :
  nth_error runs i = Some (id, name) -> In id (dict_keys runs).
Proof.
  intros H. apply nth_error_In in H. unfold dict_keys.
  change id with (fst (id, name)). now apply in_map.
Qed.

(** X17.  [select_runs] returns the empty selection only for an experiment
    without runs.  With runs to choose from it reads one line and returns
    a selection that is never empty and holds ids of these runs only: all
    of them for [all] (in any letter case, white space around it ignored),
    for a line of ASCII text that is not a list of numbers, and for numbers that are all
    out of range; otherwise the runs at the numbers typed that are within
    range, in the order typed, a number typed twice counted twice.  It
    fails only with [EOFError], when there is no line to read. *)
Theorem X17_selection_of_runs (all_runs : dict string string) (w : world) :
  (all_runs = [] ->
   select_runs all_runs w = (Ok [], printed w ["No runs found for this experiment."]))
  /\ (all_runs <> [] -> stdin w = [] ->
      exists w', select_runs all_runs w = (Raise EOFError, w'))
  /\ (all_runs <> [] ->
      forall line rest,
        stdin w = line :: rest ->
        Str.is_ascii line = true ->
        exists selected w',
          select_runs all_runs w = (Ok selected, w')
          /\ stdin w' = rest
          /\ selected <> []
          /\ (forall run_id, In run_id selected -> In run_id (dict_keys all_runs))
          /\ (Str.lower (str_strip line) = "all" -> selected = dict_keys all_runs)
          /\ (forall e, numbers_typed line = Raise e -> selected = dict_keys all_runs)
          /\ (forall selected_indices,
                Str.lower (str_strip line) <> "all" ->
                numbers_typed line = Ok selected_indices ->
                selected = match picked all_runs selected_indices with
                           | [] => dict_keys all_runs
                           | chosen => chosen
                           end)).
Proof.
  split; [intros ->; reflexivity|].
  destruct w as [inp out tbl cache src drawn fs]. cbn [stdin].
  split.
  - intros Hne ->. destruct all_runs as [|r rs]; [congruence|].
    destruct (select_runs_eof r rs out tbl cache src drawn fs) as [out' E]. eauto.
  - intros Hne line rest -> _. destruct all_runs as [|r rs]; [congruence|].
    destruct (select_runs_line r rs line rest out tbl cache src drawn fs) as [out' E].
    do 2 eexists. split; [exact E|]. split; [reflexivity|].
    change (map fst (r :: rs)) with (dict_keys (r :: rs)).
    destruct (String.eqb (Str.lower (str_strip line)) "all") eqn:Hall.
    + apply String.eqb_eq in Hall.
      repeat split; auto; try discriminate. intros idxs Hn. congruence.
    + apply String.eqb_neq in Hall.
      destruct (numbers_typed line) as [idxs|e] eqn:Hparse.
      * destruct (picked (r :: rs) idxs) as [|id ids] eqn:Hp.
        -- repeat split; auto; try discriminate; try congruence.
           intros idxs' _ E'. inversion E'; subst. now rewrite Hp.
        -- repeat split; auto; try discriminate; try congruence.
           ++ intros run_id Hin. rewrite <- Hp in Hin. apply picked_In in Hin.
              destruct Hin as (idx & name & _ & _ & Hn).
              exact (dict_keys_In_nth _ _ _ _ Hn).
           ++ intros idxs' _ E'. inversion E'; subst. now rewrite Hp.
      * repeat split; auto; try discriminate.
Qed.

(** X17, with three runs and an operator typing [3, 1 ,7,3]. *)
Lemma X17_selection_of_runs_witness :
  exists selected w',
    select_runs three_runs (typing ["3, 1 ,7,3"; "unread"]) = (Ok selected, w')
    /\ stdin w' = ["unread"]
    /\ selected <> []
    /\ (forall run_id, In run_id selected -> In run_id (dict_keys three_runs))
    /\ (Str.lower (str_strip "3, 1 ,7,3") = "all" -> selected = dict_keys three_runs)
    /\ (forall e, numbers_typed "3, 1 ,7,3" = Raise e -> selected = dict_keys three_runs)
    /\ (forall selected_indices,
          Str.lower (str_strip "3, 1 ,7,3") <> "all" ->
          numbers_typed "3, 1 ,7,3" = Ok selected_indices ->
          selected = match picked three_runs selected_indices with
                     | [] => dict_keys three_runs
                     | chosen => chosen
                     end).
Proof.
  apply (proj2 (proj2 (X17_selection_of_runs three_runs (typing ["3, 1 ,7,3"; "unread"])))).
  - discriminate.
  - reflexivity.
  - reflexivity.
Defined.

(* ================================================================== *)
(** ** Greedy repetition: where [a+] stops *)
(* ================================================================== *)

Lemma many1_none {A : Type} (a : atom) (k : string -> option A) :
  forall s,
    (forall x y, x <> "" -> s = x ++ y -> Str.forallb (atom_matches a) x = true ->
       k y = None) ->
    many1 a s k = None.
Proof.
  induction s as [|c s IH]; intros Hk; [reflexivity|].
  cbn [many1]. destruct (atom_matches a c) eqn:Hc; [|reflexivity].
  rewrite IH.
  - apply (Hk (String c "") s); [discriminate|reflexivity|].
    cbn [Str.forallb]. now rewrite Hc.
  - intros x y Hx Hs Hall. apply (Hk (String c x) y); [discriminate|now rewrite Hs|].
    cbn [Str.forallb]. now rewrite Hc, Hall.
Qed.

Lemma many1_exact {A : Type} (a : atom) (k : string -> option A) (rest : string) (r : A) :
  k rest = Some r ->
  (forall x y, x <> "" -> rest = x ++ y -> Str.forallb (atom_matches a) x = true ->
     k y = None) ->
  forall pre, pre <> "" -> Str.forallb (atom_matches a) pre = true ->
    many1 a (pre ++ rest) k = Some r.
Proof.
  intros Hk Hlater. induction pre as [|c pre IH]; intros Hne Hall; [congruence|].
  cbn [Str.forallb] in Hall. apply andb_true_iff in Hall as [Hc Hall].
  cbn [append many1]. rewrite Hc.
  destruct pre as [|c' pre'].
  - cbn [append]. rewrite (many1_none a k rest Hlater). exact Hk.
  - rewrite (IH ltac:(discriminate) Hall). reflexivity.
Qed.

Lemma no_later_spec (a : atom) (lit : string) :
  forall s,
    no_later a lit s = true ->
    forall x y, x <> "" -> s = x ++ y -> Str.forallb (atom_matches a) x = true ->
      Str.strip_prefix lit y = None.
Proof.
  induction s as [|c s IH]; intros Hs x y Hx E Hall.
  - destruct x; [congruence|discriminate].
  - destruct x as [|c' x]; [congruence|]. cbn [append] in E. inversion E; subst c' s.
    cbn [Str.forallb] in Hall. apply andb_true_iff in Hall as [Hc Hall].
    cbn [no_later] in Hs. rewrite Hc in Hs.
    destruct x as [|c'' x].
    + cbn [append] in *. destruct (Str.strip_prefix lit y); [discriminate|reflexivity].
    + destruct (Str.strip_prefix lit (String c'' x ++ y)); [discriminate|].
      apply (IH Hs (String c'' x) y); [discriminate|reflexivity|assumption].
Qed.

Lemma occurs_later (sub s : string) (c : ascii) : occurs sub s -> occurs sub (String c s).
Proof. intros (before & after & ->). now exists (String c before), after. Qed.

Lemma no_later_absent (a : atom) (lit : string) :
  forall s, ~ occurs lit s -> no_later a lit s = true /\ Str.strip_prefix lit s = None.
Proof.
  assert (Hstart : forall s, ~ occurs lit s -> Str.strip_prefix lit s = None).
  { intros s Hs. destruct (Str.strip_prefix lit s) as [z|] eqn:E; [|reflexivity].
    exfalso. apply Hs. apply strip_prefix_app in E. now exists "", z. }
  intros s Hs. split; [|now apply Hstart].
  induction s as [|c s IH]; [reflexivity|].
  assert (Hs' : ~ occurs lit s) by (intros H; apply Hs; now apply occurs_later).
  cbn [no_later]. destruct (atom_matches a c); [|reflexivity].
  rewrite (Hstart s Hs'). now apply IH.
Qed.

(** A run of digits before a text that does not start with [_P]. *)
Lemma no_later_digits (s : string) :
  Str.strip_prefix "_P" s = None -> no_later word "_P" s = true ->
  forall d, Str.forallb (atom_matches digit) d = true -> no_later word "_P" (d ++ s) = true.
Proof.
  intros Hstart Hs. induction d as [|c d IH]; intros Hd; [exact Hs|].
  cbn [Str.forallb] in Hd. apply andb_true_iff in Hd as [Hc Hd].
  cbn [append no_later]. rewrite (digit_is_word c Hc).
  assert (E : Str.strip_prefix "_P" (d ++ s) = None).
  { destruct d as [|c' d']; [exact Hstart|].
    cbn [Str.forallb] in Hd. apply andb_true_iff in Hd as [Hc' _].
    cbn [append Str.strip_prefix].
    destruct (Ascii.eqb "_" c') eqn:E'; [|reflexivity].
    apply Ascii.eqb_eq in E'. subst c'. discriminate. }
  rewrite E. now apply IH.
Qed.

(* ================================================================== *)
(** ** Names written as the patterns expect: the match, group by group *)
(* ================================================================== *)

Lemma run_lit (p : pattern) (t rest : string) (opened caps r : list string) :
  run p rest opened caps = Some r -> run (Lit t :: p) (t ++ rest) opened caps = Some r.
Proof. intros H. cbn [run]. now rewrite strip_prefix_here. Qed.

Lemma run_one (p : pattern) (a : atom) (c : ascii) (rest : string)
  (opened caps r : list string) :
  atom_matches a c = true ->
  run p rest opened caps = Some r -> run (One a :: p) (String c rest) opened caps = Some r.
Proof. intros Hc H. cbn [run]. now rewrite Hc. Qed.

Lemma run_many (p : pattern) (a : atom) (pre rest : string) (opened caps r : list string) :
  run_of a pre ->
  run p rest opened caps = Some r ->
  (forall x y, x <> "" -> rest = x ++ y -> Str.forallb (atom_matches a) x = true ->
     run p y opened caps = None) ->
  run (Many1 a :: p) (pre ++ rest) opened caps = Some r.
Proof.
  intros [Hne Hall] Hk Hlater. cbn [run].
  exact (many1_exact a (fun s' => run p s' opened caps) rest r Hk Hlater pre Hne Hall).
Qed.

(** A group of characters of [a] that ends where no such character
    follows. *)
Lemma run_group (p : pattern) (a : atom) (pre rest : string) (opened caps r : list string) :
  run_of a pre -> starts_in a rest = false ->
  run p rest opened (pre :: caps) = Some r ->
  run (Open :: Many1 a :: Close :: p) (pre ++ rest) opened caps = Some r.
Proof.
  intros Hpre Hrest Hk.
  change (run (Many1 a :: Close :: p) (pre ++ rest) ((pre ++ rest) :: opened) caps = Some r).
  apply run_many; [assumption| |].
  - cbn [run]. now rewrite consumed_app.
  - intros x y Hx E Hall. exfalso. subst rest.
    destruct x as [|c x]; [congruence|].
    cbn [Str.forallb] in Hall. apply andb_true_iff in Hall as [Hc _].
    cbn [append starts_in] in Hrest. congruence.
Qed.

Lemma rep_initial_cases (c : ascii) :
  atom_matches rep_initial c = true -> c = "R"%char \/ c = "r"%char \/ c = "/"%char.
Proof. by_bits c; auto. Qed.

(** The numbers and the replicate, as the first four patterns end. *)
Lemma run_numbers (first : string) (u : ascii) (second : string) (d1 d2 d3 tail : string)
  (c : ascii) (opened caps : list string) :
  run_of digit d1 -> run_of digit d2 -> run_of digit d3 ->
  atom_matches rep_initial c = true -> starts_in digit tail = false ->
  atom_matches digit u = false ->
  run [Lit first; Open; Many1 digit; Close; Lit (String u second); Open; Many1 digit; Close;
       Lit "_"; One rep_initial; Lit "ep"; Open; Many1 digit; Close]
    (first ++ d1 ++ String u second ++ d2 ++ "_" ++ String c ("ep" ++ d3 ++ tail)) opened caps
  = Some (List.rev (d3 :: d2 :: d1 :: caps)).
Proof.
  intros H1 H2 H3 Hc Htail Hu.
  apply run_lit. apply run_group; [assumption|exact Hu|].
  apply run_lit. apply run_group; [assumption|reflexivity|].
  apply (run_lit _ "_"). apply run_one; [assumption|].
  apply (run_lit _ "ep"). apply run_group; [assumption|assumption|].
  reflexivity.
Qed.

Lemma str_forallb_app (p : ascii -> bool) (a b : string) :
  Str.forallb p (a ++ b) = Str.forallb p a && Str.forallb p b.
Proof.
  induction a as [|c a IH]; cbn [append Str.forallb]; [reflexivity|].
  now rewrite IH, andb_assoc.
Qed.

(** A run of characters of a set, read off the start of a text. *)
Lemma prefix_run (p : ascii -> bool) (u : ascii) :
  p u = false ->
  forall x a b z, a ++ String u b = x ++ z -> Str.forallb p x = true ->
    exists v, a = x ++ v.
Proof.
  intros Hu. induction x as [|c x IH]; intros a b z E Hall; [now exists a|].
  cbn [Str.forallb] in Hall. apply andb_true_iff in Hall as [Hc Hall].
  destruct a as [|c' a]; cbn [append] in E; inversion E; subst.
  - congruence.
  - destruct (IH a b z H1 Hall) as [v ->]. now exists v.
Qed.

Lemma run_unique (p : ascii -> bool) (u u' : ascii) :
  p u = false -> p u' = false ->
  forall a a' b b',
    a ++ String u b = a' ++ String u' b' ->
    Str.forallb p a = true -> Str.forallb p a' = true ->
    a = a' /\ String u b = String u' b'.
Proof.
  intros Hu Hu'. induction a as [|c a IH]; intros a' b b' E Ha Ha'.
  - destruct a' as [|c' a']; [now split|].
    cbn [append] in E. inversion E; subst.
    cbn [Str.forallb] in Ha'. apply andb_true_iff in Ha' as [Hc _]. congruence.
  - cbn [Str.forallb] in Ha. apply andb_true_iff in Ha as [Hc Ha].
    destruct a' as [|c' a']; cbn [append] in E; inversion E; subst.
    + congruence.
    + cbn [Str.forallb] in Ha'. apply andb_true_iff in Ha' as [_ Ha'].
      destruct (IH a' b b' H1 Ha Ha') as [-> E']. now split.
Qed.

(** Without [PE] among its first letters, a name is not read with an
    editor. *)
Lemma no_editor_no_match (l rest : string) :
  Str.forallb (atom_matches letters) l = true -> ~ occurs "PE" l ->
  re_match pattern1 (l ++ String "_" rest) = None
  /\ re_match pattern2 (l ++ String "_" rest) = None.
Proof.
  intros Hl Hno.
  assert (G : forall l' t z,
             l ++ String "_" rest = l' ++ ("PE" ++ t) ++ z ->
             Str.forallb (atom_matches letters) l' = true -> False).
  { intros l' t z E Hl'. apply Hno.
    destruct (prefix_run (atom_matches letters) "_" eq_refl (l' ++ "PE") l rest (t ++ z))
      as [v Hv].
    - rewrite E. repeat (progress (rewrite ?string_app_assoc; cbn [append])). reflexivity.
    - rewrite str_forallb_app, Hl'. reflexivity.
    - exists l', v. rewrite Hv. now rewrite string_app_assoc. }
  split.
  - destruct (re_match pattern1 (l ++ String "_" rest)) as [m|] eqn:E; [|reflexivity].
    exfalso. destruct (pattern1_match _ m E) as (l' & t & d1 & d2 & c & d3 & tail & Hn & Hl' & _).
    exact (G l' t _ Hn (proj2 Hl')).
  - destruct (re_match pattern2 (l ++ String "_" rest)) as [m|] eqn:E; [|reflexivity].
    exfalso. destruct (pattern2_match _ m E) as (l' & t & d1 & d2 & c & d3 & tail & Hn & Hl' & _).
    exact (G l' t _ Hn (proj2 Hl')).
Qed.

Lemma later_vacuous {A : Type} (a : atom) (rest : string) (k : string -> option A) :
  starts_in a rest = false ->
  forall x y, x <> "" -> rest = x ++ y -> Str.forallb (atom_matches a) x = true ->
    k y = None.
Proof.
  intros Hrest x y Hx E Hall. exfalso. subst rest.
  destruct x as [|c x]; [congruence|].
  cbn [Str.forallb] in Hall. apply andb_true_iff in Hall as [Hc _].
  cbn [append starts_in] in Hrest. congruence.
Qed.

Lemma pattern3_exact (l d1 d2 d3 tail : string) (c : ascii) :
  run_of letters l -> run_of digit d1 -> run_of digit d2 -> run_of digit d3 ->
  atom_matches rep_initial c = true -> starts_in digit tail = false ->
  re_match pattern3 (l ++ "_P" ++ d1 ++ "_R" ++ d2 ++ "_" ++ String c ("ep" ++ d3 ++ tail))
  = Some [d1; d2; d3].
Proof.
  intros Hl H1 H2 H3 Hc Htail. unfold re_match, pattern3.
  apply run_many; [assumption| |].
  - exact (run_numbers "_P" "_" "R" d1 d2 d3 tail c [] [] H1 H2 H3 Hc Htail eq_refl).
  - apply later_vacuous. reflexivity.
Qed.

Lemma pattern4_exact (l d1 d2 d3 tail : string) (c : ascii) :
  run_of letters l -> run_of digit d1 -> run_of digit d2 -> run_of digit d3 ->
  atom_matches rep_initial c = true -> starts_in digit tail = false ->
  re_match pattern4 (l ++ "_R" ++ d1 ++ "_P" ++ d2 ++ "_" ++ String c ("ep" ++ d3 ++ tail))
  = Some [d1; d2; d3].
Proof.
  intros Hl H1 H2 H3 Hc Htail. unfold re_match, pattern4.
  apply run_many; [assumption| |].
  - exact (run_numbers "_R" "_" "P" d1 d2 d3 tail c [] [] H1 H2 H3 Hc Htail eq_refl).
  - apply later_vacuous. reflexivity.
Qed.

(** A name with the RTT first does not match the pattern with the PBS
    first. *)
Lemma pattern3_rtt_first (l rest : string) :
  Str.forallb (atom_matches letters) l = true ->
  re_match pattern3 (l ++ "_R" ++ rest) = None.
Proof.
  intros Hl.
  destruct (re_match pattern3 (l ++ "_R" ++ rest)) as [m|] eqn:E; [|reflexivity].
  exfalso. destruct (pattern3_match _ m E) as (l' & d1 & d2 & c & d3 & tail & Hn & Hl' & _).
  cbn [append] in Hn.
  destruct (run_unique (atom_matches letters) "_" "_" eq_refl eq_refl _ _ _ _ Hn Hl
              (proj2 Hl')) as [_ E'].
  discriminate E'.
Qed.

Lemma absent_before_underscore (t rest : string) :
  ~ occurs "PE" t ->
  Str.strip_prefix "PE" (t ++ String "_" rest) = None
  /\ no_later letters "PE" (t ++ String "_" rest) = true.
Proof.
  induction t as [|c t IH]; intros Hno; [split; reflexivity|].
  assert (Hno' : ~ occurs "PE" t) by (intros H; apply Hno; now apply occurs_later).
  destruct (IH Hno') as [Hs Hl]. split.
  - cbn [append Str.strip_prefix].
    destruct (Ascii.eqb "P" c) eqn:Ec; [|reflexivity].
    apply Ascii.eqb_eq in Ec. subst c.
    destruct t as [|c' t]; [reflexivity|]. cbn [append].
    destruct (Ascii.eqb "E" c') eqn:Ee; [|reflexivity].
    apply Ascii.eqb_eq in Ee. subst c'.
    exfalso. apply Hno. now exists "", t.
  - cbn [append no_later]. destruct (atom_matches letters c); [|reflexivity].
    now rewrite Hs.
Qed.

Lemma no_later_cons (a : atom) (lit : string) (c : ascii) (s : string) :
  no_later a lit (String c s)
  = if atom_matches a c then
      match Str.strip_prefix lit s with
      | Some _ => false
      | None => no_later a lit s
      end
    else true.
Proof. reflexivity. Qed.

Lemma strip_marker_other (c : ascii) (s : string) :
  c <> "_"%char -> Str.strip_prefix "_P" (String c s) = None.
Proof.
  intros Hc. cbn [Str.strip_prefix]. destruct (Ascii.eqb "_" c) eqn:E; [|reflexivity].
  apply Ascii.eqb_eq in E. congruence.
Qed.

Lemma strip_marker_digits (d s : string) :
  run_of digit d -> Str.strip_prefix "_P" (d ++ s) = None.
Proof.
  intros [Hne Hall]. destruct d as [|c d]; [congruence|].
  cbn [Str.forallb] in Hall. apply andb_true_iff in Hall as [Hc _].
  cbn [append]. apply strip_marker_other. intros ->. discriminate.
Qed.

Lemma numbers_no_later (d1 d2 d3 tail : string) (c : ascii) :
  run_of digit d1 -> run_of digit d2 -> run_of digit d3 ->
  atom_matches rep_initial c = true -> ~ occurs "_P" tail ->
  no_later word "_P" ("_P" ++ d1 ++ "_R" ++ d2 ++ "_" ++ String c ("ep" ++ d3 ++ tail)) = true.
Proof.
  intros R1 R2 R3 Hc Htail.
  destruct (no_later_absent word "_P" tail Htail) as [Ht Hs].
  assert (Hc' : c <> "_"%char).
  { destruct (rep_initial_cases c Hc) as [-> | [-> | ->]]; discriminate. }
  assert (G3 : no_later word "_P" (d3 ++ tail) = true)
    by (apply no_later_digits; [assumption|assumption|apply R3]).
  assert (G2 : no_later word "_P" (String "_" (String c (String "e" (String "p" (d3 ++ tail)))))
               = true).
  { rewrite no_later_cons. change (atom_matches word "_") with true. cbv iota.
    rewrite (strip_marker_other c _ Hc').
    rewrite no_later_cons. destruct (atom_matches word c); [|reflexivity].
    rewrite strip_marker_other by discriminate.
    rewrite no_later_cons. change (atom_matches word "e") with true. cbv iota.
    rewrite strip_marker_other by discriminate.
    rewrite no_later_cons. change (atom_matches word "p") with true. cbv iota.
    rewrite (strip_marker_digits d3 tail R3). exact G3. }
  assert (G1 : no_later word "_P"
                 (String "_" (String "R" (d2 ++ String "_" (String c (String "e" (String "p"
                    (d3 ++ tail))))))) = true).
  { rewrite no_later_cons. change (atom_matches word "_") with true. cbv iota.
    rewrite strip_marker_other by discriminate.
    rewrite no_later_cons. change (atom_matches word "R") with true. cbv iota.
    rewrite (strip_marker_digits d2 _ R2).
    apply no_later_digits; [|exact G2|apply R2].
    cbn [Str.strip_prefix]. rewrite Ascii.eqb_refl.
    destruct (Ascii.eqb "P" c) eqn:E; [|reflexivity].
    apply Ascii.eqb_eq in E. subst c. discriminate Hc. }
  cbn [append].
  rewrite no_later_cons. change (atom_matches word "_") with true. cbv iota.
  rewrite strip_marker_other by discriminate.
  rewrite no_later_cons. change (atom_matches word "P") with true. cbv iota.
  rewrite (strip_marker_digits d1 _ R1).
  apply no_later_digits; [reflexivity|exact G1|apply R1].
Qed.

Lemma pattern1_exact (l t d1 d2 d3 tail : string) (c : ascii) :
  run_of letters l -> run_of word t -> ~ occurs "PE" t ->
  run_of digit d1 -> run_of digit d2 -> run_of digit d3 ->
  atom_matches rep_initial c = true ->
  starts_in digit tail = false -> ~ occurs "_P" tail ->
  re_match pattern1
    (l ++ "PE" ++ t ++ "_P" ++ d1 ++ "_R" ++ d2 ++ "_" ++ String c ("ep" ++ d3 ++ tail))
  = Some ["PE" ++ t; d1; d2; d3].
Proof.
  intros Hl Ht Hno H1 H2 H3 Hc Htail Hmark. unfold re_match, pattern1.
  set (R := "_P" ++ d1 ++ "_R" ++ d2 ++ "_" ++ String c ("ep" ++ d3 ++ tail)).
  pose proof (numbers_no_later d1 d2 d3 tail c H1 H2 H3 Hc Hmark) as Hscan. fold R in Hscan.
  apply run_many; [assumption| |].
  - change (run (Lit "PE" :: Many1 word :: Close
                 :: [Lit "_P"; Open; Many1 digit; Close; Lit "_R"; Open; Many1 digit; Close;
                     Lit "_"; One rep_initial; Lit "ep"; Open; Many1 digit; Close])
              ("PE" ++ t ++ R) [("PE" ++ t ++ R)] [] = Some ["PE" ++ t; d1; d2; d3]).
    apply run_lit. apply run_many; [assumption| |].
    + change (run [Lit "_P"; Open; Many1 digit; Close; Lit "_R"; Open; Many1 digit; Close;
                   Lit "_"; One rep_initial; Lit "ep"; Open; Many1 digit; Close]
                R [] [consumed ("PE" ++ t ++ R) R] = Some ["PE" ++ t; d1; d2; d3]).
      replace (consumed ("PE" ++ t ++ R) R) with ("PE" ++ t)
        by (symmetry; exact (consumed_PE t R)).
      exact (run_numbers "_P" "_" "R" d1 d2 d3 tail c [] ["PE" ++ t] H1 H2 H3 Hc Htail eq_refl).
    + intros x y Hx E Hall.
      pose proof (no_later_spec word "_P" R Hscan x y Hx E Hall) as Hnone.
      cbn [run]. now rewrite Hnone.
  - intros x y Hx E Hall.
    assert (Hscan' : no_later letters "PE" ("PE" ++ t ++ R) = true).
    { cbn [append]. rewrite no_later_cons. change (atom_matches letters "P") with true.
      cbv iota. change (Str.strip_prefix "PE" (String "E" (t ++ R))) with (@None string).
      cbv iota. rewrite no_later_cons. change (atom_matches letters "E") with true. cbv iota.
      destruct (absent_before_underscore t (String "P" (d1 ++ "_R" ++ d2 ++ "_"
                  ++ String c ("ep" ++ d3 ++ tail))) Hno) as [Hs Hn].
      unfold R. cbn [append] in *. now rewrite Hs. }
    pose proof (no_later_spec letters "PE" _ Hscan' x y Hx E Hall) as Hnone.
    cbn [run]. now rewrite Hnone.
Qed.

(** X18.  A name of ASCII text written as the first patterns expect is
    read exactly: with letters, [PE] and an editor suffix that holds no
    further [PE], then [_P], [_R] and the replicate with their numbers of
    at most [max_str_digits] digits each, the tuple holds the editor as
    written and the three numbers as [int] reads them; the same without
    editor, when the letters hold no [PE], with the two numbers in either
    order.  What follows the replicate is ignored, as long as it does not
    continue the number (nor, with an editor, hold a further [_P]). *)
Theorem X18_written_names_are_read_exactly (l d1 d2 d3 tail : string) (c : ascii)
  (w : world) :
  run_of letters l -> run_of digit d1 -> run_of digit d2 -> run_of digit d3 ->
  (String.length d1 <= Str.max_str_digits)%nat ->
  (String.length d2 <= Str.max_str_digits)%nat ->
  (String.length d3 <= Str.max_str_digits)%nat ->
  atom_matches rep_initial c = true ->
  Str.is_ascii tail = true ->
  starts_in digit tail = false ->
  exists n1 n2 rep,
    Str.int d1 = Ok n1 /\ Str.int d2 = Ok n2 /\ Str.int d3 = Ok rep
    /\ (forall t,
          run_of word t -> ~ occurs "PE" t -> ~ occurs "_P" tail ->
          extract_batch_info
            (l ++ "PE" ++ t ++ "_P" ++ d1 ++ "_R" ++ d2 ++ "_" ++ String c ("ep" ++ d3 ++ tail)) w
          = (Ok (Some ("PE" ++ t), Some n1, Some n2, Some rep, None), w))
    /\ (~ occurs "PE" l ->
        extract_batch_info
          (l ++ "_P" ++ d1 ++ "_R" ++ d2 ++ "_" ++ String c ("ep" ++ d3 ++ tail)) w
        = (Ok (None, Some n1, Some n2, Some rep, None), w))
    /\ (~ occurs "PE" l ->
        extract_batch_info
          (l ++ "_R" ++ d1 ++ "_P" ++ d2 ++ "_" ++ String c ("ep" ++ d3 ++ tail)) w
        = (Ok (None, Some n2, Some n1, Some rep, None), w)).
Proof.
  intros Hl H1 H2 H3 L1 L2 L3 Hc _ Htail.
  destruct (int_of_digits d1 H1 L1) as (n1 & Hn1 & _).
  destruct (int_of_digits d2 H2 L2) as (n2 & Hn2 & _).
  destruct (int_of_digits d3 H3 L3) as (rep & Hrep & _).
  exists n1, n2, rep. repeat (split; [assumption|]). split; [|split].
  - intros t Ht Hno Hmark.
    pose proof (pattern1_exact l t d1 d2 d3 tail c Hl Ht Hno H1 H2 H3 Hc Htail Hmark) as Hm.
    unfold extract_batch_info. rewrite Hm. read_groups. reflexivity.
  - intros Hno.
    destruct (no_editor_no_match l ("P" ++ d1 ++ "_R" ++ d2 ++ "_"
                                      ++ String c ("ep" ++ d3 ++ tail)) (proj2 Hl) Hno)
      as [Hm1 Hm2].
    pose proof (pattern3_exact l d1 d2 d3 tail c Hl H1 H2 H3 Hc Htail) as Hm3.
    unfold extract_batch_info.
    change (l ++ "_P" ++ d1 ++ "_R" ++ d2 ++ "_" ++ String c ("ep" ++ d3 ++ tail))
      with (l ++ String "_" ("P" ++ d1 ++ "_R" ++ d2 ++ "_" ++ String c ("ep" ++ d3 ++ tail)))
      in *.
    rewrite Hm1, Hm2, Hm3. read_groups. reflexivity.
  - intros Hno.
    destruct (no_editor_no_match l ("R" ++ d1 ++ "_P" ++ d2 ++ "_"
                                      ++ String c ("ep" ++ d3 ++ tail)) (proj2 Hl) Hno)
      as [Hm1 Hm2].
    pose proof (pattern3_rtt_first l (d1 ++ "_P" ++ d2 ++ "_" ++ String c ("ep" ++ d3 ++ tail))
                  (proj2 Hl)) as Hm3.
    pose proof (pattern4_exact l d1 d2 d3 tail c Hl H1 H2 H3 Hc Htail) as Hm4.
    unfold extract_batch_info.
    change (l ++ "_R" ++ d1 ++ "_P" ++ d2 ++ "_" ++ String c ("ep" ++ d3 ++ tail))
      with (l ++ String "_" ("R" ++ d1 ++ "_P" ++ d2 ++ "_" ++ String c ("ep" ++ d3 ++ tail)))
      in *.
    rewrite Hm1, Hm2, Hm3, Hm4. read_groups. reflexivity.
Qed.

(** X18, on the letters [HEK], the numbers 13, 9 and 3, and a trailing
    [_run2]. *)
Lemma X18_written_names_are_read_exactly_witness :
  exists n1 n2 rep,
    Str.int "13" = Ok n1 /\ Str.int "9" = Ok n2 /\ Str.int "3" = Ok rep
    /\ (forall t,
          run_of word t -> ~ occurs "PE" t -> ~ occurs "_P" "_run2" ->
          extract_batch_info
            ("HEK" ++ "PE" ++ t ++ "_P" ++ "13" ++ "_R" ++ "9" ++ "_"
               ++ String "r" ("ep" ++ "3" ++ "_run2")) empty_world
          = (Ok (Some ("PE" ++ t), Some n1, Some n2, Some rep, None), empty_world))
    /\ (~ occurs "PE" "HEK" ->
        extract_batch_info
          ("HEK" ++ "_P" ++ "13" ++ "_R" ++ "9" ++ "_" ++ String "r" ("ep" ++ "3" ++ "_run2"))
          empty_world
        = (Ok (None, Some n1, Some n2, Some rep, None), empty_world))
    /\ (~ occurs "PE" "HEK" ->
        extract_batch_info
          ("HEK" ++ "_R" ++ "13" ++ "_P" ++ "9" ++ "_" ++ String "r" ("ep" ++ "3" ++ "_run2"))
          empty_world
        = (Ok (None, Some n2, Some n1, Some rep, None), empty_world)).
Proof.
  apply (X18_written_names_are_read_exactly "HEK" "13" "9" "3" "_run2" "r" empty_world);
    try (split; [discriminate|reflexivity]);
    try (apply Nat.leb_le; vm_compute; reflexivity);
    reflexivity.
Defined.
